(** * MommyData: factor-trend and scenario controllers

    A shallow embedding of [app/controllers/scenario_controller.py] and
    [app/controllers/comparison_controller.py], together with the part
    of the relational store they query ([app/models/mother.py],
    [app/models/complication.py]).

    Conventions of the embedding:
    - a table is the list of its rows; a SELECT is a function of that list;
    - a nullable column is an [option]; SQL conditions are three-valued
      ([option bool], [None] being SQL's NULL/unknown) and a WHERE clause
      keeps the rows whose condition is [Some true];
    - Python [dict]s keyed by strings or integers are [gmap]s, the
      [years_set] is a [gset];
    - Python/SQL floating-point numbers are idealised as exact rationals
      ([Q]): statements about percentages are statements of exact
      arithmetic, compared with [Qeq];
    - strings are byte strings; [lower] folds the ASCII letters, which is
      what decides membership in [['total'; 'not stated']];
    - [await db.execute(...)] either yields the query result or raises
      when the store is unavailable ([outcome]). *)

From Stdlib Require Import ZArith QArith String Ascii.
From stdpp Require Import gmap strings list sorting.

#[local] Set Warnings "-clear-no-such-hyp".

Local Open Scope string_scope.
Local Open Scope list_scope.
Local Open Scope Z_scope.

(** ** Python values: truthiness and conversions *)

Module Py.

(** [if s:] on an [Optional[str]]: [None] and [''] are falsy. *)
Definition truthy_str (s : option string) : bool :=
  match s with
  | Some v => negb (String.eqb v EmptyString)
  | None => false
  end.

(** [if n:] on an [Optional[int]]: [None] and [0] are falsy. *)
Definition truthy_int (n : option Z) : bool :=
  match n with
  | Some v => negb (Z.eqb v 0)
  | None => false
  end.

(** [if x:] on an [Optional[float]]: [None] and [0.0] are falsy. *)
Definition truthy_float (x : option Q) : bool :=
  match x with
  | Some v => negb (Qeq_bool v 0)
  | None => false
  end.

(** [if l:] on an [Optional[list]]: [None] and [[]] are falsy. *)
Definition truthy_list {A} (l : option (list A)) : bool :=
  match l with
  | Some (_ :: _) => true
  | _ => false
  end.

(** [str.lower()] on one character (ASCII letters). *)
Definition lower_ascii (c : ascii) : ascii :=
  let n := nat_of_ascii c in
  if Nat.leb 65 n && Nat.leb n 90 then ascii_of_nat (n + 32) else c.

(** [str.lower()]. *)
Fixpoint lower (s : string) : string :=
  match s with
  | EmptyString => EmptyString
  | String c rest => String (lower_ascii c) (lower rest)
  end.

(** [x in l] for a list of strings. *)
Definition str_in (x : string) (l : list string) : bool :=
  existsb (String.eqb x) l.

(** [float(x) if x else 0.0]. *)
Definition float_or_zero (x : option Q) : Q :=
  match x with
  | Some v => if truthy_float x then v else 0%Q
  | None => 0%Q
  end.

(** [int(n) if n else 0]. *)
Definition int_or_zero (n : option Z) : Z :=
  match n with
  | Some v => if truthy_int n then v else 0
  | None => 0
  end.

(** [bool(b)] on an [Optional[bool]]. *)
Definition bool_of (b : option bool) : bool :=
  match b with
  | Some v => v
  | None => false
  end.

(** [str(s) if s else default]. *)
Definition str_or (s : option string) (default : string) : string :=
  match s with
  | Some v => if truthy_str s then v else default
  | None => default
  end.

(** The value of an optional argument when it is truthy ([if x:]),
    [None] when it is falsy. *)
Definition when_str (s : option string) : option string :=
  if truthy_str s then s else None.

Definition when_int (n : option Z) : option Z :=
  if truthy_int n then n else None.

(** [sorted(list(years_set))]. *)
Definition sorted (years_set : gset Z) : list Z :=
  merge_sort Z.le (elements years_set).

End Py.

(** ** The models ([app/models]) *)

Module Mother.

(** [class Mother(SQLModel, table=True)].  The primary key [id] is
    never NULL in a stored row; [year] is declared [int]. *)
Record t := mk {
  id : Z;
  age_group : option string;
  smoking_status : option string;
  bmi_category : option string;
  diabetes_pre : option bool;
  hypertension_pre : option bool;
  diabetes_subgroup : option string;
  hypertension_subgroup : option string;
  cultural_background : option string;
  lhd : option string;
  lga : option string;
  parity : option Z;
  year : Z;
  total_mothers : option Z;
  percentage : option Q
}.

End Mother.

Module Complication.

(** [class Complication(SQLModel, table=True)]. *)
Record t := mk {
  id : Z;
  mother_id : option Z;
  complication_type : option string;
  severity : option string;
  lhd : option string;
  year : Z;
  total_cases : option Z;
  percentage : option Q
}.

End Complication.

(** ** The relational store *)

(** The SQLAlchemy constructs the controllers build their queries
    from ([where], [and_], [or_], [is_], [isnot], [==], [!=], [in_],
    [group_by], [order_by], [func.count], [func.avg], [func.sum]), with
    the meaning the SQLite backend gives them: three-valued conditions,
    aggregates that skip NULL, NULL sorted first. *)
Module Sql.

(** A three-valued SQL condition on a row. *)
Definition condition (R : Type) := R → option bool.

Definition and3 (a b : option bool) : option bool :=
  match a, b with
  | Some false, _ | _, Some false => Some false
  | Some true, Some true => Some true
  | _, _ => None
  end.

Definition or3 (a b : option bool) : option bool :=
  match a, b with
  | Some true, _ | _, Some true => Some true
  | Some false, Some false => Some false
  | _, _ => None
  end.

(** [and_] applied to the list of conditions. *)
Definition and_ {R} (conditions : list (condition R)) : condition R :=
  λ r, foldr (λ c acc, and3 (c r) acc) (Some true) conditions.

(** [or_(a, b)]. *)
Definition or_ {R} (a b : condition R) : condition R :=
  λ r, or3 (a r) (b r).

(** [column.isnot(None)] and [column.is_(None)]: never unknown. *)
Definition isnot_None {R A} (column : R → option A) : condition R :=
  λ r, Some (bool_decide (is_Some (column r))).

Definition is_None {R A} (column : R → option A) : condition R :=
  λ r, Some (bool_decide (column r = None)).

(** [column == value] and [column != value]: unknown on NULL. *)
Definition eq {R A} `{EqDecision A} (column : R → option A) (value : A)
  : condition R :=
  λ r, (λ x, bool_decide (x = value)) <$> column r.

Definition ne {R A} `{EqDecision A} (column : R → option A) (value : A)
  : condition R :=
  λ r, (λ x, bool_decide (x ≠ value)) <$> column r.

(** [column.in_(values)]: unknown on NULL. *)
Definition in_ {R A} `{EqDecision A} (column : R → option A)
    (values : list A) : condition R :=
  λ r, (λ x, bool_decide (x ∈ values)) <$> column r.

(** Comparisons of the non-nullable integer column [year]. *)
Definition int_eq {R} (column : R → Z) (value : Z) : condition R :=
  λ r, Some (bool_decide (column r = value)).

Definition int_ge {R} (column : R → Z) (value : Z) : condition R :=
  λ r, Some (bool_decide (value ≤ column r)).

Definition int_le {R} (column : R → Z) (value : Z) : condition R :=
  λ r, Some (bool_decide (column r ≤ value)).

(** [.where(c)]: the rows on which [c] is true (not false, not unknown). *)
Definition where_ {R} (c : condition R) (rows : list R) : list R :=
  filter (λ r, c r = Some true) rows.

(** Aggregates skip NULL; [avg] and [sum] of no value are NULL,
    [count] of no value is 0. *)
Definition non_null {A} (xs : list (option A)) : list A := omap id xs.

Definition Qsum (xs : list Q) : Q := foldr Qplus 0%Q xs.

Definition Zsum (xs : list Z) : Z := foldr Z.add 0 xs.

(** The arithmetic mean of the values. *)
Definition mean (vs : list Q) : Q :=
  (Qsum vs / inject_Z (Z.of_nat (length vs)))%Q.

Definition avg (xs : list (option Q)) : option Q :=
  match non_null xs with
  | [] => None
  | vs => Some (mean vs)
  end.

Definition sum (xs : list (option Z)) : option Z :=
  match non_null xs with
  | [] => None
  | vs => Some (Zsum vs)
  end.

Definition count {A} (xs : list A) : Z := Z.of_nat (length xs).

(** [.group_by(key)]: one group per distinct key, holding the rows
    that carry it. *)
Definition group_by {R K} `{EqDecision K} (key : R → K) (rows : list R)
  : list (K * list R) :=
  (λ k, (k, filter (λ r, key r = k) rows)) <$> remove_dups (key <$> rows).

(** Ascending order of the sort keys: NULL first, text bytewise,
    false before true. *)
Definition cmp_then (c d : comparison) : comparison :=
  match c with
  | Eq => d
  | _ => c
  end.

Definition cmp_option {A} (cmp : A → A → comparison) (a b : option A)
  : comparison :=
  match a, b with
  | None, None => Eq
  | None, Some _ => Lt
  | Some _, None => Gt
  | Some x, Some y => cmp x y
  end.

Definition cmp_bool (a b : bool) : comparison :=
  match a, b with
  | false, true => Lt
  | true, false => Gt
  | _, _ => Eq
  end.

Definition cmp_le (c : comparison) : Prop :=
  match c with
  | Gt => False
  | _ => True
  end.

Global Instance cmp_le_dec c : Decision (cmp_le c) :=
  match c with
  | Gt => right (λ H : False, H)
  | Eq => left I
  | Lt => left I
  end.

(** [.order_by(key)] on the grouped rows. *)
Definition order_by {K G} (cmp : K → K → comparison)
    (groups : list (K * G)) : list (K * G) :=
  merge_sort (λ a b, cmp_le (cmp a.1 b.1)) groups.

End Sql.

(** ** The session *)

Inductive Session :=
  | Connected (mothers : list Mother.t) (complications : list Complication.t)
  | Unavailable.

(** What a controller call does: return a value or raise. *)
Inductive outcome (A : Type) :=
  | Returned (a : A)
  | Raised.
Arguments Returned {A} a.
Arguments Raised {A}.

Global Instance outcome_ret : MRet outcome := λ A a, Returned a.
Global Instance outcome_bind : MBind outcome := λ A B f m,
  match m with
  | Returned a => f a
  | Raised => Raised
  end.
Global Instance outcome_fmap : FMap outcome := λ A B f m,
  match m with
  | Returned a => Returned (f a)
  | Raised => Raised
  end.

(** [await db.execute(query)] over the [Mother] table. *)
Definition execute {A} (db : Session) (query : list Mother.t → A)
  : outcome A :=
  match db with
  | Connected mothers _ => Returned (query mothers)
  | Unavailable => Raised
  end.

(** [await db.execute(query)] over the [Complication] table. *)
Definition execute_complications {A} (db : Session)
    (query : list Complication.t → A) : outcome A :=
  match db with
  | Connected _ complications => Returned (query complications)
  | Unavailable => Raised
  end.

(** ** [scenario_controller]: the factor-trend views *)

(** The dictionary returned by both factor-trend views. *)
Record FactorResult := mkFactorResult {
  factor : string;
  user_age_group : option string;
  years : list Z;
  age_groups : gmap string (gmap string (gmap Z Q))
}.

(** [age_groups[age_group][label][year]], [None] when a key is missing. *)
Definition lookup3 (d : gmap string (gmap string (gmap Z Q)))
    (age_group label : string) (year : Z) : option Q :=
  by_label ← d !! age_group;
  by_year ← by_label !! label;
  by_year !! year.

(** [if key not in d: d[key] = {}]. *)
Definition ensure_key `{Countable K} {V} `{Empty V} (key : K)
    (d : gmap K V) : gmap K V :=
  match d !! key with
  | Some _ => d
  | None => <[key := ∅]> d
  end.

(** [d[age_group][label][year] = value], once [d[age_group]] exists:
    the inner dictionaries are shared with [d], so the assignment shows
    through it. *)
Definition label_write (age_group label : string) (year : Z) (value : Q)
    (d : gmap string (gmap string (gmap Z Q)))
  : gmap string (gmap string (gmap Z Q)) :=
  alter (alter (<[year := value]>) label) age_group
    (alter (ensure_key label) age_group d).

(** [row.age_group.lower() in ['total', 'not stated']]. *)
Definition is_sentinel (age_group : string) : bool :=
  Py.str_in (Py.lower age_group) ["total"; "not stated"].

(** The guard [if not row.age_group or row.age_group.lower() in
    ['total', 'not stated']: continue] of both loops: the age group
    under which a row is kept, [None] when the row is skipped. *)
Definition kept_age_group (age_group : option string) : option string :=
  match age_group with
  | Some ag =>
      if negb (Py.truthy_str (Some ag)) || is_sentinel ag then None
      else Some ag
  | None => None
  end.

(** The year block of both views (the same lines in [get_factor_data]
    and in [get_factor_data_simple]): [start_year] is the latest year,
    [end_year] the earliest. *)
Definition year_conditions (start_year end_year : option Z)
  : list (Sql.condition Mother.t) :=
  match Py.when_int start_year, Py.when_int end_year with
  | Some s, Some e =>                     (* if start_year and end_year *)
      [Sql.int_ge Mother.year e; Sql.int_le Mother.year s]
  | Some s, None =>                       (* elif start_year *)
      [Sql.int_le Mother.year s]
  | None, Some e =>                       (* elif end_year *)
      [Sql.int_ge Mother.year e]
  | None, None => []
  end.

Module Detail.

(** A row of the grouped query of [get_factor_data]. *)
Record row := mk {
  year : Z;
  age_group : option string;
  sub_group : option string;
  avg_percentage : option Q
}.

Definition key : Type := Z * option string * option string.

Definition key_of (subgroup_field : Mother.t → option string)
    (m : Mother.t) : key :=
  (Mother.year m, Mother.age_group m, subgroup_field m).

Definition row_key (r : row) : key := (year r, age_group r, sub_group r).

(** The columns of a recognized factor: the flag and its sub-group. *)
Definition fields (factor_name : string)
  : option ((Mother.t → option bool) * (Mother.t → option string)) :=
  if decide (factor_name = "diabetes") then
    Some (Mother.diabetes_pre, Mother.diabetes_subgroup)
  else if decide (factor_name = "hypertension") then
    Some (Mother.hypertension_pre, Mother.hypertension_subgroup)
  else None.

Definition cmp (a b : key) : comparison :=
  Sql.cmp_then (Z.compare a.1.1 b.1.1)
    (Sql.cmp_then (Sql.cmp_option String.compare a.1.2 b.1.2)
       (Sql.cmp_option String.compare a.2 b.2)).

(** The [conditions] list.  [subgroup_field] is a column object and
    is truthy. *)
Definition conditions (factor_field : Mother.t → option bool)
    (subgroup_field : Mother.t → option string)
    (start_year end_year : option Z) (sub_group : option (list string))
  : list (Sql.condition Mother.t) :=
  [Sql.isnot_None factor_field; Sql.isnot_None Mother.age_group]
  ++ (if Py.truthy_list sub_group then
        match sub_group with
        | Some [s] => [Sql.eq subgroup_field s]
        | Some l => [Sql.in_ subgroup_field l]
        | None => []
        end
      else [])
  ++ year_conditions start_year end_year.

(** The rows the WHERE clause keeps. *)
Definition selected (factor_field : Mother.t → option bool)
    (subgroup_field : Mother.t → option string)
    (start_year end_year : option Z) (sub_group : option (list string))
    (mothers : list Mother.t) : list Mother.t :=
  Sql.where_
    (Sql.and_ (conditions factor_field subgroup_field start_year end_year
                 sub_group))
    mothers.

(** [select(year, age_group, subgroup, avg(percentage)).where(...)
     .group_by(...).order_by(...)]. *)
Definition query (factor_field : Mother.t → option bool)
    (subgroup_field : Mother.t → option string)
    (start_year end_year : option Z) (sub_group : option (list string))
    (mothers : list Mother.t) : list row :=
  (λ g : key * list Mother.t,
     mk g.1.1.1 g.1.1.2 g.1.2 (Sql.avg (Mother.percentage <$> g.2)))
  <$> Sql.order_by cmp
        (Sql.group_by (key_of subgroup_field)
           (selected factor_field subgroup_field start_year end_year
              sub_group mothers)).

(** The body of [for row in result]. *)
Definition step
    (acc : gmap string (gmap string (gmap Z Q)) * gset Z) (r : row)
  : gmap string (gmap string (gmap Z Q)) * gset Z :=
  let '(age_groups_data, years_set) := acc in
  match age_group r with
  | None => acc
  | Some ag =>
      if negb (Py.truthy_str (Some ag)) || is_sentinel ag then acc
      else
        let year := year r in
        let age_group_key := ag in
        let sub_group_value := Py.str_or (sub_group r) "Unknown" in
        let percentage := Py.float_or_zero (avg_percentage r) in
        let years_set := years_set ∪ {[year]} in
        let age_groups_data := ensure_key age_group_key age_groups_data in
        let age_groups_data :=
          alter (ensure_key sub_group_value) age_group_key age_groups_data in
        let age_groups_data :=
          alter (alter (<[year := percentage]>) sub_group_value)
            age_group_key age_groups_data in
        (age_groups_data, years_set)
  end.

Definition loop (result : list row)
  : gmap string (gmap string (gmap Z Q)) * gset Z :=
  foldl step (∅, ∅) result.

End Detail.

(** [get_factor_data(db, factor_name, age_group, start_year, end_year,
    sub_group)]. *)
Definition get_factor_data (db : Session) (factor_name : string)
    (age_group : option string) (start_year end_year : option Z)
    (sub_group : option (list string)) : outcome FactorResult :=
  let results := mkFactorResult factor_name age_group [] ∅ in
  match Detail.fields factor_name with
  | None => mret results
  | Some (factor_field, subgroup_field) =>
      result ← execute db
        (Detail.query factor_field subgroup_field start_year end_year
           sub_group);
      let '(age_groups_data, years_set) := Detail.loop result in
      mret (mkFactorResult (factor results) (user_age_group results)
              (Py.sorted years_set) age_groups_data)
  end.

(** A Python [dict] whose iteration order is used: the items in
    insertion order. *)
Module Dict.

Section ops.
Context {K V : Type} `{EqDecision K}.

(** [d.get(k)]. *)
Fixpoint get (k : K) (d : list (K * V)) : option V :=
  match d with
  | [] => None
  | (k', v) :: rest => if decide (k = k') then Some v else get k rest
  end.

(** [d[k] = v]: replaces in place, or appends a new item. *)
Fixpoint set (k : K) (v : V) (d : list (K * V)) : list (K * V) :=
  match d with
  | [] => [(k, v)]
  | (k', v') :: rest =>
      if decide (k = k') then (k', v) :: rest
      else (k', v') :: set k v rest
  end.

(** Mutation of the value stored at [k] (nothing when [k] is absent). *)
Fixpoint update (f : V → V) (k : K) (d : list (K * V)) : list (K * V) :=
  match d with
  | [] => []
  | (k', v') :: rest =>
      if decide (k = k') then (k', f v') :: rest
      else (k', v') :: update f k rest
  end.
End ops.

End Dict.

Module Simple.

(** A row of the grouped query of [get_factor_data_simple]. *)
Record row := mk {
  year : Z;
  age_group : option string;
  has_factor : option bool;
  total_mothers : option Z
}.

Definition key : Type := Z * option string * option bool.

Definition key_of (factor_field : Mother.t → option bool)
    (m : Mother.t) : key :=
  (Mother.year m, Mother.age_group m, factor_field m).

Definition row_key (r : row) : key := (year r, age_group r, has_factor r).

(** The flag column of a recognized factor. *)
Definition field (factor_name : string) : option (Mother.t → option bool) :=
  if decide (factor_name = "diabetes") then Some Mother.diabetes_pre
  else if decide (factor_name = "hypertension") then
    Some Mother.hypertension_pre
  else None.

Definition cmp (a b : key) : comparison :=
  Sql.cmp_then (Z.compare a.1.1 b.1.1)
    (Sql.cmp_then (Sql.cmp_option String.compare a.1.2 b.1.2)
       (Sql.cmp_option Sql.cmp_bool a.2 b.2)).

(** The [conditions] list, with the exclusion of the "Total" sub-group
    records of the queried factor. *)
Definition conditions (factor_name : string)
    (factor_field : Mother.t → option bool)
    (start_year end_year : option Z) : list (Sql.condition Mother.t) :=
  [Sql.isnot_None factor_field; Sql.isnot_None Mother.age_group]
  ++ (if decide (factor_name = "diabetes") then
        [Sql.or_ (Sql.is_None Mother.diabetes_subgroup)
           (Sql.ne Mother.diabetes_subgroup "Total")]
      else if decide (factor_name = "hypertension") then
        [Sql.or_ (Sql.is_None Mother.hypertension_subgroup)
           (Sql.ne Mother.hypertension_subgroup "Total")]
      else [])
  ++ year_conditions start_year end_year.

(** The rows the WHERE clause keeps. *)
Definition selected (factor_name : string)
    (factor_field : Mother.t → option bool)
    (start_year end_year : option Z) (mothers : list Mother.t)
  : list Mother.t :=
  Sql.where_
    (Sql.and_ (conditions factor_name factor_field start_year end_year))
    mothers.

(** [select(year, age_group, factor, sum(total_mothers)).where(...)
     .group_by(...).order_by(...)]. *)
Definition query (factor_name : string)
    (factor_field : Mother.t → option bool)
    (start_year end_year : option Z) (mothers : list Mother.t)
  : list row :=
  (λ g : key * list Mother.t,
     mk g.1.1.1 g.1.1.2 g.1.2 (Sql.sum (Mother.total_mothers <$> g.2)))
  <$> Sql.order_by cmp
        (Sql.group_by (key_of factor_field)
           (selected factor_name factor_field start_year end_year mothers)).

(** The inner dictionary [{True: count, False: count}]. *)
Record counts := mkCounts {
  count_true : Z;
  count_false : Z
}.

(** [counts[has_factor]]. *)
Definition get_count (c : counts) (has_factor : bool) : Z :=
  if has_factor then count_true c else count_false c.

(** [counts[has_factor] = count]. *)
Definition set_count (has_factor : bool) (count : Z) (c : counts)
  : counts :=
  if has_factor then mkCounts count (count_false c)
  else mkCounts (count_true c) count.

(** [temp_data[key][has_factor]], read as 0 (the value both counts
    start from) while [key] is missing. *)
Definition count_at (temp_data : list (string * Z * counts))
    (key : string * Z) (has_factor : bool) : Z :=
  match Dict.get key temp_data with
  | Some c => get_count c has_factor
  | None => 0
  end.

(** The body of the first pass. *)
Definition first_step (acc : list (string * Z * counts) * gset Z)
    (r : row) : list (string * Z * counts) * gset Z :=
  let '(temp_data, years_set) := acc in
  match age_group r with
  | None => acc
  | Some ag =>
      if negb (Py.truthy_str (Some ag)) || is_sentinel ag then acc
      else
        let year := year r in
        let age_group_key := ag in
        let has_factor := Py.bool_of (has_factor r) in
        let count := Py.int_or_zero (total_mothers r) in
        let years_set := years_set ∪ {[year]} in
        let key := (age_group_key, year) in
        let temp_data :=
          match Dict.get key temp_data with
          | Some _ => temp_data
          | None => Dict.set key (mkCounts 0 0) temp_data
          end in
        let temp_data :=
          Dict.update (set_count has_factor count) key temp_data in
        (temp_data, years_set)
  end.

Definition first_pass (result : list row)
  : list (string * Z * counts) * gset Z :=
  foldl first_step ([], ∅) result.

(** [(counts[has_factor] / total * 100) if total > 0 else 0.0]. *)
Definition percentage_of (c : counts) (total : Z) (has_factor : bool)
  : Q :=
  if bool_decide (0 < total) then
    (inject_Z (get_count c has_factor) / inject_Z total * 100)%Q
  else 0%Q.

(** The body of [for has_factor, label in [(True, "Yes"), (False, "No")]]. *)
Definition label_step (age_group_key : string) (year : Z) (c : counts)
    (total : Z) (age_groups_data : gmap string (gmap string (gmap Z Q)))
    (item : bool * string) : gmap string (gmap string (gmap Z Q)) :=
  let '(has_factor, label) := item in
  let age_groups_data :=
    alter (ensure_key label) age_group_key age_groups_data in
  let percentage := percentage_of c total has_factor in
  alter (alter (<[year := percentage]>) label) age_group_key
    age_groups_data.

(** The body of the second pass. *)
Definition second_step
    (age_groups_data : gmap string (gmap string (gmap Z Q)))
    (item : string * Z * counts) : gmap string (gmap string (gmap Z Q)) :=
  let '(age_group_key, year, c) := item in
  let total := get_count c true + get_count c false in
  if bool_decide (total = 0) then age_groups_data
  else
    let age_groups_data := ensure_key age_group_key age_groups_data in
    foldl (label_step age_group_key year c total) age_groups_data
      [(true, "Yes"); (false, "No")].

Definition second_pass (temp_data : list (string * Z * counts))
  : gmap string (gmap string (gmap Z Q)) :=
  foldl second_step ∅ temp_data.

End Simple.

(** [get_factor_data_simple(db, factor_name, age_group, start_year,
    end_year)]. *)
Definition get_factor_data_simple (db : Session) (factor_name : string)
    (age_group : option string) (start_year end_year : option Z)
  : outcome FactorResult :=
  let results := mkFactorResult factor_name age_group [] ∅ in
  match Simple.field factor_name with
  | None => mret results
  | Some factor_field =>
      result ← execute db
        (Simple.query factor_name factor_field start_year end_year);
      let '(temp_data, years_set) := Simple.first_pass result in
      let age_groups_data := Simple.second_pass temp_data in
      mret (mkFactorResult (factor results) (user_age_group results)
              (Py.sorted years_set) age_groups_data)
  end.

(** ** The scenario snapshots *)

Module Snapshot.

(** The row of an aggregate query without GROUP BY:
    [select(count(Mother.id), avg(Mother.percentage))]. *)
Record row := mkRow {
  row_total : Z;
  row_avg_percentage : option Q
}.

(** The dictionary [{"total": ..., "avg_percentage": ...}]. *)
Record stats := mkStats {
  total : Z;
  avg_percentage : Q
}.

(** An aggregate without GROUP BY yields exactly one row, also when
    no row is selected. *)
Definition aggregate (selected : list Mother.t) : list row :=
  [mkRow (Sql.count (Mother.id <$> selected))
         (Sql.avg (Mother.percentage <$> selected))].

(** [result.first()]. *)
Definition first (result : list row) : option row := head result.

(** [{"total": stats.total if stats else 0,
      "avg_percentage": float(stats.avg_percentage)
                        if stats and stats.avg_percentage else 0.0}]. *)
Definition to_stats (s : option row) : stats :=
  mkStats
    (match s with
     | Some r => row_total r
     | None => 0
     end)
    (match s with
     | Some r => Py.float_or_zero (row_avg_percentage r)
     | None => 0%Q
     end).

(** The rows of the population baseline: [.where(Mother.year == 2023)]. *)
Definition reference_year (mothers : list Mother.t) : list Mother.t :=
  Sql.where_ (Sql.int_eq Mother.year 2023) mothers.

(** The baseline query. *)
Definition overall_query (mothers : list Mother.t) : list row :=
  aggregate (reference_year mothers).

(** The profile attributes of a request. *)
Record profile := mkProfile {
  age_group : option string;
  smoking : option string;
  bmi : option string;
  diabetes : option bool;
  hypertension : option bool;
  lhd : option string
}.

(** The [filters] list built from the attributes supplied: text
    attributes by truthiness, flags by [is not None]. *)
Definition filters (p : profile) : list (Sql.condition Mother.t) :=
  (match Py.when_str (age_group p) with
   | Some v => [Sql.eq Mother.age_group v]
   | None => []
   end)
  ++ (match Py.when_str (smoking p) with
      | Some v => [Sql.eq Mother.smoking_status v]
      | None => []
      end)
  ++ (match Py.when_str (bmi p) with
      | Some v => [Sql.eq Mother.bmi_category v]
      | None => []
      end)
  ++ (match diabetes p with
      | Some v => [Sql.eq Mother.diabetes_pre v]
      | None => []
      end)
  ++ (match hypertension p with
      | Some v => [Sql.eq Mother.hypertension_pre v]
      | None => []
      end)
  ++ (match Py.when_str (lhd p) with
      | Some v => [Sql.eq Mother.lhd v]
      | None => []
      end).

End Snapshot.

Module Preparing.

(** An entry of [results["complications"]]. *)
Record complication := mkComplication {
  type_ : option string;
  count : Z;
  percentage : Q
}.

(** The dictionary returned by [get_preparing_scenario_data]. *)
Record result := mkResult {
  mothers : Snapshot.stats;
  complications : list complication;
  overall_average : Snapshot.stats
}.

(** The rows of the matching-mothers query: the reference year, and
    the filters when there is one ([if filters:]). *)
Definition matching (filters : list (Sql.condition Mother.t))
    (table : list Mother.t) : list Mother.t :=
  let selected := Sql.where_ (Sql.int_eq Mother.year 2023) table in
  match filters with
  | [] => selected
  | _ :: _ => Sql.where_ (Sql.and_ filters) selected
  end.

(** The matching-mothers query. *)
Definition mothers_query (filters : list (Sql.condition Mother.t))
    (table : list Mother.t) : list Snapshot.row :=
  Snapshot.aggregate (matching filters table).

(** The complication query, grouped by type.  SQL leaves the order
    of the groups open; they are listed by first occurrence. *)
Definition comp_query (table : list Complication.t)
  : list (option string * Z * option Q) :=
  (λ g : option string * list Complication.t,
     (g.1, Sql.count (Complication.id <$> g.2),
      Sql.avg (Complication.percentage <$> g.2)))
  <$> Sql.group_by Complication.complication_type
        (Sql.where_ (Sql.int_eq Complication.year 2023) table).

End Preparing.

(** [get_preparing_scenario_data(db, age_group, smoking, bmi, diabetes,
    hypertension, lhd)]. *)
Definition get_preparing_scenario_data (db : Session)
    (age_group smoking bmi : option string)
    (diabetes hypertension : option bool) (lhd : option string)
  : outcome Preparing.result :=
  let filters :=
    Snapshot.filters
      (Snapshot.mkProfile age_group smoking bmi diabetes hypertension lhd) in
  result ← execute db (Preparing.mothers_query filters);
  let stats := Snapshot.first result in
  let mothers := Snapshot.to_stats stats in
  comp_result ← execute_complications db Preparing.comp_query;
  let complications :=
    (λ row : option string * Z * option Q,
       Preparing.mkComplication row.1.1 row.1.2 (Py.float_or_zero row.2))
    <$> comp_result in
  overall_result ← execute db Snapshot.overall_query;
  let overall_stats := Snapshot.first overall_result in
  mret (Preparing.mkResult mothers complications
          (Snapshot.to_stats overall_stats)).

Module Comparison.

(** The dictionary returned by [get_comparison_data]; [None] is the
    empty dictionary [{}] the two statistics entries start from. *)
Record result := mkResult {
  user_conditions : Snapshot.profile;
  user_stats : option Snapshot.stats;
  overall_average : option Snapshot.stats
}.

(** The rows of the user query: the filters alone, in any year. *)
Definition matching (user_filters : list (Sql.condition Mother.t))
    (table : list Mother.t) : list Mother.t :=
  Sql.where_ (Sql.and_ user_filters) table.

(** The user query. *)
Definition user_query (user_filters : list (Sql.condition Mother.t))
    (table : list Mother.t) : list Snapshot.row :=
  Snapshot.aggregate (matching user_filters table).

End Comparison.

(** [get_comparison_data(db, scenario, filters)]; [filters] holds the
    entries the function reads, an absent key being [None]
    ([filters.get]). *)
Definition get_comparison_data (db : Session) (scenario : string)
    (filters : Snapshot.profile) : outcome Comparison.result :=
  let results := Comparison.mkResult filters None None in
  if decide (scenario = "preparing") then
    let user_filters := Snapshot.filters filters in
    user_stats ←
      match user_filters with
      | [] => mret (Comparison.user_stats results)
      | _ :: _ =>
          user_result ← execute db (Comparison.user_query user_filters);
          mret (Some (Snapshot.to_stats (Snapshot.first user_result)))
      end;
    overall_result ← execute db Snapshot.overall_query;
    let overall_stats := Snapshot.first overall_result in
    mret (Comparison.mkResult (Comparison.user_conditions results)
            user_stats (Some (Snapshot.to_stats overall_stats)))
  else if decide (scenario = "pregnant") then mret results
  else mret results.

(** A [Mother] row carrying the columns the factor views read. *)
Definition factor_record (id : Z) (age_group : option string)
    (diabetes_pre hypertension_pre : option bool)
    (diabetes_subgroup hypertension_subgroup : option string) (year : Z)
    (total_mothers : option Z) (percentage : option Q) : Mother.t :=
  Mother.mk id age_group None None diabetes_pre hypertension_pre
    diabetes_subgroup hypertension_subgroup None None None None year
    total_mothers percentage.

(** ** [scenario_controller.get_pregnant_scenario_data] *)

Module Birth.

(** [class Birth(SQLModel, table=True)]. *)
Record t := mk {
  id : Z;
  mother_id : option Z;
  birth_type : option string;
  onset_labour : option string;
  birth_location : option string;
  hospital_name : option string;
  hospital_id : option Z;
  pain_relief_type : option string;
  hospital_stay_days : option Q;
  gestational_age : option Z;
  gestational_age_category : option string;
  lhd : option string;
  year : Z;
  total_births : option Z;
  percentage : option Q
}.

End Birth.

Module Baby.

(** [class Baby(SQLModel, table=True)]. *)
Record t := mk {
  id : Z;
  birth_id : option Z;
  birth_weight : option Q;
  birth_weight_category : option string;
  apgar_score : option Z;
  apgar_category : option string;
  nicu_admission : option bool;
  scunicu_admission : option bool;
  breastfeeding_initiated : option bool;
  breastfeeding_at_discharge : option bool;
  lhd : option string;
  year : Z;
  total_babies : option Z;
  percentage : option Q
}.

End Baby.

Module AntenatalCare.

(** [class AntenatalCare(SQLModel, table=True)]. *)
Record t := mk {
  id : Z;
  mother_id : option Z;
  first_visit_week : option Z;
  first_visit_category : option string;
  visit_count : option Z;
  risk_level : option string;
  lhd : option string;
  year : Z;
  total_cases : option Z;
  percentage : option Q
}.

End AntenatalCare.

Module Pregnant.

(** The session, seen through the two tables the function queries. *)
Inductive session :=
  | Connected (births : list Birth.t) (babies : list Baby.t)
  | Unavailable.

(** [await db.execute(query)] over the [Birth] table. *)
Definition execute_births {A} (db : session) (query : list Birth.t → A)
  : outcome A :=
  match db with
  | Connected births _ => Returned (query births)
  | Unavailable => Raised
  end.

(** [await db.execute(query)] over the [Baby] table. *)
Definition execute_babies {A} (db : session) (query : list Baby.t → A)
  : outcome A :=
  match db with
  | Connected _ babies => Returned (query babies)
  | Unavailable => Raised
  end.

(** An entry of [results["labour_onset"]] or [results["birth_types"]]. *)
Record rate := mkRate {
  type_ : option string;
  count : Z;
  percentage : Q
}.

(** A dictionary [{"count": ..., "percentage": ...}]. *)
Record figure := mkFigure {
  figure_count : Z;
  figure_percentage : Q
}.

(** The dictionary returned by [get_pregnant_scenario_data]. *)
Record result := mkResult {
  labour_onset : list rate;
  birth_types : list rate;
  preterm : figure;
  low_birth_weight : figure;
  nicu : figure
}.

(** The [antenatal_filters] list ([if age_group: pass]). *)
Definition antenatal_filters (age_group antenatal_week lhd : option string)
  : list (Sql.condition AntenatalCare.t) :=
  (match Py.when_str antenatal_week with
   | Some v => [Sql.eq AntenatalCare.first_visit_category v]
   | None => []
   end)
  ++ (match Py.when_str lhd with
      | Some v => [Sql.eq AntenatalCare.lhd v]
      | None => []
      end).

(** The [birth_filters] list ([if age_group: pass]). *)
Definition birth_filters (age_group lhd : option string)
  : list (Sql.condition Birth.t) :=
  match Py.when_str lhd with
  | Some v => [Sql.eq Birth.lhd v]
  | None => []
  end.

(** The births of [.where(and_(Birth.year == 2023, *birth_filters))]. *)
Definition births_of_year (filters : list (Sql.condition Birth.t))
    (births : list Birth.t) : list Birth.t :=
  Sql.where_ (Sql.and_ (Sql.int_eq Birth.year 2023 :: filters)) births.

(** [induction_query]: grouped by [Birth.onset_labour].  SQL leaves
    the order of the groups open; they are listed by first occurrence. *)
Definition induction_query (filters : list (Sql.condition Birth.t))
    (births : list Birth.t) : list (option string * Z * option Q) :=
  (λ g : option string * list Birth.t,
     (g.1, Sql.count (Birth.id <$> g.2), Sql.avg (Birth.percentage <$> g.2)))
  <$> Sql.group_by Birth.onset_labour (births_of_year filters births).

(** [birth_type_query]: grouped by [Birth.birth_type]. *)
Definition birth_type_query (filters : list (Sql.condition Birth.t))
    (births : list Birth.t) : list (option string * Z * option Q) :=
  (λ g : option string * list Birth.t,
     (g.1, Sql.count (Birth.id <$> g.2), Sql.avg (Birth.percentage <$> g.2)))
  <$> Sql.group_by Birth.birth_type (births_of_year filters births).

(** The loop [for row in ...: results[...].append({...})]. *)
Definition rates (rows : list (option string * Z * option Q)) : list rate :=
  (λ row : option string * Z * option Q,
     mkRate row.1.1 row.1.2 (Py.float_or_zero row.2))
  <$> rows.

(** The births of [preterm_query]. *)
Definition preterm_births (filters : list (Sql.condition Birth.t))
    (births : list Birth.t) : list Birth.t :=
  Sql.where_
    (Sql.and_ (Sql.int_eq Birth.year 2023
               :: Sql.eq Birth.gestational_age_category "preterm"
               :: filters))
    births.

(** [preterm_query]: an aggregate without GROUP BY, one row. *)
Definition preterm_query (filters : list (Sql.condition Birth.t))
    (births : list Birth.t) : list (Z * option Q) :=
  let selected := preterm_births filters births in
  [(Sql.count (Birth.id <$> selected),
    Sql.avg (Birth.percentage <$> selected))].

(** The babies of [low_bw_query]. *)
Definition low_bw_babies (babies : list Baby.t) : list Baby.t :=
  Sql.where_
    (Sql.and_ [Sql.int_eq Baby.year 2023;
               Sql.eq Baby.birth_weight_category "low"])
    babies.

(** The babies of [nicu_query]. *)
Definition nicu_babies (babies : list Baby.t) : list Baby.t :=
  Sql.where_
    (Sql.and_ [Sql.int_eq Baby.year 2023;
               Sql.or_ (Sql.eq Baby.nicu_admission true)
                 (Sql.eq Baby.scunicu_admission true)])
    babies.

(** The aggregate [select(count(Baby.id), avg(Baby.percentage))]. *)
Definition baby_aggregate (selected : list Baby.t) : list (Z * option Q) :=
  [(Sql.count (Baby.id <$> selected),
    Sql.avg (Baby.percentage <$> selected))].

(** [{"count": stats.count if stats else 0,
      "percentage": float(stats.percentage)
                    if stats and stats.percentage else 0.0}]. *)
Definition to_figure (stats : option (Z * option Q)) : figure :=
  mkFigure
    (match stats with
     | Some s => s.1
     | None => 0
     end)
    (match stats with
     | Some s => Py.float_or_zero s.2
     | None => 0%Q
     end).

End Pregnant.

(** [get_pregnant_scenario_data(db, age_group, antenatal_week,
    current_week, lhd)]. *)
Definition get_pregnant_scenario_data (db : Pregnant.session)
    (age_group antenatal_week : option string) (current_week : option Z)
    (lhd : option string) : outcome Pregnant.result :=
  let antenatal_filters :=
    Pregnant.antenatal_filters age_group antenatal_week lhd in
  let birth_filters := Pregnant.birth_filters age_group lhd in
  induction_result ←
    Pregnant.execute_births db (Pregnant.induction_query birth_filters);
  let labour_onset := Pregnant.rates induction_result in
  birth_type_result ←
    Pregnant.execute_births db (Pregnant.birth_type_query birth_filters);
  let birth_types := Pregnant.rates birth_type_result in
  preterm_result ←
    Pregnant.execute_births db (Pregnant.preterm_query birth_filters);
  let preterm := Pregnant.to_figure (head preterm_result) in
  low_bw_result ←
    Pregnant.execute_babies db
      (λ babies, Pregnant.baby_aggregate (Pregnant.low_bw_babies babies));
  let low_birth_weight := Pregnant.to_figure (head low_bw_result) in
  nicu_result ←
    Pregnant.execute_babies db
      (λ babies, Pregnant.baby_aggregate (Pregnant.nicu_babies babies));
  let nicu := Pregnant.to_figure (head nicu_result) in
  mret (Pregnant.mkResult labour_onset birth_types preterm low_birth_weight
          nicu).

(** A [Birth] row carrying the columns the scenario reads. *)
Definition birth_record (id : Z) (birth_type onset_labour : option string)
    (gestational_age_category lhd : option string) (year : Z)
    (percentage : option Q) : Birth.t :=
  Birth.mk id None birth_type onset_labour None None None None None None
    gestational_age_category lhd year None percentage.

(** A [Baby] row carrying the columns the scenario reads. *)
Definition baby_record (id : Z) (birth_weight_category : option string)
    (nicu_admission scunicu_admission : option bool) (lhd : option string)
    (year : Z) (percentage : option Q) : Baby.t :=
  Baby.mk id None None birth_weight_category None None nicu_admission
    scunicu_admission None None lhd year None percentage.

(** A [Complication] row carrying the columns the scenario reads. *)
Definition complication_record (id : Z) (complication_type : option string)
    (year : Z) (percentage : option Q) : Complication.t :=
  Complication.mk id None complication_type None None year None percentage.

(** A [Mother] row carrying the columns the snapshots filter on. *)
Definition profile_record (id : Z) (age_group smoking_status : option string)
    (bmi_category : option string) (diabetes_pre hypertension_pre : option bool)
    (lhd : option string) (year : Z) (percentage : option Q) : Mother.t :=
  Mother.mk id age_group smoking_status bmi_category diabetes_pre
    hypertension_pre None None None lhd None None year None percentage.

(** * Properties *)

(** ** The relational store *)

Section sql_facts.
Context {R : Type}.
Implicit Types (c : Sql.condition R) (rows : list R) (r : R).

Lemma elem_of_where c rows r :
  r ∈ Sql.where_ c rows ↔ r ∈ rows ∧ c r = Some true.
Proof. unfold Sql.where_. rewrite list_elem_of_filter. tauto. Qed.

Lemma and3_true a b : Sql.and3 a b = Some true ↔ a = Some true ∧ b = Some true.
Proof. destruct a as [[]|], b as [[]|]; simpl; intuition congruence. Qed.

Lemma or3_true a b : Sql.or3 a b = Some true ↔ a = Some true ∨ b = Some true.
Proof. destruct a as [[]|], b as [[]|]; simpl; intuition congruence. Qed.

Lemma and_nil r : Sql.and_ (R:=R) [] r = Some true.
Proof. reflexivity. Qed.

Lemma and_cons c cs r :
  Sql.and_ (c :: cs) r = Some true ↔ c r = Some true ∧ Sql.and_ cs r = Some true.
Proof. unfold Sql.and_. simpl. apply and3_true. Qed.

Lemma and_app cs1 cs2 r :
  Sql.and_ (cs1 ++ cs2) r = Some true ↔
  Sql.and_ cs1 r = Some true ∧ Sql.and_ cs2 r = Some true.
Proof.
  induction cs1 as [|c cs1 IH].
  - split; [intros H; split; [reflexivity | exact H] | tauto].
  - rewrite <- app_comm_cons, !and_cons, IH. tauto.
Qed.

Lemma isnot_None_true {A} (column : R → option A) r :
  Sql.isnot_None column r = Some true ↔ is_Some (column r).
Proof.
  unfold Sql.isnot_None. destruct (decide (is_Some (column r))) as [H|H].
  - rewrite bool_decide_eq_true_2 by done. tauto.
  - rewrite bool_decide_eq_false_2 by done. split; [discriminate | tauto].
Qed.


Section grouping.
Context {K : Type} `{EqDecision K}.
Implicit Types (key : R → K).

Lemma group_by_keys key rows :
  (Sql.group_by key rows).*1 = remove_dups (key <$> rows).
Proof.
  unfold Sql.group_by. rewrite <- list_fmap_compose.
  induction (remove_dups (key <$> rows)) as [|k ks IH]; [done|].
  csimpl. by f_equal.
Qed.

Lemma group_by_NoDup key rows : NoDup (Sql.group_by key rows).*1.
Proof. rewrite group_by_keys. apply NoDup_remove_dups. Qed.

Lemma elem_of_group_by key rows k g :
  (k, g) ∈ Sql.group_by key rows ↔
  (∃ r, r ∈ rows ∧ key r = k) ∧ g = filter (λ r, key r = k) rows.
Proof.
  unfold Sql.group_by. rewrite list_elem_of_fmap. split.
  - intros (k' & [= -> ->] & Hin).
    apply elem_of_remove_dups, list_elem_of_fmap in Hin as (r & -> & Hr).
    eauto.
  - intros [(r & Hr & <-) ->]. exists (key r). split; [done|].
    apply elem_of_remove_dups, list_elem_of_fmap. eauto.
Qed.

Lemma order_by_perm {G} (cmp : K → K → comparison)
    (groups : list (K * G)) :
  Sql.order_by cmp groups ≡ₚ groups.
Proof. apply merge_sort_Permutation. Qed.
End grouping.
End sql_facts.

Lemma Some_bool_decide_true (P : Prop) `{Decision P} :
  Some (bool_decide P) = Some true ↔ P.
Proof.
  destruct (decide P).
  - rewrite bool_decide_eq_true_2 by done. tauto.
  - rewrite bool_decide_eq_false_2 by done. split; [discriminate | tauto].
Qed.

Lemma when_int_Some (n : option Z) (v : Z) :
  Py.when_int n = Some v ↔ n = Some v ∧ v ≠ 0.
Proof.
  unfold Py.when_int, Py.truthy_int. destruct n as [x|]; simpl.
  - destruct (Z.eqb_spec x 0); simpl; split;
      [discriminate | intros [[= ->] ?]; done
      | intros [= ->]; done | intros [? _]; done].
  - split; [discriminate | intros [? _]; done].
Qed.

Lemma when_int_None (n : option Z) :
  Py.when_int n = None ↔ n = None ∨ n = Some 0.
Proof.
  unfold Py.when_int, Py.truthy_int. destruct n as [x|]; simpl.
  - destruct (Z.eqb_spec x 0) as [->|Hne]; simpl; split; auto.
    intros [?|[= ?]]; done.
  - split; auto.
Qed.

(** What the year block lets through: a bound is applied when it is
    given and not zero. *)
Lemma year_conditions_true (start_year end_year : option Z) (m : Mother.t) :
  Sql.and_ (year_conditions start_year end_year) m = Some true ↔
  (∀ s, start_year = Some s → s ≠ 0 → Mother.year m ≤ s) ∧
  (∀ e, end_year = Some e → e ≠ 0 → e ≤ Mother.year m).
Proof.
  unfold year_conditions.
  destruct (Py.when_int start_year) as [s|] eqn:Hs;
    destruct (Py.when_int end_year) as [e|] eqn:He;
    try rewrite when_int_Some in Hs; try rewrite when_int_None in Hs;
    try rewrite when_int_Some in He; try rewrite when_int_None in He;
    rewrite ?and_cons; unfold Sql.int_ge, Sql.int_le;
    rewrite ?Some_bool_decide_true.
  - destruct Hs as [-> ?], He as [-> ?]. naive_solver.
  - destruct Hs as [-> ?], He as [->| ->]; naive_solver.
  - destruct He as [-> ?], Hs as [->| ->]; naive_solver.
  - destruct He as [->| ->], Hs as [->| ->]; naive_solver.
Qed.

(** ** Row selection *)

Lemma detail_selected_split ff sf sy ey sg rows (m : Mother.t) :
  m ∈ Detail.selected ff sf sy ey sg rows ↔
  m ∈ Detail.selected ff sf None None sg rows ∧
  Sql.and_ (year_conditions sy ey) m = Some true.
Proof.
  unfold Detail.selected, Detail.conditions.
  rewrite !elem_of_where, !app_assoc, !(and_app _ (year_conditions _ _)).
  change (year_conditions None None) with (@nil (Sql.condition Mother.t)).
  rewrite and_nil. tauto.
Qed.

Lemma simple_selected_split f ff sy ey rows (m : Mother.t) :
  m ∈ Simple.selected f ff sy ey rows ↔
  m ∈ Simple.selected f ff None None rows ∧
  Sql.and_ (year_conditions sy ey) m = Some true.
Proof.
  unfold Simple.selected, Simple.conditions.
  rewrite !elem_of_where, !app_assoc, !(and_app _ (year_conditions _ _)).
  change (year_conditions None None) with (@nil (Sql.condition Mother.t)).
  rewrite and_nil. tauto.
Qed.

Lemma when_int_idem (n : option Z) : Py.when_int (Py.when_int n) = Py.when_int n.
Proof.
  unfold Py.when_int, Py.truthy_int. destruct n as [v|]; [|done].
  destruct (Z.eqb_spec v 0) as [->|Hne]; simpl; [done|].
  by destruct (Z.eqb_spec v 0).
Qed.

(** The cases of the year block, for any selection that splits into
    the selection without year arguments and the year block. *)
Lemma year_block_cases (sel : option Z → option Z → list Mother.t)
    (m : Mother.t) :
  (∀ sy ey, m ∈ sel sy ey ↔
            m ∈ sel None None ∧
            Sql.and_ (year_conditions sy ey) m = Some true) →
  (∀ s e, s ≠ 0 → e ≠ 0 →
          (m ∈ sel (Some s) (Some e) ↔
           m ∈ sel None None ∧ e ≤ Mother.year m ≤ s)) ∧
  (∀ s, s ≠ 0 →
        (m ∈ sel (Some s) None ↔ m ∈ sel None None ∧ Mother.year m ≤ s)) ∧
  (∀ e, e ≠ 0 →
        (m ∈ sel None (Some e) ↔ m ∈ sel None None ∧ e ≤ Mother.year m)) ∧
  (∀ sy ey, m ∈ sel sy ey ↔ m ∈ sel (Py.when_int sy) (Py.when_int ey)).
Proof.
  intros Hsplit. split; [|split; [|split]].
  - intros s e Hs He. rewrite Hsplit, year_conditions_true. split.
    + intros (? & H1 & H2). specialize (H1 s eq_refl Hs).
      specialize (H2 e eq_refl He). split; [done | lia].
    + intros (? & ? & ?). split; [done|].
      split; intros ? [= <-] _; done.
  - intros s Hs. rewrite Hsplit, year_conditions_true. split.
    + intros (? & H1 & _). specialize (H1 s eq_refl Hs). done.
    + intros (? & ?). split; [done|]. split; [intros ? [= <-] _; done | done].
  - intros e He. rewrite Hsplit, year_conditions_true. split.
    + intros (? & _ & H2). specialize (H2 e eq_refl He). done.
    + intros (? & ?). split; [done|]. split; [done | intros ? [= <-] _; done].
  - intros sy ey. rewrite (Hsplit sy ey), (Hsplit (Py.when_int sy)).
    unfold year_conditions. by rewrite !when_int_idem.
Qed.

(** C2 (as amended).  In both factor-trend views, with [start_year] the
    upper and [end_year] the lower bound: when both are given and not 0,
    exactly the rows with [end_year <= year <= start_year] among the
    rows selected without year arguments are selected; when only a
    non-zero [start_year] is given, those with [year <= start_year];
    when only a non-zero [end_year] is given, those with
    [year >= end_year]; and an argument equal to 0 selects as an
    absent one (the arguments are tested by truthiness), so that
    neither given, or given as 0, sets no bound. *)
Theorem year_arguments_bound_selection (rows : list Mother.t)
    (m : Mother.t) :
  let bounds (sel : option Z → option Z → list Mother.t) :=
    (∀ s e, s ≠ 0 → e ≠ 0 →
            (m ∈ sel (Some s) (Some e) ↔
             m ∈ sel None None ∧ e ≤ Mother.year m ≤ s)) ∧
    (∀ s, s ≠ 0 →
          (m ∈ sel (Some s) None ↔ m ∈ sel None None ∧ Mother.year m ≤ s)) ∧
    (∀ e, e ≠ 0 →
          (m ∈ sel None (Some e) ↔ m ∈ sel None None ∧ e ≤ Mother.year m)) ∧
    (∀ sy ey, m ∈ sel sy ey ↔ m ∈ sel (Py.when_int sy) (Py.when_int ey)) in
  (∀ factor_field subgroup_field sub_group,
     bounds (λ start_year end_year,
               Detail.selected factor_field subgroup_field start_year end_year
                 sub_group rows)) ∧
  (∀ factor_name factor_field,
     bounds (λ start_year end_year,
               Simple.selected factor_name factor_field start_year end_year
                 rows)).
Proof.
  intros bounds. split; intros.
  - apply (year_block_cases
             (λ sy ey, Detail.selected factor_field subgroup_field sy ey
                         sub_group rows)).
    intros. apply detail_selected_split.
  - apply (year_block_cases
             (λ sy ey, Simple.selected factor_name factor_field sy ey rows)).
    intros. apply simple_selected_split.
Qed.

(** The convention on ordinary years: [start_year=2023, end_year=2019]
    selects the years 2019 to 2023 and no other, in both views. *)
Lemma year_range_2019_2023 f ff sf sg rows (m : Mother.t) :
  (m ∈ Detail.selected ff sf (Some 2023) (Some 2019) sg rows ↔
   m ∈ Detail.selected ff sf None None sg rows ∧
   2019 ≤ Mother.year m ≤ 2023) ∧
  (m ∈ Simple.selected f ff (Some 2023) (Some 2019) rows ↔
   m ∈ Simple.selected f ff None None rows ∧
   2019 ≤ Mother.year m ≤ 2023).
Proof.
  rewrite detail_selected_split, simple_selected_split, year_conditions_true.
  split; split.
  - intros (? & Hs & He).
    specialize (Hs 2023 eq_refl). specialize (He 2019 eq_refl).
    split; [done | lia].
  - intros (? & ? & ?). split; [done|].
    split; intros ? [= <-] _; done.
  - intros (? & Hs & He).
    specialize (Hs 2023 eq_refl). specialize (He 2019 eq_refl).
    split; [done | lia].
  - intros (? & ? & ?). split; [done|].
    split; intros ? [= <-] _; done.
Qed.

(** C2, the claim as stated fails: with [start_year=0] and
    [end_year=2019] both given, a row of year 2024 is selected by both
    views although it lies outside [2019, 0], and the detailed view
    reports the year. *)
Lemma year_arguments_zero_start_counterexample :
  let m := factor_record 1 (Some "20-24") (Some true) None
             (Some "Gestational diabetes") None 2024 (Some 10) (Some 5%Q) in
  m ∈ Detail.selected Mother.diabetes_pre Mother.diabetes_subgroup
        (Some 0) (Some 2019) None [m] ∧
  m ∈ Simple.selected "diabetes" Mother.diabetes_pre (Some 0) (Some 2019) [m] ∧
  years <$> get_factor_data (Connected [m] []) "diabetes" None (Some 0)
              (Some 2019) None = Returned [2024] ∧
  ¬ (2019 ≤ Mother.year m ≤ 0).
Proof.
  intros m. split; [|split; [|split]].
  - vm_compute. left.
  - vm_compute. left.
  - vm_compute. reflexivity.
  - simpl. lia.
Qed.

(** ** Unrecognized factor names *)

(** C5.  For a factor name other than "diabetes" and "hypertension",
    both views return the initial dictionary, with [years = []] and
    [age_groups = {}], whatever the other arguments and whatever the
    state of the store: no query is issued, nothing is raised. *)
Theorem unrecognized_factor_empty_result (db : Session)
    (factor_name : string) (age_group : option string)
    (start_year end_year : option Z) (sub_group : option (list string)) :
  factor_name ≠ "diabetes" →
  factor_name ≠ "hypertension" →
  get_factor_data db factor_name age_group start_year end_year sub_group
    = Returned (mkFactorResult factor_name age_group [] ∅) ∧
  get_factor_data_simple db factor_name age_group start_year end_year
    = Returned (mkFactorResult factor_name age_group [] ∅).
Proof.
  intros Hd Hh.
  unfold get_factor_data, get_factor_data_simple, Detail.fields, Simple.field.
  rewrite !(decide_False (P := factor_name = "diabetes")) by done.
  rewrite !(decide_False (P := factor_name = "hypertension")) by done.
  split; reflexivity.
Qed.

Lemma unrecognized_factor_empty_result_witness :
  get_factor_data Unavailable "smoking" (Some "25-29") (Some 2023)
    (Some 2019) (Some ["Total"])
    = Returned (mkFactorResult "smoking" (Some "25-29") [] ∅) ∧
  get_factor_data_simple Unavailable "smoking" (Some "25-29") (Some 2023)
    (Some 2019)
    = Returned (mkFactorResult "smoking" (Some "25-29") [] ∅).
Proof.
  apply unrecognized_factor_empty_result; discriminate.
Defined.

(** ** The [age_group] argument of the detailed view *)

(** C9.  Two calls of [get_factor_data] that differ only in the
    [age_group] argument behave alike: both raise or both return, and
    the results have equal [factor], [years] and [age_groups]; the
    argument is only echoed, as [user_age_group]. *)
Theorem age_group_argument_only_echoed (db : Session) (factor_name : string)
    (age_group age_group' : option string) (start_year end_year : option Z)
    (sub_group : option (list string)) :
  get_factor_data db factor_name age_group' start_year end_year sub_group
    = (λ r, mkFactorResult (factor r) age_group' (years r) (age_groups r))
      <$> get_factor_data db factor_name age_group start_year end_year
            sub_group ∧
  user_age_group
    <$> get_factor_data db factor_name age_group start_year end_year sub_group
    = (λ _, age_group)
      <$> get_factor_data db factor_name age_group start_year end_year
            sub_group.
Proof.
  unfold get_factor_data.
  destruct (Detail.fields factor_name) as [[factor_field subgroup_field]|];
    [|split; reflexivity].
  destruct db as [mothers complications|]; simpl; [|split; reflexivity].
  destruct (Detail.loop _). split; reflexivity.
Qed.

(** ** The sub-group filter of the simple view *)



(** ** Nested dictionaries *)

Section nested.
Implicit Types (d : gmap string (gmap string (gmap Z Q))).

Lemma lookup_ensure_key `{Countable K} {V} `{Empty V} (k k' : K)
    (m : gmap K V) :
  ensure_key k m !! k' =
  if decide (k = k') then Some (default ∅ (m !! k)) else m !! k'.
Proof.
  unfold ensure_key. destruct (m !! k) as [v|] eqn:Hk.
  - destruct (decide (k = k')) as [<-|]; [by rewrite Hk | done].
  - rewrite lookup_insert. by destruct (decide (k = k')).
Qed.

Lemma dom_ensure_key `{Countable K} {V} `{Empty V} (k : K) (m : gmap K V) :
  dom (ensure_key k m) = {[k]} ∪ dom m.
Proof.
  unfold ensure_key. destruct (m !! k) as [v|] eqn:Hk.
  - apply (elem_of_dom_2 m) in Hk. set_solver.
  - by rewrite dom_insert_L.
Qed.

Lemma lookup3_ensure_key d ag ag' sg y :
  lookup3 (ensure_key ag d) ag' sg y = lookup3 d ag' sg y.
Proof.
  unfold lookup3. rewrite lookup_ensure_key.
  destruct (decide (ag = ag')) as [<-|]; [|done].
  destruct (d !! ag); simpl; [done|]. by rewrite lookup_empty.
Qed.

Lemma lookup3_label_write d ag sg y v ag' sg' y' :
  is_Some (d !! ag) →
  lookup3 (label_write ag sg y v d) ag' sg' y' =
  if decide (ag = ag' ∧ sg = sg' ∧ y = y') then Some v
  else lookup3 d ag' sg' y'.
Proof.
  intros [m Hm]. unfold lookup3, label_write.
  destruct (decide (ag = ag')) as [<-|Hag].
  - rewrite !lookup_alter_eq, Hm. simpl.
    destruct (decide (sg = sg')) as [<-|Hsg].
    + rewrite lookup_alter_eq, lookup_ensure_key, decide_True by done. simpl.
      rewrite lookup_insert.
      destruct (decide (y = y')) as [<-|Hy].
      * by rewrite decide_True.
      * rewrite decide_False by tauto.
        destruct (m !! sg); simpl; [done | by rewrite lookup_empty].
    + rewrite lookup_alter_ne, lookup_ensure_key, !decide_False by tauto.
      done.
  - rewrite !lookup_alter_ne, decide_False by tauto. done.
Qed.

Lemma dom_label_write d ag sg y v :
  dom (label_write ag sg y v d) = dom d.
Proof. unfold label_write. by rewrite !dom_alter_L. Qed.

Lemma lookup3_empty ag sg y : lookup3 ∅ ag sg y = None.
Proof. unfold lookup3. by rewrite lookup_empty. Qed.

Lemma lookup3_dom d ag sg y : is_Some (lookup3 d ag sg y) → ag ∈ dom d.
Proof.
  unfold lookup3. intros [v Hv]. apply elem_of_dom.
  destruct (d !! ag); [eauto | done].
Qed.
End nested.

(** ** Loops that overwrite and loops that collect *)

Section loops.
Context {A B : Type} (f : A → B → A).

(** An observation of the accumulator that the iterations selected by
    [P] overwrite and the others leave alone holds, after the loop, what
    the last selected iteration wrote. *)
Section overwrite.
Context {V : Type} (obs : A → V) (P : B → Prop) (val : B → V).
Hypothesis written : ∀ a b, P b → obs (f a b) = val b.
Hypothesis untouched : ∀ a b, ¬ P b → obs (f a b) = obs a.

Lemma loop_untouched a l :
  Forall (λ b, ¬ P b) l → obs (foldl f a l) = obs a.
Proof.
  revert a. induction l as [|b l IH]; intros a Hl; [done|].
  apply Forall_cons in Hl as [Hb Hl]. simpl.
  rewrite IH by done. by apply untouched.
Qed.

Lemma loop_last_write a l1 b l2 :
  P b → Forall (λ b', ¬ P b') l2 →
  obs (foldl f a (l1 ++ b :: l2)) = val b.
Proof.
  intros Hb Hl2. rewrite foldl_app. simpl.
  rewrite loop_untouched by done. by apply written.
Qed.
End overwrite.

(** An observation that each iteration extends by at most one element
    holds, after the loop, the elements collected on the way. *)
Section collect.
Context `{Countable E} (obs : A → gset E) (pick : B → option E).
Hypothesis extended :
  ∀ a b, obs (f a b) = obs a ∪ from_option singleton ∅ (pick b).

Lemma loop_collect a l e :
  e ∈ obs (foldl f a l) ↔ e ∈ obs a ∨ ∃ b, b ∈ l ∧ pick b = Some e.
Proof.
  revert a. induction l as [|b l IH]; intros a; simpl.
  - split; [auto|]. intros [?|(b & Hb & _)]; [done|]. by apply elem_of_nil in Hb.
  - rewrite IH, extended, elem_of_union. split.
    + intros [[?|Hb]|(b' & ? & ?)]; [by left| |].
      * right. exists b. split; [left|].
        destruct (pick b); simpl in Hb; [|by apply elem_of_empty in Hb].
        apply elem_of_singleton in Hb. by subst.
      * right. exists b'. split; [by right | done].
    + intros [?|(b' & Hin & Hp)]; [by left; left|].
      apply elem_of_cons in Hin as [->|Hin].
      * left; right. rewrite Hp. simpl. by apply elem_of_singleton.
      * right. eauto.
Qed.
End collect.
End loops.

(** A list whose images under [key] are distinct, cut at one of its
    elements: no later element carries the same key. *)
Lemma NoDup_key_split {R K} (key : R → K) (l : list R) (x : R) :
  NoDup (key <$> l) → x ∈ l →
  ∃ l1 l2, l = l1 ++ x :: l2 ∧ Forall (λ z, key z ≠ key x) l2.
Proof.
  intros Hnd Hx. apply list_elem_of_split in Hx as (l1 & l2 & ->).
  exists l1, l2. split; [done|].
  rewrite fmap_app, fmap_cons in Hnd.
  apply NoDup_app in Hnd as (_ & _ & Hnd).
  apply NoDup_cons in Hnd as [Hnotin _].
  apply Forall_forall. intros z Hz Heq. apply Hnotin.
  rewrite <- Heq. by apply list_elem_of_fmap_2.
Qed.

(** ** The guard on the age group *)

Lemma kept_age_group_Some (age_group : option string) (ag : string) :
  kept_age_group age_group = Some ag ↔
  age_group = Some ag ∧ ag ≠ EmptyString ∧ is_sentinel ag = false.
Proof.
  unfold kept_age_group, Py.truthy_str. destruct age_group as [a|].
  - destruct (String.eqb_spec a EmptyString) as [->|Hne]; simpl.
    + split; [discriminate | intros ([= <-] & ? & _); done].
    + destruct (is_sentinel a) eqn:Hs; split.
      * discriminate.
      * intros ([= <-] & _ & ?). congruence.
      * intros [= <-]. done.
      * intros ([= <-] & _). done.
  - split; [discriminate | intros [? _]; done].
Qed.

Lemma not_sentinel_lower (ag : string) :
  is_sentinel ag = false ↔
  Py.lower ag ≠ "total" ∧ Py.lower ag ≠ "not stated".
Proof.
  unfold is_sentinel, Py.str_in. simpl.
  destruct (String.eqb_spec (Py.lower ag) "total");
    destruct (String.eqb_spec (Py.lower ag) "not stated"); simpl;
    split; try done; try (intros [? ?]; done).
Qed.

(** ** The loop of the detailed view *)

Lemma detail_step_unfold d ys (r : Detail.row) :
  Detail.step (d, ys) r =
  match kept_age_group (Detail.age_group r) with
  | None => (d, ys)
  | Some ag =>
      (label_write ag (Py.str_or (Detail.sub_group r) "Unknown")
         (Detail.year r) (Py.float_or_zero (Detail.avg_percentage r))
         (ensure_key ag d),
       ys ∪ {[Detail.year r]})
  end.
Proof.
  unfold Detail.step, kept_age_group, label_write.
  destruct (Detail.age_group r) as [ag|]; [|done].
  by destruct (negb _ || _).
Qed.

Lemma is_Some_lookup_ensure_key `{Countable K} {V} `{Empty V} (k : K)
    (m : gmap K V) :
  is_Some (ensure_key k m !! k).
Proof. rewrite lookup_ensure_key, decide_True by done. eauto. Qed.

(** The entry at [age_groups[ag][label][y]] after the loop is the one
    written for the last row that is kept under [ag] with this label
    and year. *)
Lemma detail_loop_last_write (l1 l2 : list Detail.row) (r : Detail.row)
    (ag label : string) (y : Z) acc :
  let hits (r' : Detail.row) :=
    kept_age_group (Detail.age_group r') = Some ag ∧
    Py.str_or (Detail.sub_group r') "Unknown" = label ∧
    Detail.year r' = y in
  hits r → Forall (λ r', ¬ hits r') l2 →
  lookup3 (foldl Detail.step acc (l1 ++ r :: l2)).1 ag label y =
  Some (Py.float_or_zero (Detail.avg_percentage r)).
Proof.
  intros hits Hr Hl2.
  apply (loop_last_write Detail.step
           (λ a, lookup3 a.1 ag label y) hits
           (λ r', Some (Py.float_or_zero (Detail.avg_percentage r'))));
    [| |done|done].
  - intros [d ys] r' (Hag & Hl & Hy). rewrite detail_step_unfold, Hag. simpl.
    rewrite lookup3_label_write by apply is_Some_lookup_ensure_key.
    by rewrite decide_True.
  - intros [d ys] r' Hno. rewrite detail_step_unfold.
    destruct (kept_age_group (Detail.age_group r')) as [ag'|] eqn:Hag; [|done].
    simpl. rewrite lookup3_label_write by apply is_Some_lookup_ensure_key.
    rewrite decide_False, lookup3_ensure_key; [done|].
    intros (-> & ? & ?). by apply Hno.
Qed.

Lemma detail_loop_untouched (l : list Detail.row) (ag label : string)
    (y : Z) acc :
  Forall (λ r', ¬ (kept_age_group (Detail.age_group r') = Some ag ∧
                   Py.str_or (Detail.sub_group r') "Unknown" = label ∧
                   Detail.year r' = y)) l →
  lookup3 (foldl Detail.step acc l).1 ag label y = lookup3 acc.1 ag label y.
Proof.
  apply (loop_untouched Detail.step (λ a, lookup3 a.1 ag label y)).
  intros [d ys] r' Hno. rewrite detail_step_unfold.
  destruct (kept_age_group (Detail.age_group r')) as [ag'|] eqn:Hag; [|done].
  simpl. rewrite lookup3_label_write by apply is_Some_lookup_ensure_key.
  rewrite decide_False, lookup3_ensure_key; [done|].
  intros (-> & ? & ?). by apply Hno.
Qed.

(** The years collected are those of the rows the guard keeps. *)
Lemma detail_loop_years (l : list Detail.row) (y : Z) :
  y ∈ (Detail.loop l).2 ↔
  ∃ r, r ∈ l ∧ is_Some (kept_age_group (Detail.age_group r)) ∧
       Detail.year r = y.
Proof.
  unfold Detail.loop.
  rewrite (loop_collect Detail.step snd
             (λ r, _ ← kept_age_group (Detail.age_group r);
                   Some (Detail.year r))).
  - simpl. split.
    + intros [Hy|(r & Hr & Hp)]; [by apply elem_of_empty in Hy|].
      exists r. destruct (kept_age_group _); [|done].
      simpl in Hp. injection Hp as <-. eauto.
    + intros (r & Hr & [ag Hag] & <-). right. exists r.
      by rewrite Hag.
  - intros [d ys] r. rewrite detail_step_unfold.
    destruct (kept_age_group _); simpl; [done | set_solver].
Qed.

(** The keys of [age_groups] are age groups the guard keeps. *)
Lemma detail_loop_dom (l : list Detail.row) (ag : string) :
  ag ∈ dom (Detail.loop l).1 ↔
  ∃ r, r ∈ l ∧ kept_age_group (Detail.age_group r) = Some ag.
Proof.
  unfold Detail.loop.
  rewrite (loop_collect Detail.step (λ a, dom a.1)
             (λ r, kept_age_group (Detail.age_group r))).
  - simpl. rewrite dom_empty_L. split; [|by right].
    intros [Hy|?]; [by apply elem_of_empty in Hy | done].
  - intros [d ys] r. rewrite detail_step_unfold.
    destruct (kept_age_group _); simpl.
    + rewrite dom_label_write, dom_ensure_key. set_solver.
    + set_solver.
Qed.

(** ** The grouped query of the detailed view *)

Section detail_query.
Context (ff : Mother.t → option bool) (sf : Mother.t → option string).
Context (sy ey : option Z) (sgs : option (list string)).
Context (mothers : list Mother.t).

Lemma detail_query_keys :
  Detail.row_key <$> Detail.query ff sf sy ey sgs mothers ≡ₚ
  (Sql.group_by (Detail.key_of sf)
     (Detail.selected ff sf sy ey sgs mothers)).*1.
Proof.
  unfold Detail.query. rewrite <- list_fmap_compose.
  rewrite order_by_perm.
  erewrite list_fmap_ext; [reflexivity|].
  by intros i [[[y a] s] g] _.
Qed.

(** One row per key [(year, age_group, sub_group)]. *)
Lemma detail_query_NoDup :
  NoDup (Detail.row_key <$> Detail.query ff sf sy ey sgs mothers).
Proof. rewrite detail_query_keys. apply group_by_NoDup. Qed.

(** The row of a key averages the percentages of the selected records
    that carry the key. *)
Lemma elem_of_detail_query (r : Detail.row) :
  r ∈ Detail.query ff sf sy ey sgs mothers ↔
  (∃ m, m ∈ Detail.selected ff sf sy ey sgs mothers ∧
        Detail.key_of sf m = Detail.row_key r) ∧
  Detail.avg_percentage r =
    Sql.avg (Mother.percentage
               <$> filter (λ m, Detail.key_of sf m = Detail.row_key r)
                     (Detail.selected ff sf sy ey sgs mothers)).
Proof.
  unfold Detail.query. rewrite list_elem_of_fmap. split.
  - intros ([k g] & -> & Hin). rewrite order_by_perm in Hin.
    apply elem_of_group_by in Hin as [Hk ->].
    destruct k as [[y a] s]. simpl. split; [exact Hk | done].
  - intros [Hk Havg].
    exists (Detail.row_key r,
            filter (λ m, Detail.key_of sf m = Detail.row_key r)
              (Detail.selected ff sf sy ey sgs mothers)).
    split.
    + destruct r as [y a s p]. simpl in *. by rewrite Havg.
    + rewrite order_by_perm. by apply elem_of_group_by.
Qed.
End detail_query.

Lemma str_or_Some (o : option string) (default s : string) :
  Py.str_or o default = s → s ≠ default → o = Some s.
Proof.
  unfold Py.str_or, Py.truthy_str. destruct o as [v|]; [|congruence].
  destruct (String.eqb_spec v EmptyString); simpl; congruence.
Qed.

Lemma float_or_zero_Some (q : Q) : (Py.float_or_zero (Some q) == q)%Q.
Proof.
  unfold Py.float_or_zero, Py.truthy_float.
  destruct (Qeq_bool q 0) eqn:Hq; simpl; [|reflexivity].
  apply Qeq_bool_eq in Hq. by rewrite Hq.
Qed.

Lemma avg_non_null (xs : list (option Q)) :
  Sql.non_null xs ≠ [] → Sql.avg xs = Some (Sql.mean (Sql.non_null xs)).
Proof. unfold Sql.avg. by destruct (Sql.non_null xs). Qed.

Lemma avg_all_null (xs : list (option Q)) :
  Sql.non_null xs = [] → Sql.avg xs = None.
Proof. unfold Sql.avg. by intros ->. Qed.

(** ** The detailed view: what a group writes *)

(** C1 (as amended).  In [get_factor_data], take a selected record [m]
    whose age group [ag] passes the guard, and the group of selected
    records sharing its key (year, age_group, sub_group).  The query
    has a row [r] for the group, and the loop writes for it, at
    [age_groups[ag][label][year]] with [label] the sub-group or
    "Unknown", a value [v] equal to the arithmetic mean of the
    percentages of the group that are not null (null percentages are
    left out of the mean), and [0.0] when every percentage of the group
    is null.  When the sub-group is a non-empty string other than
    "Unknown", no other group writes at that place and [v] is the entry
    of the result. *)
Theorem detail_view_group_mean (mothers : list Mother.t)
    (complications : list Complication.t) (factor_name : string)
    (factor_field : Mother.t → option bool)
    (subgroup_field : Mother.t → option string)
    (age_group : option string) (start_year end_year : option Z)
    (sub_group : option (list string)) (m : Mother.t) (ag : string) :
  Detail.fields factor_name = Some (factor_field, subgroup_field) →
  m ∈ Detail.selected factor_field subgroup_field start_year end_year
        sub_group mothers →
  kept_age_group (Mother.age_group m) = Some ag →
  let group :=
    filter (λ m', Detail.key_of subgroup_field m'
                  = Detail.key_of subgroup_field m)
      (Detail.selected factor_field subgroup_field start_year end_year
         sub_group mothers) in
  let percentages := Sql.non_null (Mother.percentage <$> group) in
  let label := Py.str_or (subgroup_field m) "Unknown" in
  ∃ res r v,
    get_factor_data (Connected mothers complications) factor_name age_group
      start_year end_year sub_group = Returned res ∧
    r ∈ Detail.query factor_field subgroup_field start_year end_year
          sub_group mothers ∧
    Detail.row_key r = Detail.key_of subgroup_field m ∧
    (∀ acc, lookup3 (Detail.step acc r).1 ag label (Mother.year m) = Some v) ∧
    (percentages ≠ [] → (v == Sql.mean percentages)%Q) ∧
    (percentages = [] → v = 0%Q) ∧
    (∀ sg, subgroup_field m = Some sg → sg ≠ EmptyString → sg ≠ "Unknown" →
           lookup3 (age_groups res) ag sg (Mother.year m) = Some v).
Proof.
  intros Hf Hm Hag group percentages label.
  set (result := Detail.query factor_field subgroup_field start_year
                   end_year sub_group mothers).
  set (r := Detail.mk (Mother.year m) (Mother.age_group m) (subgroup_field m)
              (Sql.avg (Mother.percentage <$> group))).
  assert (Hr : r ∈ result).
  { apply elem_of_detail_query. split; [by exists m | done]. }
  destruct (Detail.loop result) as [d ys] eqn:Hloop.
  exists (mkFactorResult factor_name age_group (Py.sorted ys) d), r,
    (Py.float_or_zero (Detail.avg_percentage r)).
  split; [|split; [done|split; [done|split; [|split; [|split]]]]].
  - unfold get_factor_data. rewrite Hf. simpl. fold result. by rewrite Hloop.
  - intros [d' ys']. rewrite detail_step_unfold. simpl. rewrite Hag. simpl.
    rewrite lookup3_label_write by apply is_Some_lookup_ensure_key.
    by rewrite decide_True.
  - intros Hne. simpl. unfold percentages in *.
    rewrite avg_non_null by done. apply float_or_zero_Some.
  - intros Hnull. simpl. unfold percentages in *.
    by rewrite avg_all_null.
  - intros sg Hsg Hsg1 Hsg2. simpl.
    destruct (NoDup_key_split Detail.row_key result r) as (l1 & l2 & Hl & Hl2);
      [apply detail_query_NoDup | done |].
    replace d with (Detail.loop result).1 by by rewrite Hloop.
    unfold Detail.loop. rewrite Hl.
    apply (detail_loop_last_write l1 l2 r ag sg (Mother.year m)).
    + simpl. split; [done|]. split; [|done].
      rewrite Hsg. unfold Py.str_or, Py.truthy_str.
      destruct (String.eqb_spec sg EmptyString); [done|]. done.
    + eapply Forall_impl; [exact Hl2|]. intros r' Hkey (Hag' & Hl' & Hy').
      apply Hkey. apply kept_age_group_Some in Hag' as (Ha' & _).
      apply kept_age_group_Some in Hag as (Ha & _).
      apply str_or_Some in Hl'; [|done].
      unfold Detail.row_key. simpl. congruence.
Qed.

Lemma detail_view_group_mean_witness :
  let m1 := factor_record 1 (Some "20-24") (Some true) None
              (Some "Gestational diabetes") None 2022 (Some 10) (Some 5%Q) in
  let m2 := factor_record 2 (Some "20-24") (Some true) None
              (Some "Gestational diabetes") None 2022 (Some 14) (Some 7%Q) in
  ∃ res v,
    get_factor_data (Connected [m1; m2] []) "diabetes" None None None None
      = Returned res ∧
    lookup3 (age_groups res) "20-24" "Gestational diabetes" 2022 = Some v ∧
    (v == 6)%Q.
Proof.
  intros m1 m2.
  destruct (detail_view_group_mean [m1; m2] [] "diabetes" Mother.diabetes_pre
              Mother.diabetes_subgroup None None None None m1 "20-24")
    as (res & r & v & Hres & _ & _ & _ & Hmean & _ & Hentry).
  - reflexivity.
  - vm_compute. left.
  - reflexivity.
  - exists res, v. split; [exact Hres|]. split.
    + apply (Hentry "Gestational diabetes"); [reflexivity | | ]; discriminate.
    + eapply Qeq_trans; [apply Hmean; vm_compute; discriminate|].
      vm_compute. reflexivity.
Defined.

(** C1, the claim as stated fails: of two records of one group with
    percentages 5.0 and null, the null one is left out of the average;
    the entry is 5.0, not the mean 2.5 of 5.0 and 0.0. *)
Lemma detail_view_null_percentage_counterexample :
  let m1 := factor_record 1 (Some "20-24") (Some true) None
              (Some "Gestational diabetes") None 2022 (Some 10) (Some 5%Q) in
  let m2 := factor_record 2 (Some "20-24") (Some true) None
              (Some "Gestational diabetes") None 2022 (Some 14) None in
  (λ res, lookup3 (age_groups res) "20-24" "Gestational diabetes" 2022)
    <$> get_factor_data (Connected [m1; m2] []) "diabetes" None None None None
    = Returned (Some 5%Q) ∧
  ¬ (5 == (5 + 0) / 2)%Q.
Proof.
  split.
  - vm_compute. reflexivity.
  - vm_compute. discriminate.
Qed.

(** ** Insertion-ordered dictionaries *)

Section dict.
Context {K V : Type} `{EqDecision K}.
Implicit Types (d : list (K * V)) (k : K) (v : V).

Lemma dict_get_set d k k' v :
  Dict.get k' (Dict.set k v d) =
  if decide (k' = k) then Some v else Dict.get k' d.
Proof.
  induction d as [|[k0 v0] d IH]; simpl.
  - by destruct (decide (k' = k)).
  - destruct (decide (k = k0)) as [->|Hne]; simpl.
    + by destruct (decide (k' = k0)).
    + rewrite IH. destruct (decide (k' = k0)) as [->|]; [|done].
      by rewrite decide_False.
Qed.

Lemma dict_get_update d f k k' :
  Dict.get k' (Dict.update f k d) =
  if decide (k' = k) then f <$> Dict.get k d else Dict.get k' d.
Proof.
  induction d as [|[k0 v0] d IH]; simpl.
  - by destruct (decide (k' = k)).
  - destruct (decide (k = k0)) as [->|Hne]; simpl.
    + by destruct (decide (k' = k0)).
    + rewrite IH. destruct (decide (k' = k0)) as [->|].
      * by rewrite decide_False.
      * done.
Qed.

Lemma dict_keys_update d f k : (Dict.update f k d).*1 = d.*1.
Proof.
  induction d as [|[k0 v0] d IH]; csimpl; [done|].
  destruct (decide (k = k0)); csimpl; [done | by rewrite IH].
Qed.

Lemma dict_get_None d k : Dict.get k d = None ↔ k ∉ d.*1.
Proof.
  induction d as [|[k0 v0] d IH]; simpl.
  - split; [intros _; apply not_elem_of_nil | done].
  - rewrite not_elem_of_cons. destruct (decide (k = k0)) as [->|Hne].
    + split; [discriminate | intros [? _]; done].
    + rewrite IH. tauto.
Qed.

Lemma dict_keys_set d k v :
  (Dict.set k v d).*1 =
  if decide (k ∈ d.*1) then d.*1 else d.*1 ++ [k].
Proof.
  induction d as [|[k0 v0] d IH]; csimpl.
  - done.
  - destruct (decide (k = k0)) as [->|Hne]; csimpl.
    + rewrite decide_True; [done | left].
    + rewrite IH. destruct (decide (k ∈ d.*1)) as [Hin|Hnin].
      * rewrite decide_True; [done | by right].
      * rewrite decide_False; [done|]. rewrite not_elem_of_cons. tauto.
Qed.

Lemma dict_get_elem_of d k v : Dict.get k d = Some v → (k, v) ∈ d.
Proof.
  induction d as [|[k0 v0] d IH]; simpl; [done|].
  destruct (decide (k = k0)) as [->|Hne].
  - intros [= ->]. left.
  - intros ?. right. by apply IH.
Qed.

Lemma dict_elem_of_get d k v :
  NoDup d.*1 → (k, v) ∈ d → Dict.get k d = Some v.
Proof.
  induction d as [|[k0 v0] d IH]; simpl; [by intros _ ?%elem_of_nil|].
  rewrite NoDup_cons. intros [Hk0 Hnd] Hin.
  apply elem_of_cons in Hin as [[= -> ->]|Hin].
  - by rewrite decide_True.
  - rewrite decide_False; [by apply IH|].
    intros ->. apply Hk0. change k0 with (k0, v).1.
    by apply list_elem_of_fmap_2.
Qed.
End dict.

(** ** The first pass of the simple view *)

Lemma simple_first_step_unfold t ys (r : Simple.row) :
  Simple.first_step (t, ys) r =
  match kept_age_group (Simple.age_group r) with
  | None => (t, ys)
  | Some ag =>
      (Dict.update
         (Simple.set_count (Py.bool_of (Simple.has_factor r))
            (Py.int_or_zero (Simple.total_mothers r)))
         (ag, Simple.year r)
         match Dict.get (ag, Simple.year r) t with
         | Some _ => t
         | None => Dict.set (ag, Simple.year r) (Simple.mkCounts 0 0) t
         end,
       ys ∪ {[Simple.year r]})
  end.
Proof.
  unfold Simple.first_step, kept_age_group.
  destruct (Simple.age_group r) as [ag|]; [|done].
  by destruct (negb _ || _).
Qed.

Lemma get_count_set_count (c : Simple.counts) (b b' : bool) (n : Z) :
  Simple.get_count (Simple.set_count b n c) b' =
  if decide (b' = b) then n else Simple.get_count c b'.
Proof. by destruct b, b'. Qed.

(** The assignment [temp_data[key][has_factor] = count], after the key
    was given its zero counts when missing. *)
Lemma count_at_write (t : list (string * Z * Simple.counts))
    (key key' : string * Z) (b b' : bool) (n : Z) :
  Simple.count_at
    (Dict.update (Simple.set_count b n) key
       match Dict.get key t with
       | Some _ => t
       | None => Dict.set key (Simple.mkCounts 0 0) t
       end) key' b' =
  if decide (key' = key ∧ b' = b) then n else Simple.count_at t key' b'.
Proof.
  unfold Simple.count_at. rewrite dict_get_update.
  destruct (decide (key' = key)) as [->|Hne].
  - destruct (Dict.get key t) as [c|] eqn:Hget.
    + rewrite Hget. simpl. rewrite get_count_set_count.
      destruct (decide (b' = b)); [by rewrite decide_True|].
      by rewrite decide_False by tauto.
    + rewrite dict_get_set, decide_True by done. simpl.
      rewrite get_count_set_count.
      destruct (decide (b' = b)); [by rewrite decide_True|].
      rewrite decide_False by tauto. by destruct b'.
  - rewrite decide_False by tauto.
    destruct (Dict.get key t) as [c|] eqn:Hget; [done|].
    by rewrite dict_get_set, decide_False.
Qed.

(** The count at [temp_data[(ag, y)][b]] after the first pass is the one
    of the last row kept under [ag] with year [y] and flag [b]: a later
    row of the same key overwrites an earlier one. *)
Lemma first_pass_last_write (l1 l2 : list Simple.row) (r : Simple.row)
    (ag : string) (y : Z) (b : bool) acc :
  let hits (r' : Simple.row) :=
    kept_age_group (Simple.age_group r') = Some ag ∧
    Simple.year r' = y ∧ Py.bool_of (Simple.has_factor r') = b in
  hits r → Forall (λ r', ¬ hits r') l2 →
  Simple.count_at (foldl Simple.first_step acc (l1 ++ r :: l2)).1 (ag, y) b =
  Py.int_or_zero (Simple.total_mothers r).
Proof.
  intros hits Hr Hl2.
  apply (loop_last_write Simple.first_step
           (λ a, Simple.count_at a.1 (ag, y) b) hits
           (λ r', Py.int_or_zero (Simple.total_mothers r')));
    [| |done|done].
  - intros [t ys] r' (Hag & Hy & Hb).
    rewrite simple_first_step_unfold, Hag. simpl.
    rewrite count_at_write, decide_True; [done|]. by rewrite Hy, Hb.
  - intros [t ys] r' Hno. rewrite simple_first_step_unfold.
    destruct (kept_age_group (Simple.age_group r')) as [ag'|] eqn:Hag; [|done].
    simpl. rewrite count_at_write, decide_False; [done|].
    intros [[= -> Hy] Hb]. by apply Hno.
Qed.

Lemma first_pass_untouched (l : list Simple.row) (ag : string) (y : Z)
    (b : bool) acc :
  Forall (λ r', ¬ (kept_age_group (Simple.age_group r') = Some ag ∧
                   Simple.year r' = y ∧
                   Py.bool_of (Simple.has_factor r') = b)) l →
  Simple.count_at (foldl Simple.first_step acc l).1 (ag, y) b =
  Simple.count_at acc.1 (ag, y) b.
Proof.
  apply (loop_untouched Simple.first_step
           (λ a, Simple.count_at a.1 (ag, y) b)).
  intros [t ys] r' Hno. rewrite simple_first_step_unfold.
  destruct (kept_age_group (Simple.age_group r')) as [ag'|] eqn:Hag; [|done].
  simpl. rewrite count_at_write, decide_False; [done|].
  intros [[= -> Hy] Hb]. by apply Hno.
Qed.

Lemma first_step_keys t ys (r : Simple.row) :
  (Simple.first_step (t, ys) r).1.*1 =
  match kept_age_group (Simple.age_group r) with
  | None => t.*1
  | Some ag =>
      if decide ((ag, Simple.year r) ∈ t.*1) then t.*1
      else t.*1 ++ [(ag, Simple.year r)]
  end.
Proof.
  rewrite simple_first_step_unfold.
  destruct (kept_age_group (Simple.age_group r)) as [ag|]; [|done].
  simpl. rewrite dict_keys_update.
  destruct (Dict.get (ag, Simple.year r) t) as [c|] eqn:Hget.
  - rewrite decide_True; [done|].
    apply dec_stable. rewrite <- dict_get_None. congruence.
  - rewrite dict_keys_set.
    apply dict_get_None in Hget. by rewrite !decide_False.
Qed.

(** No key occurs twice in [temp_data]. *)
Lemma first_pass_NoDup (l : list Simple.row) :
  NoDup (Simple.first_pass l).1.*1.
Proof.
  unfold Simple.first_pass.
  assert (Hgen : ∀ acc, NoDup acc.1.*1 →
                        NoDup (foldl Simple.first_step acc l).1.*1).
  { induction l as [|r l IH]; intros [t ys] Hnd; [done|].
    simpl. apply IH. change (NoDup (Simple.first_step (t, ys) r).1.*1).
    rewrite first_step_keys.
    destruct (kept_age_group _) as [ag|]; [|done].
    destruct (decide _) as [|Hnin]; [done|].
    apply NoDup_app. split; [done|]. split; [|apply NoDup_singleton].
    intros k Hk ->%list_elem_of_singleton. by apply Hnin. }
  apply Hgen. simpl. apply NoDup_nil_2.
Qed.

(** The keys of [temp_data] are the (age group, year) pairs of the rows
    the guard keeps. *)
Lemma first_pass_keys (l : list Simple.row) (ag : string) (y : Z) :
  (ag, y) ∈ (Simple.first_pass l).1.*1 ↔
  ∃ r, r ∈ l ∧ kept_age_group (Simple.age_group r) = Some ag ∧
       Simple.year r = y.
Proof.
  unfold Simple.first_pass.
  rewrite <- (elem_of_list_to_set (C := gset (string * Z))).
  rewrite (loop_collect Simple.first_step
             (λ a, list_to_set (C := gset (string * Z)) a.1.*1)
             (λ r, a ← kept_age_group (Simple.age_group r);
                   Some (a, Simple.year r))).
  - simpl. split.
    + intros [Hy|(r & Hr & Hp)]; [by apply elem_of_empty in Hy|].
      exists r. destruct (kept_age_group _); [|done].
      simpl in Hp. injection Hp as -> <-. eauto.
    + intros (r & Hr & Hag & <-). right. exists r.
      by rewrite Hag.
  - intros [t ys] r.
    change (Simple.first_step (t, ys) r).1.*1
      with ((Simple.first_step (t, ys) r).1.*1).
    rewrite first_step_keys.
    destruct (kept_age_group _) as [a|]; simpl; [|set_solver].
    destruct (decide _); [set_solver|].
    rewrite list_to_set_app_L. set_solver.
Qed.

(** The years collected are those of the rows the guard keeps. *)
Lemma first_pass_years (l : list Simple.row) (y : Z) :
  y ∈ (Simple.first_pass l).2 ↔
  ∃ r, r ∈ l ∧ is_Some (kept_age_group (Simple.age_group r)) ∧
       Simple.year r = y.
Proof.
  unfold Simple.first_pass.
  rewrite (loop_collect Simple.first_step snd
             (λ r, _ ← kept_age_group (Simple.age_group r);
                   Some (Simple.year r))).
  - simpl. split.
    + intros [Hy|(r & Hr & Hp)]; [by apply elem_of_empty in Hy|].
      exists r. destruct (kept_age_group _); [|done].
      simpl in Hp. injection Hp as <-. eauto.
    + intros (r & Hr & [ag Hag] & <-). right. exists r.
      by rewrite Hag.
  - intros [t ys] r. rewrite simple_first_step_unfold.
    destruct (kept_age_group _); simpl; [done | set_solver].
Qed.

(** ** The second pass of the simple view *)

Lemma second_step_unfold d (ag : string) (y : Z) (c : Simple.counts) :
  Simple.second_step d (ag, y, c) =
  let total := Simple.get_count c true + Simple.get_count c false in
  if bool_decide (total = 0) then d
  else
    label_write ag "No" y (Simple.percentage_of c total false)
      (label_write ag "Yes" y (Simple.percentage_of c total true)
         (ensure_key ag d)).
Proof. reflexivity. Qed.

Lemma is_Some_lookup_label_write d ag sg y v ag' :
  is_Some (label_write ag sg y v d !! ag') ↔ is_Some (d !! ag').
Proof. by rewrite <- !elem_of_dom, dom_label_write. Qed.

Lemma second_pass_last_write
    (l1 l2 : list (string * Z * Simple.counts))
    (ag : string) (y : Z) (c : Simple.counts) (has_factor : bool) d :
  let total := Simple.get_count c true + Simple.get_count c false in
  total ≠ 0 → Forall (λ item, item.1 ≠ (ag, y)) l2 →
  lookup3 (foldl Simple.second_step d (l1 ++ (ag, y, c) :: l2)) ag
    (if has_factor then "Yes" else "No") y =
  Some (Simple.percentage_of c total has_factor).
Proof.
  intros total Htotal Hl2.
  set (label := if has_factor then "Yes" else "No").
  apply (loop_last_write Simple.second_step
           (λ a, lookup3 a ag label y)
           (λ item, item.1 = (ag, y) ∧
              Simple.get_count item.2 true + Simple.get_count item.2 false ≠ 0)
           (λ item, Some (Simple.percentage_of item.2
                            (Simple.get_count item.2 true
                             + Simple.get_count item.2 false) has_factor)));
    [| |done|].
  - intros a [[ag' y'] c'] Hitem. rewrite second_step_unfold.
    simpl in *. destruct Hitem as [[= -> ->] Hne].
    rewrite bool_decide_eq_false_2 by done.
    rewrite !lookup3_label_write;
      rewrite ?is_Some_lookup_label_write;
      try apply is_Some_lookup_ensure_key.
    unfold label. destruct has_factor.
    + rewrite decide_False by (intros (_ & [=] & _)).
      by rewrite decide_True.
    + by rewrite decide_True.
  - intros a [[ag' y'] c'] Hno. rewrite second_step_unfold. simpl in *.
    destruct (decide (Simple.get_count c' true + Simple.get_count c' false = 0))
      as [Hz|Hnz].
    + by rewrite bool_decide_eq_true_2.
    + rewrite bool_decide_eq_false_2 by done.
      rewrite !lookup3_label_write;
        rewrite ?is_Some_lookup_label_write;
        try apply is_Some_lookup_ensure_key.
      rewrite !decide_False, lookup3_ensure_key; [done | |].
      * intros (-> & _ & ->). by apply Hno.
      * intros (-> & _ & ->). by apply Hno.
  - eapply Forall_impl; [exact Hl2|]. intros item Hne [Heq _]. done.
Qed.

Lemma second_pass_untouched (l : list (string * Z * Simple.counts))
    (ag label : string) (y : Z) d :
  Forall (λ item, ¬ (item.1 = (ag, y) ∧
                     Simple.get_count item.2 true
                     + Simple.get_count item.2 false ≠ 0 ∧
                     (label = "Yes" ∨ label = "No"))) l →
  lookup3 (foldl Simple.second_step d l) ag label y = lookup3 d ag label y.
Proof.
  apply (loop_untouched Simple.second_step (λ a, lookup3 a ag label y)).
  intros a [[ag' y'] c'] Hno. rewrite second_step_unfold. simpl in *.
  destruct (decide (Simple.get_count c' true + Simple.get_count c' false = 0))
    as [Hz|Hnz].
  - by rewrite bool_decide_eq_true_2.
  - rewrite bool_decide_eq_false_2 by done.
    rewrite !lookup3_label_write;
      rewrite ?is_Some_lookup_label_write;
      try apply is_Some_lookup_ensure_key.
    rewrite !decide_False, lookup3_ensure_key; [done | |].
    + intros (-> & <- & ->). apply Hno. auto.
    + intros (-> & <- & ->). apply Hno. auto.
Qed.

(** The keys of [age_groups] come from the keys of [temp_data]. *)
Lemma second_pass_dom (l : list (string * Z * Simple.counts)) (ag : string) :
  ag ∈ dom (Simple.second_pass l) → ∃ item, item ∈ l ∧ item.1.1 = ag.
Proof.
  unfold Simple.second_pass.
  rewrite (loop_collect Simple.second_step dom
             (λ item, if bool_decide (Simple.get_count item.2 true
                                      + Simple.get_count item.2 false = 0)
                      then None else Some item.1.1)).
  - rewrite dom_empty_L.
    intros [Hy|(item & Hin & Hp)]; [by apply elem_of_empty in Hy|].
    exists item. split; [done|].
    destruct (bool_decide _); [done | by injection Hp].
  - intros a [[ag' y'] c']. rewrite second_step_unfold. simpl.
    destruct (bool_decide _); simpl; [set_solver|].
    rewrite !dom_label_write, dom_ensure_key. set_solver.
Qed.

(** ** The grouped query of the simple view *)

Section simple_query.
Context (f : string) (ff : Mother.t → option bool) (sy ey : option Z).
Context (mothers : list Mother.t).

Lemma simple_query_keys :
  Simple.row_key <$> Simple.query f ff sy ey mothers ≡ₚ
  (Sql.group_by (Simple.key_of ff) (Simple.selected f ff sy ey mothers)).*1.
Proof.
  unfold Simple.query. rewrite <- list_fmap_compose.
  rewrite order_by_perm.
  erewrite list_fmap_ext; [reflexivity|].
  by intros i [[[y a] s] g] _.
Qed.

(** One row per key [(year, age_group, flag)]. *)
Lemma simple_query_NoDup :
  NoDup (Simple.row_key <$> Simple.query f ff sy ey mothers).
Proof. rewrite simple_query_keys. apply group_by_NoDup. Qed.

(** The row of a key sums [total_mothers] over the selected records
    that carry the key. *)
Lemma elem_of_simple_query (r : Simple.row) :
  r ∈ Simple.query f ff sy ey mothers ↔
  (∃ m, m ∈ Simple.selected f ff sy ey mothers ∧
        Simple.key_of ff m = Simple.row_key r) ∧
  Simple.total_mothers r =
    Sql.sum (Mother.total_mothers
               <$> filter (λ m, Simple.key_of ff m = Simple.row_key r)
                     (Simple.selected f ff sy ey mothers)).
Proof.
  unfold Simple.query. rewrite list_elem_of_fmap. split.
  - intros ([k g] & -> & Hin). rewrite order_by_perm in Hin.
    apply elem_of_group_by in Hin as [Hk ->].
    destruct k as [[y a] s]. simpl. split; [exact Hk | done].
  - intros [Hk Hsum].
    exists (Simple.row_key r,
            filter (λ m, Simple.key_of ff m = Simple.row_key r)
              (Simple.selected f ff sy ey mothers)).
    split.
    + destruct r as [y a s p]. simpl in *. by rewrite Hsum.
    + rewrite order_by_perm. by apply elem_of_group_by.
Qed.

(** The flag of a selected record is not null. *)
Lemma simple_selected_flag (m : Mother.t) :
  m ∈ Simple.selected f ff sy ey mothers → is_Some (ff m).
Proof.
  unfold Simple.selected, Simple.conditions.
  rewrite elem_of_where. intros [_ Hc].
  change (?a :: ?b :: ?l ++ ?k) with ([a] ++ (b :: l ++ k)) in Hc.
  apply and_app in Hc as [Hc _]. apply and_cons in Hc as [Hc _].
  by apply isnot_None_true in Hc.
Qed.

Lemma simple_query_flag (r : Simple.row) :
  r ∈ Simple.query f ff sy ey mothers → is_Some (Simple.has_factor r).
Proof.
  intros [(m & Hm & Hkey) _]%elem_of_simple_query.
  apply simple_selected_flag in Hm.
  unfold Simple.key_of, Simple.row_key in Hkey. by injection Hkey as _ _ <-.
Qed.
End simple_query.

Lemma int_or_zero_sum (xs : list (option Z)) :
  Py.int_or_zero (Sql.sum xs) = Sql.Zsum (Sql.non_null xs).
Proof.
  unfold Sql.sum. destruct (Sql.non_null xs) as [|x vs] eqn:Hxs; [done|].
  unfold Py.int_or_zero, Py.truthy_int.
  destruct (Z.eqb_spec (Sql.Zsum (x :: vs)) 0) as [->|]; done.
Qed.

(** The counts of [temp_data] are the sums over the selected records:
    the query has one row per key, so no assignment of the first pass
    overwrites another. *)
Lemma first_pass_query_count (f : string) (ff : Mother.t → option bool)
    (sy ey : option Z) (mothers : list Mother.t) (ag : string) (y : Z)
    (b : bool) :
  kept_age_group (Some ag) = Some ag →
  Simple.count_at (Simple.first_pass (Simple.query f ff sy ey mothers)).1
    (ag, y) b =
  Sql.Zsum (Sql.non_null
              (Mother.total_mothers
                 <$> filter (λ m, Simple.key_of ff m = (y, Some ag, Some b))
                       (Simple.selected f ff sy ey mothers))).
Proof.
  intros Hag.
  set (result := Simple.query f ff sy ey mothers).
  set (group := filter (λ m, Simple.key_of ff m = (y, Some ag, Some b))
                  (Simple.selected f ff sy ey mothers)).
  assert (Hhits : ∀ r', r' ∈ result →
            kept_age_group (Simple.age_group r') = Some ag ∧
            Simple.year r' = y ∧ Py.bool_of (Simple.has_factor r') = b →
            Simple.row_key r' = (y, Some ag, Some b)).
  { intros r' Hr' (Hk & Hy & Hb).
    apply kept_age_group_Some in Hk as (Hk & _).
    apply simple_query_flag in Hr' as [b' Hb'].
    unfold Simple.row_key. rewrite Hk, Hy, Hb'. rewrite Hb' in Hb.
    simpl in Hb. by subst. }
  destruct group as [|m0 group'] eqn:Hgroup.
  - (* no record carries the key: the count keeps its initial 0 *)
    unfold Simple.first_pass. rewrite first_pass_untouched; [done|].
    apply Forall_forall. intros r' Hr' Hhit.
    pose proof (Hhits r' Hr' Hhit) as Hkey.
    apply elem_of_simple_query in Hr' as [(m & Hm & Hmk) _].
    assert (Hin : m ∈ group).
    { apply list_elem_of_filter. split; [congruence | done]. }
    rewrite Hgroup in Hin. by apply elem_of_nil in Hin.
  - rewrite <- Hgroup.
    set (r := Simple.mk y (Some ag) (Some b)
                (Sql.sum (Mother.total_mothers <$> group))).
    assert (Hr : r ∈ result).
    { apply elem_of_simple_query. split; [|done].
      assert (Hin : m0 ∈ group) by (rewrite Hgroup; left).
      apply list_elem_of_filter in Hin as [Hk Hin]. by exists m0. }
    destruct (NoDup_key_split Simple.row_key result r) as (l1 & l2 & Hl & Hl2);
      [apply simple_query_NoDup | done |].
    unfold Simple.first_pass. fold result. rewrite Hl.
    rewrite (first_pass_last_write l1 l2 r ag y b).
    + apply int_or_zero_sum.
    + done.
    + apply Forall_forall. intros r' Hr' Hhit.
      rewrite Forall_forall in Hl2. apply (Hl2 r' Hr').
      apply Hhits; [|done]. rewrite Hl.
      apply elem_of_app. right. by right.
Qed.

(** ** The simple view: counts and percentages *)

(** C3 (as amended).  In [get_factor_data_simple] the assignment
    [temp_data[key][has_factor] = count] overwrites: over any list of
    rows the count left at a key is the one of the last row kept under
    that age group, year and flag.  But the rows it runs over are the
    groups of the query, one per (year, age_group, flag), so no
    assignment meets an earlier one: the count retained for a key of
    [temp_data] is the sum of [total_mothers] over the selected records
    of that age group, year and flag (null values left out, 0 when
    there is none), not the last value seen. *)
Theorem simple_view_counts_are_sums (factor_name : string)
    (factor_field : Mother.t → option bool) (start_year end_year : option Z)
    (mothers : list Mother.t) (ag : string) (y : Z) (has_factor : bool)
    (c : Simple.counts) :
  Dict.get (ag, y)
    (Simple.first_pass
       (Simple.query factor_name factor_field start_year end_year mothers)).1
    = Some c →
  (∀ (l1 l2 : list Simple.row) (r : Simple.row) acc,
     let hits (r' : Simple.row) :=
       kept_age_group (Simple.age_group r') = Some ag ∧
       Simple.year r' = y ∧
       Py.bool_of (Simple.has_factor r') = has_factor in
     hits r → Forall (λ r', ¬ hits r') l2 →
     Simple.count_at (foldl Simple.first_step acc (l1 ++ r :: l2)).1 (ag, y)
       has_factor
     = Py.int_or_zero (Simple.total_mothers r)) ∧
  NoDup (Simple.row_key
           <$> Simple.query factor_name factor_field start_year end_year
                 mothers) ∧
  Simple.get_count c has_factor =
  Sql.Zsum
    (Sql.non_null
       (Mother.total_mothers
          <$> filter (λ m, Simple.key_of factor_field m
                           = (y, Some ag, Some has_factor))
                (Simple.selected factor_name factor_field start_year end_year
                   mothers))).
Proof.
  intros Hget.
  split; [intros l1 l2 r acc; apply first_pass_last_write|].
  split; [apply simple_query_NoDup|].
  assert (Hkey : (ag, y) ∈ (Simple.first_pass
            (Simple.query factor_name factor_field start_year end_year
               mothers)).1.*1).
  { apply dec_stable. rewrite <- dict_get_None. congruence. }
  apply first_pass_keys in Hkey as (r & _ & Hag & _).
  apply kept_age_group_Some in Hag as (_ & Hne & Hsent).
  rewrite <- first_pass_query_count
    by (apply kept_age_group_Some; done).
  unfold Simple.count_at. by rewrite Hget.
Qed.

Lemma simple_view_counts_are_sums_witness :
  let t := [factor_record 1 (Some "25-29") (Some true) None
              (Some "Pre-existing diabetes") None 2023 (Some 10) (Some 1%Q);
            factor_record 2 (Some "25-29") (Some true) None
              (Some "Gestational diabetes") None 2023 (Some 20) (Some 2%Q);
            factor_record 3 (Some "25-29") (Some false) None
              (Some "None") None 2023 (Some 70) (Some 7%Q)] in
  NoDup (Simple.row_key
           <$> Simple.query "diabetes" Mother.diabetes_pre None None t) ∧
  Simple.get_count (Simple.mkCounts 30 70) true =
  Sql.Zsum
    (Sql.non_null
       (Mother.total_mothers
          <$> filter (λ m, Simple.key_of Mother.diabetes_pre m
                           = (2023, Some "25-29", Some true))
                (Simple.selected "diabetes" Mother.diabetes_pre None None t))).
Proof.
  intros t.
  apply (simple_view_counts_are_sums "diabetes" Mother.diabetes_pre None None
           t "25-29" 2023 true (Simple.mkCounts 30 70)).
  vm_compute. reflexivity.
Defined.

(** C3, the claim as stated fails: two records of counts 10 and 20
    share the key ("25-29", 2023, true); the count retained is their sum
    30, neither 10 nor 20, and the view answers Yes = 30.0 (30 of 100),
    not 22.2 (20 of 90). *)
Lemma simple_view_duplicate_key_counterexample :
  let t := [factor_record 1 (Some "25-29") (Some true) None
              (Some "Pre-existing diabetes") None 2023 (Some 10) (Some 1%Q);
            factor_record 2 (Some "25-29") (Some true) None
              (Some "Gestational diabetes") None 2023 (Some 20) (Some 2%Q);
            factor_record 3 (Some "25-29") (Some false) None
              (Some "None") None 2023 (Some 70) (Some 7%Q)] in
  (λ c, Simple.get_count c true)
    <$> Dict.get ("25-29", 2023)
          (Simple.first_pass
             (Simple.query "diabetes" Mother.diabetes_pre None None t)).1
    = Some 30 ∧
  30 ≠ 20 ∧ 30 ≠ 10 ∧
  (λ res, Qred <$> lookup3 (age_groups res) "25-29" "Yes" 2023)
    <$> get_factor_data_simple (Connected t []) "diabetes" None None None
    = Returned (Some 30%Q) ∧
  ¬ (30 == 20 / 90 * 100)%Q.
Proof.
  split; [|split; [|split; [|split]]].
  - vm_compute. reflexivity.
  - lia.
  - lia.
  - vm_compute. reflexivity.
  - vm_compute. discriminate.
Qed.

Lemma elem_of_sorted (years_set : gset Z) (y : Z) :
  y ∈ Py.sorted years_set ↔ y ∈ years_set.
Proof.
  unfold Py.sorted. rewrite merge_sort_Permutation. apply elem_of_elements.
Qed.

Lemma percentage_split (c : Simple.counts) :
  let total := Simple.get_count c true + Simple.get_count c false in
  0 < total →
  (Simple.percentage_of c total true + Simple.percentage_of c total false
   == 100)%Q.
Proof.
  intros total Hpos. unfold Simple.percentage_of.
  rewrite bool_decide_eq_true_2 by done.
  assert (Hnz : ¬ (inject_Z total == 0)%Q).
  { change 0%Q with (inject_Z 0). rewrite inject_Z_injective. lia. }
  revert Hnz. unfold total. clear Hpos total.
  generalize (Simple.get_count c true) (Simple.get_count c false).
  intros a b. rewrite inject_Z_plus. intros Hnz. field. exact Hnz.
Qed.

Lemma percentage_negative_total (c : Simple.counts) (total : Z) (b : bool) :
  total < 0 → Simple.percentage_of c total b = 0%Q.
Proof.
  intros Hneg. unfold Simple.percentage_of.
  by rewrite bool_decide_eq_false_2 by lia.
Qed.

(** C4 (as amended).  In the result of [get_factor_data_simple], for
    every (age_group, year) key of [temp_data] with counts [c] and
    [total = c[True] + c[False]]: when [total] is 0 the pair has no
    entry under "Yes" nor under "No" (its year stays in [years]); when
    [total] is not 0 both entries exist; when [total] is positive they
    are [c[True] / total * 100] and [c[False] / total * 100] and add up
    to 100 (in exact arithmetic); when [total] is negative both are 0.0.
    A pair that is no key of [temp_data] has no entry, and there is no
    entry under another label. *)
Theorem simple_view_yes_no_split (mothers : list Mother.t)
    (complications : list Complication.t) (factor_name : string)
    (factor_field : Mother.t → option bool) (age_group : option string)
    (start_year end_year : option Z) :
  Simple.field factor_name = Some factor_field →
  ∃ res,
    get_factor_data_simple (Connected mothers complications) factor_name
      age_group start_year end_year = Returned res ∧
    ∀ (ag : string) (y : Z),
      let yes := lookup3 (age_groups res) ag "Yes" y in
      let no := lookup3 (age_groups res) ag "No" y in
      (∀ label, label ≠ "Yes" → label ≠ "No" →
                lookup3 (age_groups res) ag label y = None) ∧
      match
        Dict.get (ag, y)
          (Simple.first_pass
             (Simple.query factor_name factor_field start_year end_year
                mothers)).1
      with
      | Some c =>
          let total := Simple.get_count c true + Simple.get_count c false in
          y ∈ years res ∧
          (total = 0 → yes = None ∧ no = None) ∧
          (total ≠ 0 →
           yes = Some (Simple.percentage_of c total true) ∧
           no = Some (Simple.percentage_of c total false)) ∧
          (0 < total →
           (Simple.percentage_of c total true
            == inject_Z (Simple.get_count c true) / inject_Z total * 100)%Q ∧
           (Simple.percentage_of c total false
            == inject_Z (Simple.get_count c false) / inject_Z total * 100)%Q ∧
           (Simple.percentage_of c total true
            + Simple.percentage_of c total false == 100)%Q) ∧
          (total < 0 →
           Simple.percentage_of c total true = 0%Q ∧
           Simple.percentage_of c total false = 0%Q)
      | None => yes = None ∧ no = None
      end.
Proof.
  intros Hf.
  set (result := Simple.query factor_name factor_field start_year end_year
                   mothers).
  destruct (Simple.first_pass result) as [temp ys] eqn:Hpass.
  exists (mkFactorResult factor_name age_group (Py.sorted ys)
            (Simple.second_pass temp)).
  split.
  { unfold get_factor_data_simple. rewrite Hf. simpl. fold result.
    by rewrite Hpass. }
  intros ag y. simpl.
  assert (Hnd : NoDup temp.*1).
  { replace temp with (Simple.first_pass result).1 by by rewrite Hpass.
    apply first_pass_NoDup. }
  split.
  { intros label H1 H2. unfold Simple.second_pass.
    rewrite second_pass_untouched; [apply lookup3_empty|].
    apply Forall_forall. intros item _ (_ & _ & [?|?]); done. }
  destruct (Dict.get (ag, y) temp) as [c|] eqn:Hget.
  - pose proof (dict_get_elem_of _ _ _ Hget) as Hin.
    split; [|split; [|split; [|split]]].
    + apply elem_of_sorted.
      replace ys with (Simple.first_pass result).2 by by rewrite Hpass.
      apply first_pass_years.
      assert (Hkey : (ag, y) ∈ (Simple.first_pass result).1.*1).
      { rewrite Hpass. simpl. change (ag, y) with (ag, y, c).1.
        by apply list_elem_of_fmap_2. }
      apply first_pass_keys in Hkey as (r & Hr & Hag & Hy).
      exists r. rewrite Hag. eauto.
    + intros Hz. unfold Simple.second_pass.
      rewrite !second_pass_untouched; rewrite ?lookup3_empty; [done| |];
        apply Forall_forall; intros [k c'] Hc' (Hk & Hne & _);
        simpl in *; subst k;
        apply (dict_elem_of_get _ _ _ Hnd) in Hc';
        rewrite Hget in Hc'; injection Hc' as <-; done.
    + intros Hnz.
      destruct (NoDup_key_split fst temp (ag, y, c)) as (l1 & l2 & Hl & Hl2);
        [done | done |].
      unfold Simple.second_pass. rewrite Hl. split.
      * by apply (second_pass_last_write l1 l2 ag y c true).
      * by apply (second_pass_last_write l1 l2 ag y c false).
    + intros Hpos. split; [|split].
      * unfold Simple.percentage_of. by rewrite bool_decide_eq_true_2.
      * unfold Simple.percentage_of. by rewrite bool_decide_eq_true_2.
      * by apply percentage_split.
    + intros Hneg. split; by apply percentage_negative_total.
  - apply dict_get_None in Hget. unfold Simple.second_pass.
    rewrite !second_pass_untouched; rewrite ?lookup3_empty; [done| |];
      apply Forall_forall; intros item Hitem (Hk & _); apply Hget;
      rewrite <- Hk; by apply list_elem_of_fmap_2.
Qed.

Lemma simple_view_yes_no_split_witness :
  let t := [factor_record 1 (Some "25-29") (Some true) None
              (Some "Gestational diabetes") None 2023 (Some 30) (Some 30%Q);
            factor_record 2 (Some "25-29") (Some false) None
              (Some "None") None 2023 (Some 70) (Some 70%Q)] in
  ∃ res vy vn,
    get_factor_data_simple (Connected t []) "diabetes" None None None
      = Returned res ∧
    lookup3 (age_groups res) "25-29" "Yes" 2023 = Some vy ∧
    lookup3 (age_groups res) "25-29" "No" 2023 = Some vn ∧
    (vy == 30)%Q ∧ (vn == 70)%Q ∧ (vy + vn == 100)%Q.
Proof.
  intros t.
  destruct (simple_view_yes_no_split t [] "diabetes" Mother.diabetes_pre
              None None None eq_refl) as (res & Hres & Hall).
  specialize (Hall "25-29" 2023). cbv zeta in Hall.
  destruct Hall as [_ Hall].
  assert (Hget : Dict.get ("25-29", 2023)
            (Simple.first_pass
               (Simple.query "diabetes" Mother.diabetes_pre None None t)).1
            = Some (Simple.mkCounts 30 70)) by (vm_compute; reflexivity).
  rewrite Hget in Hall.
  destruct Hall as (_ & _ & Hentries & Hsplit & _).
  destruct Hentries as [Hyes Hno]; [simpl; lia|].
  destruct Hsplit as (Hy & Hn & Hsum); [simpl; lia|].
  eexists res, _, _.
  split; [exact Hres|]. split; [exact Hyes|]. split; [exact Hno|].
  split; [|split].
  - rewrite Hy. vm_compute. reflexivity.
  - rewrite Hn. vm_compute. reflexivity.
  - exact Hsum.
Defined.

(** C4, the claim as stated fails: with counts -5 (true) and 2 (false)
    for ("25-29", 2023) the total -3 is not 0, the pair is present in
    the result, and both entries are 0.0: they do not add up to 100. *)
Lemma simple_view_negative_total_counterexample :
  let t := [factor_record 1 (Some "25-29") (Some true) None
              (Some "Gestational diabetes") None 2023 (Some (-5)) None;
            factor_record 2 (Some "25-29") (Some false) None
              (Some "None") None 2023 (Some 2) None] in
  (λ res, (lookup3 (age_groups res) "25-29" "Yes" 2023,
           lookup3 (age_groups res) "25-29" "No" 2023))
    <$> get_factor_data_simple (Connected t []) "diabetes" None None None
    = Returned (Some 0%Q, Some 0%Q) ∧
  ¬ (0 + 0 == 100)%Q.
Proof.
  split.
  - vm_compute. reflexivity.
  - vm_compute. discriminate.
Qed.

(** ** Age groups of the result *)

(** C6.  No key of the [age_groups] mapping returned by either view
    is, once lower-cased, "total" or "not stated": the rows of such an
    age group are skipped by the guard of the loop and write nothing. *)
Theorem sentinel_age_groups_never_keys (db : Session) (factor_name : string)
    (age_group : option string) (start_year end_year : option Z)
    (sub_group : option (list string)) (res : FactorResult) (k : string) :
  get_factor_data db factor_name age_group start_year end_year sub_group
    = Returned res ∨
  get_factor_data_simple db factor_name age_group start_year end_year
    = Returned res →
  k ∈ dom (age_groups res) →
  Py.lower k ≠ "total" ∧ Py.lower k ≠ "not stated".
Proof.
  intros Hres Hk. apply not_sentinel_lower.
  cut (∃ a, kept_age_group a = Some k).
  { intros [a Ha]. by apply kept_age_group_Some in Ha as (_ & _ & ?). }
  destruct Hres as [Hres|Hres].
  - unfold get_factor_data in Hres.
    destruct (Detail.fields factor_name) as [[ff sf]|].
    + destruct db as [mothers cs|]; [|done]. simpl in Hres.
      destruct (Detail.loop _) as [d ys] eqn:Hloop.
      injection Hres as <-. simpl in Hk.
      replace d with (Detail.loop
        (Detail.query ff sf start_year end_year sub_group mothers)).1 in Hk
        by by rewrite Hloop.
      apply detail_loop_dom in Hk as (r & _ & Hr). eauto.
    + injection Hres as <-. simpl in Hk. by apply elem_of_empty in Hk.
  - unfold get_factor_data_simple in Hres.
    destruct (Simple.field factor_name) as [ff|].
    + destruct db as [mothers cs|]; [|done]. simpl in Hres.
      destruct (Simple.first_pass _) as [temp ys] eqn:Hpass.
      injection Hres as <-. simpl in Hk.
      apply second_pass_dom in Hk as ([[ag y] c] & Hin & Hag).
      simpl in Hag. subst ag.
      assert (Hkey : (k, y) ∈ (Simple.first_pass
                (Simple.query factor_name ff start_year end_year mothers)).1.*1).
      { rewrite Hpass. simpl. change (k, y) with (k, y, c).1.
        by apply list_elem_of_fmap_2. }
      apply first_pass_keys in Hkey as (r & _ & Hr & _). eauto.
    + injection Hres as <-. simpl in Hk. by apply elem_of_empty in Hk.
Qed.

Lemma sentinel_age_groups_never_keys_witness :
  let t := [factor_record 1 (Some "Total") (Some true) None
              (Some "Gestational diabetes") None 2022 (Some 90) (Some 9%Q);
            factor_record 2 (Some "NOT STATED") (Some true) None
              (Some "Gestational diabetes") None 2022 (Some 1) (Some 1%Q);
            factor_record 3 (Some "20-24") (Some true) None
              (Some "Gestational diabetes") None 2022 (Some 10) (Some 5%Q)] in
  ∃ res,
    get_factor_data (Connected t []) "diabetes" None None None None
      = Returned res ∧
    "20-24" ∈ dom (age_groups res) ∧
    Py.lower "20-24" ≠ "total" ∧ Py.lower "20-24" ≠ "not stated".
Proof.
  intros t.
  destruct (get_factor_data (Connected t []) "diabetes" None None None None)
    as [res|] eqn:Hres; [|vm_compute in Hres; discriminate Hres].
  exists res.
  assert (Hk : "20-24" ∈ dom (age_groups res)).
  { vm_compute in Hres. injection Hres as <-.
    apply elem_of_dom. vm_compute. eauto. }
  split; [reflexivity|]. split; [exact Hk|].
  apply (sentinel_age_groups_never_keys (Connected t []) "diabetes" None None
           None None res "20-24"); [|exact Hk].
  left. exact Hres.
Defined.

(** ** The list of years *)

Lemma sorted_strictly_ascending (years_set : gset Z) :
  StronglySorted Z.lt (Py.sorted years_set).
Proof.
  assert (Hs : StronglySorted Z.le (Py.sorted years_set)).
  { apply StronglySorted_merge_sort; apply _. }
  assert (Hnd : NoDup (Py.sorted years_set)).
  { unfold Py.sorted. rewrite merge_sort_Permutation. apply NoDup_elements. }
  induction Hs as [|y l Hs IH Hall]; [constructor|].
  apply NoDup_cons in Hnd as [Hy Hnd].
  constructor; [by apply IH|].
  rewrite Forall_forall in Hall |- *. intros z Hz.
  specialize (Hall z Hz). assert (y ≠ z) by (by intros ->). lia.
Qed.

Lemma strictly_ascending_NoDup (l : list Z) : StronglySorted Z.lt l → NoDup l.
Proof.
  induction 1 as [|y l Hs IH Hall]; [apply NoDup_nil_2|].
  apply NoDup_cons. split; [|done].
  intros Hin. rewrite Forall_forall in Hall. specialize (Hall y Hin). lia.
Qed.

(** A group of the simple view whose counts add up to 0 writes no
    entry, yet its year is listed. *)
Example simple_view_zero_total_year_listed :
  let t := [factor_record 1 (Some "25-29") (Some true) None
              (Some "Gestational diabetes") None 2020 None (Some 3%Q)] in
  get_factor_data_simple (Connected t []) "diabetes" None None None
    = Returned (mkFactorResult "diabetes" None [2020] ∅).
Proof. vm_compute. reflexivity. Qed.

(** ** The sub-group filter of the simple view, end to end *)


(** A record with a null sub-group is counted, one with the sub-group
    "Total" is not, one with "total" is. *)
Example simple_view_null_subgroup_counted :
  let t := [factor_record 1 (Some "25-29") (Some true) None
              None None 2023 (Some 30) None;
            factor_record 2 (Some "25-29") (Some false) None
              (Some "Total") None 2023 (Some 1000) None;
            factor_record 3 (Some "25-29") (Some false) None
              (Some "total") None 2023 (Some 70) None] in
  Dict.get ("25-29", 2023)
    (Simple.first_pass
       (Simple.query "diabetes" Mother.diabetes_pre None None t)).1
  = Some (Simple.mkCounts 30 70).
Proof. vm_compute. reflexivity. Qed.

(** ** The scenario snapshots *)

Lemma snapshot_of_no_row :
  Snapshot.to_stats (Snapshot.first (Snapshot.aggregate []))
  = Snapshot.mkStats 0 0.
Proof. reflexivity. Qed.

Lemma snapshot_total (selected : list Mother.t) :
  Snapshot.total (Snapshot.to_stats (Snapshot.first (Snapshot.aggregate selected)))
  = Z.of_nat (length selected).
Proof. simpl. unfold Sql.count. by rewrite length_fmap. Qed.

(** C10 (as amended).  With the store available,
    [get_preparing_scenario_data] called without any profile attribute
    returns the same statistics for the matching mothers as for the
    baseline of the reference year 2023; its two snapshots, and the
    baseline of [get_comparison_data], are always computed, count the
    rows they select, and are [total = 0], [avg_percentage = 0.0] when
    no row matches.  [get_comparison_data] computes the filtered
    snapshot only when an attribute is supplied (then with the same
    defaults); without any attribute its [user_stats] stays the empty
    dictionary. *)
Theorem snapshot_baseline_and_defaults (table : list Mother.t)
    (complications : list Complication.t) :
  (∃ r,
     get_preparing_scenario_data (Connected table complications) None None
       None None None None = Returned r ∧
     Preparing.mothers r = Preparing.overall_average r) ∧
  (∀ age_group smoking bmi diabetes hypertension lhd,
     let filters :=
       Snapshot.filters
         (Snapshot.mkProfile age_group smoking bmi diabetes hypertension lhd) in
     ∃ r,
       get_preparing_scenario_data (Connected table complications) age_group
         smoking bmi diabetes hypertension lhd = Returned r ∧
       Snapshot.total (Preparing.mothers r)
         = Z.of_nat (length (Preparing.matching filters table)) ∧
       Snapshot.total (Preparing.overall_average r)
         = Z.of_nat (length (Snapshot.reference_year table)) ∧
       (Preparing.matching filters table = [] →
        Preparing.mothers r = Snapshot.mkStats 0 0) ∧
       (Snapshot.reference_year table = [] →
        Preparing.overall_average r = Snapshot.mkStats 0 0)) ∧
  (∀ profile,
     ∃ r overall,
       get_comparison_data (Connected table complications) "preparing" profile
         = Returned r ∧
       Comparison.overall_average r = Some overall ∧
       Snapshot.total overall
         = Z.of_nat (length (Snapshot.reference_year table)) ∧
       (Snapshot.reference_year table = [] →
        overall = Snapshot.mkStats 0 0) ∧
       (Snapshot.filters profile = [] → Comparison.user_stats r = None) ∧
       (Snapshot.filters profile ≠ [] →
        ∃ user,
          Comparison.user_stats r = Some user ∧
          Snapshot.total user
            = Z.of_nat (length (Comparison.matching
                                  (Snapshot.filters profile) table)) ∧
          (Comparison.matching (Snapshot.filters profile) table = [] →
           user = Snapshot.mkStats 0 0))) ∧
  (∃ r,
     get_comparison_data (Connected table complications) "preparing"
       (Snapshot.mkProfile None None None None None None) = Returned r ∧
     Comparison.user_stats r = None).
Proof.
  split; [|split; [|split]].
  - eexists. split; reflexivity.
  - intros ag sm bmi d h lhd filters. eexists.
    split; [reflexivity|]. simpl. fold filters.
    split; [apply snapshot_total|]. split; [apply snapshot_total|].
    split.
    + unfold Preparing.mothers_query. by intros ->.
    + unfold Snapshot.overall_query. by intros ->.
  - intros profile. unfold get_comparison_data.
    rewrite decide_True by done.
    destruct (Snapshot.filters profile) as [|c cs] eqn:Hfilters; simpl.
    + eexists _, _. split; [reflexivity|]. simpl.
      split; [reflexivity|]. split; [apply snapshot_total|].
      split; [unfold Snapshot.overall_query; by intros ->|].
      split; [done|]. done.
    + eexists _, _. split; [reflexivity|]. simpl.
      split; [reflexivity|]. split; [apply snapshot_total|].
      split; [unfold Snapshot.overall_query; by intros ->|].
      split; [done|]. intros _. eexists. split; [reflexivity|].
      split; [apply snapshot_total|].
      unfold Comparison.user_query. by intros ->.
  - eexists. split; reflexivity.
Qed.

(** C10, the claim as stated fails for [get_comparison_data]: called
    without any profile attribute over a table with one row of 2023,
    it leaves [user_stats] empty while the baseline has
    [total = 1], [avg_percentage = 5.0]. *)
Lemma comparison_without_attribute_counterexample :
  let t := [factor_record 1 (Some "25-29") None None None None 2023
              (Some 10) (Some 5%Q)] in
  (λ r, (Comparison.user_stats r, Comparison.overall_average r))
    <$> get_comparison_data (Connected t []) "preparing"
          (Snapshot.mkProfile None None None None None None)
    = Returned (None, Some (Snapshot.mkStats 1 5%Q)) ∧
  (None : option Snapshot.stats) ≠ Some (Snapshot.mkStats 1 5%Q).
Proof.
  split.
  - vm_compute. reflexivity.
  - discriminate.
Qed.

(** The same call of [get_preparing_scenario_data] answers the
    baseline on both sides. *)
Example preparing_without_attribute :
  let t := [factor_record 1 (Some "25-29") None None None None 2023
              (Some 10) (Some 5%Q);
            factor_record 2 (Some "30-34") None None None None 2022
              (Some 10) (Some 9%Q)] in
  (λ r, (Preparing.mothers r, Preparing.overall_average r))
    <$> get_preparing_scenario_data (Connected t []) None None None None
          None None
    = Returned (Snapshot.mkStats 1 5%Q, Snapshot.mkStats 1 5%Q).
Proof. vm_compute. reflexivity. Qed.

(** ** Further examples *)

(** Years come out ascending and once each, whatever the order and
    multiplicity in the table; the year of a "Total" age group is not
    listed. *)
Example years_of_unordered_table :
  let t := [factor_record 1 (Some "25-29") (Some true) None
              (Some "Gestational diabetes") None 2023 (Some 3) (Some 3%Q);
            factor_record 2 (Some "20-24") (Some true) None
              (Some "Gestational diabetes") None 2019 (Some 3) (Some 3%Q);
            factor_record 3 (Some "30-34") (Some false) None
              (Some "None") None 2023 (Some 3) (Some 3%Q);
            factor_record 4 (Some "Total") (Some true) None
              (Some "Gestational diabetes") None 2020 (Some 9) (Some 9%Q);
            factor_record 5 (Some "25-29") (Some true) None
              (Some "Gestational diabetes") None 2021 (Some 3) (Some 3%Q)] in
  years <$> get_factor_data (Connected t []) "diabetes" None None None None
    = Returned [2019; 2021; 2023] ∧
  years <$> get_factor_data_simple (Connected t []) "diabetes" None None None
    = Returned [2019; 2021; 2023].
Proof. split; vm_compute; reflexivity. Qed.

(** The label "Unknown" is shared by the groups with a null, an empty
    and an "Unknown" sub-group: the one written last stays. *)
Example unknown_label_shared :
  let t := [factor_record 1 (Some "25-29") (Some true) None
              (Some "Unknown") None 2023 (Some 3) (Some 8%Q);
            factor_record 2 (Some "25-29") (Some true) None
              None None 2023 (Some 3) (Some 4%Q)] in
  (λ res, lookup3 (age_groups res) "25-29" "Unknown" 2023)
    <$> get_factor_data (Connected t []) "diabetes" None None None None
    = Returned (Some 8%Q).
Proof. vm_compute. reflexivity. Qed.

(** * Further properties of the controllers *)

(** ** More on the relational store *)

Lemma sql_eq_true {R A} `{EqDecision A} (column : R → option A) (v : A)
    (r : R) :
  Sql.eq column v r = Some true ↔ column r = Some v.
Proof.
  unfold Sql.eq. destruct (column r) as [x|]; simpl; [|split; discriminate].
  rewrite Some_bool_decide_true. split; congruence.
Qed.

Lemma sql_in_true {R A} `{EqDecision A} (column : R → option A)
    (vs : list A) (r : R) :
  Sql.in_ column vs r = Some true ↔ ∃ v, column r = Some v ∧ v ∈ vs.
Proof.
  unfold Sql.in_. destruct (column r) as [x|]; simpl.
  - rewrite Some_bool_decide_true. split; [eauto|].
    by intros (v & [= ->] & ?).
  - split; [discriminate | by intros (? & ? & _)].
Qed.

Lemma int_eq_true {R} (column : R → Z) (v : Z) (r : R) :
  Sql.int_eq column v r = Some true ↔ column r = v.
Proof. unfold Sql.int_eq. apply Some_bool_decide_true. Qed.

Lemma where_length {R} (c : Sql.condition R) (rows : list R) :
  (length (Sql.where_ c rows) ≤ length rows)%nat.
Proof. apply length_filter. Qed.

(** A [WHERE] clause reads only the rows that a consequence of its
    condition selects. *)
Lemma where_of_filter {R} (c : Sql.condition R) (P : R → Prop)
    `{∀ r, Decision (P r)} (rows : list R) :
  (∀ r, c r = Some true → P r) →
  Sql.where_ c rows = Sql.where_ c (filter P rows).
Proof.
  intros HcP. unfold Sql.where_. rewrite list_filter_filter.
  apply list_filter_iff. intros r. split; [auto|tauto].
Qed.

Lemma where_refines_selection {R} (c : Sql.condition R) (P : R → Prop)
    `{∀ r, Decision (P r)} (rows rows' : list R) :
  (∀ r, c r = Some true → P r) →
  filter P rows = filter P rows' →
  Sql.where_ c rows = Sql.where_ c rows'.
Proof.
  intros HcP Heq.
  by rewrite (where_of_filter c P rows), (where_of_filter c P rows'), Heq.
Qed.

Lemma count_nonneg {A} (xs : list A) : 0 ≤ Sql.count xs.
Proof. unfold Sql.count. lia. Qed.

(** The groups of a GROUP BY are not empty and partition the rows. *)
Section partition.
Context {R K : Type} `{EqDecision K} (key : R → K).

Lemma group_by_nonempty (rows : list R) (k : K) (g : list R) :
  (k, g) ∈ Sql.group_by key rows → (1 ≤ length g)%nat.
Proof.
  intros [(r & Hr & Hk) ->]%elem_of_group_by.
  assert (Hin : r ∈ filter (λ r', key r' = k) rows)
    by (by apply list_elem_of_filter).
  destruct (filter _ rows); [by apply elem_of_nil in Hin | simpl; lia].
Qed.

Lemma key_counted_once (ks : list K) (k0 : K) :
  NoDup ks → k0 ∈ ks →
  sum_list ((λ k, if decide (k0 = k) then 1%nat else 0%nat) <$> ks) = 1%nat.
Proof.
  induction 1 as [|k ks Hk Hnd IH]; [by intros ?%elem_of_nil|].
  intros Hin. csimpl. destruct (decide (k0 = k)) as [->|Hne].
  - assert (Hz : sum_list ((λ k', if decide (k = k') then 1%nat else 0%nat)
                            <$> ks) = 0%nat); [|by rewrite Hz].
    clear IH Hin Hnd. induction ks as [|k' ks IH]; [done|].
    apply not_elem_of_cons in Hk as [Hne Hk]. csimpl.
    rewrite decide_False by done. by rewrite IH.
  - apply elem_of_cons in Hin as [?|Hin]; [done|]. by rewrite IH.
Qed.

Lemma groups_partition (ks : list K) (rows : list R) :
  NoDup ks → (∀ r, r ∈ rows → key r ∈ ks) →
  sum_list ((λ k, length (filter (λ r, key r = k) rows)) <$> ks)
  = length rows.
Proof.
  intros Hnd. induction rows as [|r rows IH]; intros Hks.
  - clear Hnd Hks. induction ks as [|k ks IHk]; [done|]. exact IHk.
  - assert (Hstep : ∀ l : list K,
      sum_list ((λ k, length (filter (λ r', key r' = k) (r :: rows))) <$> l)
      = (sum_list ((λ k, if decide (key r = k) then 1 else 0) <$> l)
         + sum_list ((λ k, length (filter (λ r', key r' = k) rows)) <$> l))%nat).
    { induction l as [|k l IHl]; [done|]. csimpl. rewrite IHl.
      rewrite filter_cons. destruct (decide (key r = k)); simpl; lia. }
    rewrite Hstep, IH, key_counted_once; [done | done | |].
    + apply Hks. left.
    + intros r' Hr'. apply Hks. by right.
Qed.

Lemma group_by_partition (rows : list R) :
  sum_list (length <$> (Sql.group_by key rows).*2) = length rows.
Proof.
  unfold Sql.group_by. rewrite <- !list_fmap_compose.
  rewrite <- (groups_partition (remove_dups (key <$> rows)) rows).
  - done.
  - apply NoDup_remove_dups.
  - intros r Hr. apply elem_of_remove_dups. by apply list_elem_of_fmap_2.
Qed.
End partition.

(** A list either has no element satisfying [P] or a last one. *)
Lemma last_hit_split {B} (P : B → Prop) `{∀ b, Decision (P b)} (l : list B) :
  Forall (λ b, ¬ P b) l ∨
  ∃ l1 b l2, l = l1 ++ b :: l2 ∧ P b ∧ Forall (λ b', ¬ P b') l2.
Proof.
  induction l as [|b l [IH|(l1 & b' & l2 & -> & Hb & Hl2)]].
  - left. constructor.
  - destruct (decide (P b)) as [Hb|Hb].
    + right. exists [], b, l. done.
    + left. by constructor.
  - right. exists (b :: l1), b', l2. done.
Qed.

Lemma Zsum_of_nat (ns : list nat) :
  Sql.Zsum (Z.of_nat <$> ns) = Z.of_nat (sum_list ns).
Proof.
  induction ns as [|n ns IH]; [done|]. csimpl.
  unfold Sql.Zsum in *. simpl. rewrite IH. lia.
Qed.

(** A query grouped by one column that counts the ids of each group:
    one row per value of the column, each counting at least one record,
    the counts adding up to the number of records grouped. *)
Lemma grouped_counts {R} (id : R → Z) (pct : R → option Q)
    (column : R → option string) (selected : list R) :
  let rows :=
    (λ g : option string * list R,
       (g.1, Sql.count (id <$> g.2), Sql.avg (pct <$> g.2)))
    <$> Sql.group_by column selected in
  NoDup ((λ row, row.1.1) <$> rows) ∧
  Forall (λ row, 1 ≤ row.1.2) rows ∧
  Sql.Zsum ((λ row, row.1.2) <$> rows) = Z.of_nat (length selected) ∧
  (∀ t, t ∈ (λ row, row.1.1) <$> rows ↔ ∃ r, r ∈ selected ∧ column r = t).
Proof.
  intros rows. unfold rows. split; [|split; [|split]].
  - rewrite <- list_fmap_compose.
    erewrite list_fmap_ext; [apply (group_by_NoDup column selected)|].
    by intros i [k g] _.
  - apply Forall_forall. intros row ([k g] & -> & Hg)%list_elem_of_fmap.
    simpl. apply group_by_nonempty in Hg. unfold Sql.count.
    rewrite length_fmap. lia.
  - rewrite <- list_fmap_compose.
    rewrite <- (group_by_partition column selected), <- Zsum_of_nat.
    rewrite <- !list_fmap_compose. f_equal. apply list_fmap_ext.
    intros i [k g] _. simpl. unfold Sql.count. by rewrite length_fmap.
  - intros t. rewrite <- list_fmap_compose.
    erewrite list_fmap_ext with (g := fst); [|by intros i [k g] _].
    rewrite group_by_keys, elem_of_remove_dups, list_elem_of_fmap.
    split; intros (r & ? & ?); eauto.
Qed.

(** Each row of such a query counts the records that carry its value of
    the column. *)
Lemma grouped_count_of_key {R} (id : R → Z) (pct : R → option Q)
    (column : R → option string) (selected : list R)
    (row : option string * Z * option Q) :
  row ∈ (λ g : option string * list R,
           (g.1, Sql.count (id <$> g.2), Sql.avg (pct <$> g.2)))
        <$> Sql.group_by column selected →
  row.1.2 = Z.of_nat (length (filter (λ r, column r = row.1.1) selected)).
Proof.
  intros ([k g] & -> & [_ ->]%elem_of_group_by)%list_elem_of_fmap. simpl.
  unfold Sql.count. by rewrite length_fmap.
Qed.

(** ** The pregnant scenario *)

Lemma births_of_year_filter (age_group lhd : option string)
    (births : list Birth.t) :
  Pregnant.births_of_year (Pregnant.birth_filters age_group lhd) births =
  filter (λ b, Birth.year b = 2023 ∧
               (Py.when_str lhd = None ∨ Birth.lhd b = Py.when_str lhd))
    births.
Proof.
  unfold Pregnant.births_of_year, Sql.where_. apply list_filter_iff.
  intros b. rewrite and_cons, int_eq_true. unfold Pregnant.birth_filters.
  destruct (Py.when_str lhd) as [v|].
  - rewrite and_cons, sql_eq_true.
    split; [intros (? & ? & _); auto | intros (? & [?|?]); done].
  - split; [intros (? & _); auto | intros (? & _); done].
Qed.

Lemma length_filter_mono {A} (P Q : A → Prop) `{∀ x, Decision (P x)}
    `{∀ x, Decision (Q x)} (l : list A) :
  (∀ x, P x → Q x) → (length (filter P l) ≤ length (filter Q l))%nat.
Proof.
  intros HPQ. induction l as [|x l IH]; [done|].
  rewrite !filter_cons. destruct (decide (P x)) as [HP|HP].
  - rewrite decide_True by auto. simpl. lia.
  - destruct (decide (Q x)); simpl; lia.
Qed.

Lemma preterm_births_sub (filters : list (Sql.condition Birth.t))
    (births : list Birth.t) :
  (length (Pregnant.preterm_births filters births)
   ≤ length (Pregnant.births_of_year filters births))%nat.
Proof.
  unfold Pregnant.preterm_births, Pregnant.births_of_year, Sql.where_.
  apply length_filter_mono. intros b.
  rewrite !and_cons. tauto.
Qed.

(** X1.  [get_pregnant_scenario_data] reads the births of 2023 of the
    district asked for (all districts when [lhd] is absent or empty) and
    the babies of 2023, and nothing else: two stores that agree on those
    rows get the same answer, whatever [age_group], [antenatal_week] and
    [current_week] are ([if age_group: pass], and the antenatal filters
    enter no query). *)
Theorem pregnant_reads_selected_rows_only (births births' : list Birth.t)
    (babies babies' : list Baby.t) (age_group age_group' : option string)
    (antenatal_week antenatal_week' : option string)
    (current_week current_week' : option Z) (lhd : option string) :
  filter (λ b, Birth.year b = 2023 ∧
               (Py.when_str lhd = None ∨ Birth.lhd b = Py.when_str lhd))
    births
  = filter (λ b, Birth.year b = 2023 ∧
                 (Py.when_str lhd = None ∨ Birth.lhd b = Py.when_str lhd))
      births' →
  filter (λ b, Baby.year b = 2023) babies
  = filter (λ b, Baby.year b = 2023) babies' →
  get_pregnant_scenario_data (Pregnant.Connected births babies) age_group
    antenatal_week current_week lhd
  = get_pregnant_scenario_data (Pregnant.Connected births' babies')
      age_group' antenatal_week' current_week' lhd.
Proof.
  intros Hbirths Hbabies.
  assert (Hsel : ∀ b : Birth.t,
            Sql.and_ (Sql.int_eq Birth.year 2023
                      :: Pregnant.birth_filters None lhd) b = Some true →
            Birth.year b = 2023 ∧
            (Py.when_str lhd = None ∨ Birth.lhd b = Py.when_str lhd)).
  { intros b. rewrite and_cons, int_eq_true. unfold Pregnant.birth_filters.
    destruct (Py.when_str lhd) as [v|]; [|tauto].
    rewrite and_cons, sql_eq_true. tauto. }
  pose (P := λ b : Birth.t,
          Birth.year b = 2023 ∧
          (Py.when_str lhd = None ∨ Birth.lhd b = Py.when_str lhd)).
  pose (B := λ b : Baby.t, Baby.year b = 2023).
  unfold get_pregnant_scenario_data. csimpl.
  change (Pregnant.birth_filters age_group lhd)
    with (Pregnant.birth_filters None lhd).
  change (Pregnant.birth_filters age_group' lhd)
    with (Pregnant.birth_filters None lhd).
  unfold Pregnant.induction_query, Pregnant.birth_type_query,
    Pregnant.preterm_query, Pregnant.births_of_year, Pregnant.preterm_births,
    Pregnant.low_bw_babies, Pregnant.nicu_babies.
  rewrite (where_refines_selection _ P births births' Hsel Hbirths).
  rewrite (where_refines_selection
             (Sql.and_ (Sql.int_eq Birth.year 2023
                        :: Sql.eq Birth.gestational_age_category "preterm"
                        :: Pregnant.birth_filters None lhd))
             P births births'); [| |exact Hbirths].
  2:{ intros b. rewrite and_cons, and_cons. intros (Hy & _ & Hf).
      apply Hsel. rewrite and_cons. done. }
  rewrite (where_refines_selection
             (Sql.and_ [Sql.int_eq Baby.year 2023;
                        Sql.eq Baby.birth_weight_category "low"])
             B babies babies'); [| |exact Hbabies].
  2:{ intros b. rewrite and_cons, int_eq_true. unfold B. tauto. }
  rewrite (where_refines_selection
             (Sql.and_ [Sql.int_eq Baby.year 2023;
                        Sql.or_ (Sql.eq Baby.nicu_admission true)
                          (Sql.eq Baby.scunicu_admission true)])
             B babies babies'); [| |exact Hbabies].
  2:{ intros b. rewrite and_cons, int_eq_true. unfold B. tauto. }
  reflexivity.
Qed.

Lemma pregnant_reads_selected_rows_only_witness :
  let births := [birth_record 1 (Some "Vaginal") (Some "Spontaneous")
                   (Some "preterm") (Some "Sydney") 2023 (Some 60%Q);
                 birth_record 2 (Some "Caesarean") (Some "Induced")
                   (Some "term") (Some "Hunter") 2023 (Some 40%Q);
                 birth_record 3 (Some "Vaginal") (Some "Spontaneous")
                   (Some "term") (Some "Sydney") 2022 (Some 70%Q)] in
  let births' := [birth_record 1 (Some "Vaginal") (Some "Spontaneous")
                    (Some "preterm") (Some "Sydney") 2023 (Some 60%Q)] in
  let babies := [baby_record 1 (Some "low") None (Some true) (Some "Hunter")
                   2023 (Some 6%Q);
                 baby_record 2 (Some "low") (Some true) None (Some "Sydney")
                   2021 (Some 94%Q)] in
  let babies' := [baby_record 1 (Some "low") None (Some true) (Some "Hunter")
                    2023 (Some 6%Q)] in
  get_pregnant_scenario_data (Pregnant.Connected births babies)
    (Some "25-29") (Some "<12") (Some 20) (Some "Sydney")
  = get_pregnant_scenario_data (Pregnant.Connected births' babies')
      None None None (Some "Sydney").
Proof.
  intros births births' babies babies'.
  apply (pregnant_reads_selected_rows_only births births' babies babies'
           (Some "25-29") None (Some "<12") None (Some 20) None
           (Some "Sydney")); reflexivity.
Defined.

(** X2.  With the store available, [labour_onset] of
    [get_pregnant_scenario_data] holds one entry per value of
    [Birth.onset_labour] (null included) and [birth_types] one entry per
    value of [Birth.birth_type], taken over the births of 2023 in the
    district asked for (all districts when [lhd] is absent or empty;
    births with a null district are left out otherwise).  Each entry
    counts the births that carry its value, at least one, and in both
    lists the counts add up to the number of those births.  The preterm
    figure counts those of category "preterm"; when no birth is counted
    the lists are empty and the preterm figure is [count = 0],
    [percentage = 0.0]. *)
Theorem pregnant_rates_partition (births : list Birth.t)
    (babies : list Baby.t) (age_group antenatal_week : option string)
    (current_week : option Z) (lhd : option string) :
  let counted :=
    filter (λ b, Birth.year b = 2023 ∧
                 (Py.when_str lhd = None ∨ Birth.lhd b = Py.when_str lhd))
      births in
  ∃ r,
    get_pregnant_scenario_data (Pregnant.Connected births babies) age_group
      antenatal_week current_week lhd = Returned r ∧
    NoDup (Pregnant.type_ <$> Pregnant.labour_onset r) ∧
    NoDup (Pregnant.type_ <$> Pregnant.birth_types r) ∧
    (∀ t, t ∈ Pregnant.type_ <$> Pregnant.labour_onset r ↔
          ∃ b, b ∈ counted ∧ Birth.onset_labour b = t) ∧
    (∀ t, t ∈ Pregnant.type_ <$> Pregnant.birth_types r ↔
          ∃ b, b ∈ counted ∧ Birth.birth_type b = t) ∧
    (∀ e, e ∈ Pregnant.labour_onset r →
          Pregnant.count e
          = Z.of_nat
              (length
                 (filter (λ b, Birth.onset_labour b = Pregnant.type_ e)
                    counted))) ∧
    (∀ e, e ∈ Pregnant.birth_types r →
          Pregnant.count e
          = Z.of_nat
              (length
                 (filter (λ b, Birth.birth_type b = Pregnant.type_ e)
                    counted))) ∧
    Forall (λ e, 1 ≤ Pregnant.count e) (Pregnant.labour_onset r) ∧
    Forall (λ e, 1 ≤ Pregnant.count e) (Pregnant.birth_types r) ∧
    Sql.Zsum (Pregnant.count <$> Pregnant.labour_onset r)
      = Z.of_nat (length counted) ∧
    Sql.Zsum (Pregnant.count <$> Pregnant.birth_types r)
      = Z.of_nat (length counted) ∧
    Pregnant.figure_count (Pregnant.preterm r)
      = Z.of_nat
          (length
             (filter (λ b, Birth.gestational_age_category b = Some "preterm")
                counted)) ∧
    0 ≤ Pregnant.figure_count (Pregnant.preterm r) ≤ Z.of_nat (length counted) ∧
    (counted = [] →
     Pregnant.labour_onset r = [] ∧ Pregnant.birth_types r = [] ∧
     Pregnant.preterm r = Pregnant.mkFigure 0 0).
Proof.
  intros counted. eexists. split; [reflexivity|]. simpl.
  pose proof (births_of_year_filter age_group lhd births) as Hsel.
  fold counted in Hsel.
  pose proof (preterm_births_sub (Pregnant.birth_filters age_group lhd) births)
    as Hpre. rewrite Hsel in Hpre.
  assert (Hpreterm :
    Pregnant.preterm_births (Pregnant.birth_filters age_group lhd) births
    = filter (λ b, Birth.gestational_age_category b = Some "preterm")
        counted).
  { unfold counted. rewrite list_filter_filter.
    unfold Pregnant.preterm_births, Sql.where_. apply list_filter_iff.
    intros b. rewrite !and_cons, int_eq_true, sql_eq_true.
    unfold Pregnant.birth_filters.
    destruct (Py.when_str lhd) as [v|].
    - rewrite and_cons, sql_eq_true.
      split; [intros (? & ? & ? & _); auto
             | intros (? & ? & [?|?]); done].
    - split; [intros (? & ? & _); auto | intros (? & ? & _); done]. }
  destruct (grouped_counts Birth.id Birth.percentage Birth.onset_labour counted)
    as (Hnd1 & Hone1 & Hsum1 & Hmem1).
  destruct (grouped_counts Birth.id Birth.percentage Birth.birth_type counted)
    as (Hnd2 & Hone2 & Hsum2 & Hmem2).
  unfold Pregnant.induction_query, Pregnant.birth_type_query, Pregnant.rates.
  rewrite Hsel, Hpreterm. rewrite <- !list_fmap_compose.
  rewrite <- !list_fmap_compose in Hnd1, Hnd2, Hsum1, Hsum2, Hmem1, Hmem2.
  split; [exact Hnd1|]. split; [exact Hnd2|].
  split; [exact Hmem1|]. split; [exact Hmem2|].
  split.
  { intros e ([k g] & -> & Hg)%list_elem_of_fmap.
    apply (grouped_count_of_key Birth.id Birth.percentage Birth.onset_labour
             counted (k, Sql.count (Birth.id <$> g),
                      Sql.avg (Birth.percentage <$> g))).
    apply list_elem_of_fmap. by exists (k, g). }
  split.
  { intros e ([k g] & -> & Hg)%list_elem_of_fmap.
    apply (grouped_count_of_key Birth.id Birth.percentage Birth.birth_type
             counted (k, Sql.count (Birth.id <$> g),
                      Sql.avg (Birth.percentage <$> g))).
    apply list_elem_of_fmap. by exists (k, g). }
  rewrite Forall_fmap in Hone1. rewrite Forall_fmap in Hone2.
  split; [rewrite Forall_fmap; exact Hone1|].
  split; [rewrite Forall_fmap; exact Hone2|].
  split; [exact Hsum1|]. split; [exact Hsum2|].
  unfold Sql.count. rewrite length_fmap.
  split; [done|]. split.
  - split; [lia|]. apply inj_le. apply length_filter.
  - intros Hnone. rewrite Hnone. by repeat split.
Qed.

(** X3.  The low-birth-weight and NICU figures of
    [get_pregnant_scenario_data] are computed from the [Baby] table
    alone, whatever the district asked for and whatever the births: the
    first counts the babies of 2023 of category "low", the second the
    babies of 2023 admitted to NICU or to SCU/NICU (a null flag does not
    prevent the other flag from counting); a figure that counts no baby
    is [count = 0], [percentage = 0.0]. *)
Theorem pregnant_baby_figures_statewide (births births' : list Birth.t)
    (babies : list Baby.t) (age_group age_group' : option string)
    (antenatal_week antenatal_week' : option string)
    (current_week current_week' : option Z) (lhd lhd' : option string) :
  ∃ r r',
    get_pregnant_scenario_data (Pregnant.Connected births babies) age_group
      antenatal_week current_week lhd = Returned r ∧
    get_pregnant_scenario_data (Pregnant.Connected births' babies) age_group'
      antenatal_week' current_week' lhd' = Returned r' ∧
    Pregnant.low_birth_weight r = Pregnant.low_birth_weight r' ∧
    Pregnant.nicu r = Pregnant.nicu r' ∧
    Pregnant.figure_count (Pregnant.low_birth_weight r)
      = Z.of_nat
          (length
             (filter (λ b, Baby.year b = 2023 ∧
                           Baby.birth_weight_category b = Some "low")
                babies)) ∧
    Pregnant.figure_count (Pregnant.nicu r)
      = Z.of_nat
          (length
             (filter (λ b, Baby.year b = 2023 ∧
                           (Baby.nicu_admission b = Some true ∨
                            Baby.scunicu_admission b = Some true))
                babies)) ∧
    (Pregnant.figure_count (Pregnant.low_birth_weight r) = 0 →
     Pregnant.low_birth_weight r = Pregnant.mkFigure 0 0) ∧
    (Pregnant.figure_count (Pregnant.nicu r) = 0 →
     Pregnant.nicu r = Pregnant.mkFigure 0 0).
Proof.
  eexists _, _. split; [reflexivity|]. split; [reflexivity|]. simpl.
  split; [done|]. split; [done|]. unfold Sql.count. rewrite !length_fmap.
  split; [|split; [|split]].
  - f_equal. f_equal.
    unfold Pregnant.low_bw_babies, Sql.where_. apply list_filter_iff.
    intros b. rewrite !and_cons, int_eq_true, sql_eq_true.
    split; [intros (? & ? & _); done | intros [? ?]; done].
  - f_equal. f_equal.
    unfold Pregnant.nicu_babies, Sql.where_. apply list_filter_iff.
    intros b. rewrite !and_cons, int_eq_true. unfold Sql.or_.
    rewrite or3_true, !sql_eq_true.
    split; [intros (? & ? & _); done | intros [? ?]; done].
  - destruct (Pregnant.low_bw_babies babies); [done | simpl; lia].
  - destruct (Pregnant.nicu_babies babies); [done | simpl; lia].
Qed.

(** ** The preparing scenario *)

Lemma when_str_Some (s : option string) (v : string) :
  Py.when_str s = Some v ↔ s = Some v ∧ v ≠ EmptyString.
Proof.
  unfold Py.when_str, Py.truthy_str. destruct s as [x|]; simpl.
  - destruct (String.eqb_spec x EmptyString) as [->|Hne]; simpl.
    + split; [discriminate | intros [[= <-] ?]; done].
    + split; [intros [= <-]; done | intros [? _]; done].
  - split; [discriminate | intros [? _]; done].
Qed.

Lemma when_str_None (s : option string) :
  Py.when_str s = None ↔ s = None ∨ s = Some EmptyString.
Proof.
  unfold Py.when_str, Py.truthy_str. destruct s as [x|]; simpl.
  - destruct (String.eqb_spec x EmptyString) as [->|Hne]; simpl.
    + split; auto.
    + split; [discriminate | intros [?|[= ?]]; done].
  - split; auto.
Qed.

(** A text filter: applied when the attribute is given and not empty. *)
Lemma text_filter_true (column : Mother.t → option string)
    (attribute : option string) (m : Mother.t) :
  Sql.and_
    match Py.when_str attribute with
    | Some v => [Sql.eq column v]
    | None => []
    end m = Some true ↔
  (Py.when_str attribute = None ∨ column m = Py.when_str attribute).
Proof.
  destruct (Py.when_str attribute) as [v|].
  - rewrite and_cons, sql_eq_true.
    split; [intros [? _]; auto | intros [?|?]; done].
  - split; [auto | done].
Qed.

(** A flag filter: applied when the flag is given ([is not None]). *)
Lemma flag_filter_true (column : Mother.t → option bool)
    (flag : option bool) (m : Mother.t) :
  Sql.and_
    match flag with
    | Some v => [Sql.eq column v]
    | None => []
    end m = Some true ↔
  (flag = None ∨ column m = flag).
Proof.
  destruct flag as [v|].
  - rewrite and_cons, sql_eq_true.
    split; [intros [? _]; auto | intros [?|?]; done].
  - split; [auto | done].
Qed.

(** The conjunction of the filters of a profile. *)
Lemma profile_filters_true (p : Snapshot.profile) (m : Mother.t) :
  Sql.and_ (Snapshot.filters p) m = Some true ↔
  (Py.when_str (Snapshot.age_group p) = None ∨
   Mother.age_group m = Py.when_str (Snapshot.age_group p)) ∧
  (Py.when_str (Snapshot.smoking p) = None ∨
   Mother.smoking_status m = Py.when_str (Snapshot.smoking p)) ∧
  (Py.when_str (Snapshot.bmi p) = None ∨
   Mother.bmi_category m = Py.when_str (Snapshot.bmi p)) ∧
  (Snapshot.diabetes p = None ∨
   Mother.diabetes_pre m = Snapshot.diabetes p) ∧
  (Snapshot.hypertension p = None ∨
   Mother.hypertension_pre m = Snapshot.hypertension p) ∧
  (Py.when_str (Snapshot.lhd p) = None ∨
   Mother.lhd m = Py.when_str (Snapshot.lhd p)).
Proof.
  unfold Snapshot.filters.
  rewrite !and_app, !text_filter_true, !flag_filter_true. tauto.
Qed.

Lemma preparing_matching_filter (p : Snapshot.profile)
    (table : list Mother.t) (m : Mother.t) :
  m ∈ Preparing.matching (Snapshot.filters p) table ↔
  m ∈ table ∧ Mother.year m = 2023 ∧
  Sql.and_ (Snapshot.filters p) m = Some true.
Proof.
  unfold Preparing.matching.
  destruct (Snapshot.filters p) as [|c cs] eqn:Hf.
  - rewrite elem_of_where, int_eq_true. split; [|tauto].
    intros [? ?]. split; [done|]. split; [done|]. reflexivity.
  - rewrite !elem_of_where, int_eq_true. tauto.
Qed.

Lemma filter_all {A} (P : A → Prop) `{∀ x, Decision (P x)} (l : list A) :
  (∀ x, x ∈ l → P x) → filter P l = l.
Proof.
  induction l as [|x l IH]; intros Hall; [done|].
  rewrite filter_cons, decide_True by (apply Hall; left).
  f_equal. apply IH. intros y Hy. apply Hall. by right.
Qed.

Lemma preparing_matching_as_filter (p : Snapshot.profile)
    (table : list Mother.t) :
  Preparing.matching (Snapshot.filters p) table =
  filter (λ m, Sql.and_ (Snapshot.filters p) m = Some true)
    (filter (λ m, Mother.year m = 2023) table).
Proof.
  assert (Hyear : Sql.where_ (Sql.int_eq Mother.year 2023) table
                  = filter (λ m, Mother.year m = 2023) table).
  { unfold Sql.where_. apply list_filter_iff. intros m. apply int_eq_true. }
  unfold Preparing.matching. rewrite Hyear.
  destruct (Snapshot.filters p) as [|c cs] eqn:Hf; [|done].
  symmetry. by apply filter_all.
Qed.

(** X4.  The matching-mothers snapshot of
    [get_preparing_scenario_data] counts the [Mother] rows of 2023 that
    agree with every attribute supplied, and with those only: a text
    attribute counts as supplied when it is given and not empty, a flag
    when it is given ([False] included); a row whose column is null
    never agrees with a supplied attribute.  Its total never exceeds
    the total of the baseline, which counts all rows of 2023. *)
Theorem preparing_filters_conjunctive (table : list Mother.t)
    (complications : list Complication.t)
    (age_group smoking bmi : option string)
    (diabetes hypertension : option bool) (lhd : option string) :
  ∃ r,
    get_preparing_scenario_data (Connected table complications) age_group
      smoking bmi diabetes hypertension lhd = Returned r ∧
    Snapshot.total (Preparing.mothers r)
      = Z.of_nat
          (length
             (filter
                (λ m, Mother.year m = 2023 ∧
                      (Py.when_str age_group = None ∨
                       Mother.age_group m = Py.when_str age_group) ∧
                      (Py.when_str smoking = None ∨
                       Mother.smoking_status m = Py.when_str smoking) ∧
                      (Py.when_str bmi = None ∨
                       Mother.bmi_category m = Py.when_str bmi) ∧
                      (diabetes = None ∨ Mother.diabetes_pre m = diabetes) ∧
                      (hypertension = None ∨
                       Mother.hypertension_pre m = hypertension) ∧
                      (Py.when_str lhd = None ∨
                       Mother.lhd m = Py.when_str lhd))
                table)) ∧
    Snapshot.total (Preparing.overall_average r)
      = Z.of_nat (length (filter (λ m, Mother.year m = 2023) table)) ∧
    0 ≤ Snapshot.total (Preparing.mothers r)
      ≤ Snapshot.total (Preparing.overall_average r).
Proof.
  set (p := Snapshot.mkProfile age_group smoking bmi diabetes hypertension lhd).
  eexists. split; [reflexivity|]. simpl. fold p.
  unfold Sql.count. rewrite !length_fmap.
  assert (Hyear : Snapshot.reference_year table
                  = filter (λ m, Mother.year m = 2023) table).
  { unfold Snapshot.reference_year, Sql.where_. apply list_filter_iff.
    intros m. apply int_eq_true. }
  rewrite Hyear, preparing_matching_as_filter.
  split; [|split; [done|]].
  - f_equal. rewrite list_filter_filter. f_equal. apply list_filter_iff.
    intros m. rewrite profile_filters_true. simpl. tauto.
  - split; [lia|]. apply inj_le. apply length_filter.
Qed.

(** X5.  [get_preparing_scenario_data] reads the [Mother] and the
    [Complication] rows of 2023 only: two stores that agree on those rows
    get the same answer for one profile, and the same [complications] and
    [overall_average] whatever the two profiles are. *)
Theorem preparing_reads_2023_rows_only (table table' : list Mother.t)
    (complications complications' : list Complication.t)
    (age_group age_group' smoking smoking' bmi bmi' : option string)
    (diabetes diabetes' hypertension hypertension' : option bool)
    (lhd lhd' : option string) :
  filter (λ m, Mother.year m = 2023) table
  = filter (λ m, Mother.year m = 2023) table' →
  filter (λ c, Complication.year c = 2023) complications
  = filter (λ c, Complication.year c = 2023) complications' →
  get_preparing_scenario_data (Connected table complications) age_group
    smoking bmi diabetes hypertension lhd
  = get_preparing_scenario_data (Connected table' complications') age_group
      smoking bmi diabetes hypertension lhd
  ∧ (λ r, (Preparing.complications r, Preparing.overall_average r))
      <$> get_preparing_scenario_data (Connected table complications)
            age_group smoking bmi diabetes hypertension lhd
    = (λ r, (Preparing.complications r, Preparing.overall_average r))
        <$> get_preparing_scenario_data (Connected table' complications')
              age_group' smoking' bmi' diabetes' hypertension' lhd'.
Proof.
  intros Hm Hc.
  assert (Hmothers : Sql.where_ (Sql.int_eq Mother.year 2023) table
                     = Sql.where_ (Sql.int_eq Mother.year 2023) table').
  { apply (where_refines_selection _ (λ m, Mother.year m = 2023));
      [|exact Hm].
    intros m. by rewrite int_eq_true. }
  assert (Hcomp : Sql.where_ (Sql.int_eq Complication.year 2023) complications
                  = Sql.where_ (Sql.int_eq Complication.year 2023)
                      complications').
  { apply (where_refines_selection _ (λ c, Complication.year c = 2023));
      [|exact Hc].
    intros c. by rewrite int_eq_true. }
  unfold get_preparing_scenario_data. csimpl.
  unfold Preparing.mothers_query, Preparing.matching, Preparing.comp_query,
    Snapshot.overall_query, Snapshot.reference_year.
  rewrite Hmothers, Hcomp. split; reflexivity.
Qed.

Lemma preparing_reads_2023_rows_only_witness :
  let table := [profile_record 1 (Some "25-29") (Some "Smoker") None None
                  None (Some "Sydney") 2023 (Some 12%Q);
                profile_record 2 (Some "25-29") (Some "Smoker") None None
                  None (Some "Sydney") 2019 (Some 30%Q)] in
  let table' := [profile_record 1 (Some "25-29") (Some "Smoker") None None
                   None (Some "Sydney") 2023 (Some 12%Q)] in
  let complications := [complication_record 1 (Some "Haemorrhage") 2023
                          (Some 4%Q);
                        complication_record 2 (Some "Haemorrhage") 2020
                          (Some 9%Q)] in
  let complications' := [complication_record 1 (Some "Haemorrhage") 2023
                           (Some 4%Q)] in
  get_preparing_scenario_data (Connected table complications) (Some "25-29")
    (Some "Smoker") None None None None
  = get_preparing_scenario_data (Connected table' complications')
      (Some "25-29") (Some "Smoker") None None None None
  ∧ (λ r, (Preparing.complications r, Preparing.overall_average r))
      <$> get_preparing_scenario_data (Connected table complications)
            (Some "25-29") (Some "Smoker") None None None None
    = (λ r, (Preparing.complications r, Preparing.overall_average r))
        <$> get_preparing_scenario_data (Connected table' complications')
              (Some "40+") None (Some "Obese") (Some true) None
              (Some "Hunter").
Proof.
  intros table table' complications complications'.
  apply (preparing_reads_2023_rows_only table table' complications
           complications'); reflexivity.
Defined.

(** X6.  The complication list of [get_preparing_scenario_data] holds
    one entry per complication type recorded for 2023 (null included),
    every entry counts at least one row, and the counts add up to the
    number of [Complication] rows of 2023; it is empty when there is
    none. *)
Theorem preparing_complications_partition (table : list Mother.t)
    (complications : list Complication.t)
    (age_group smoking bmi : option string)
    (diabetes hypertension : option bool) (lhd : option string) :
  let of_2023 := filter (λ c, Complication.year c = 2023) complications in
  ∃ r,
    get_preparing_scenario_data (Connected table complications) age_group
      smoking bmi diabetes hypertension lhd = Returned r ∧
    NoDup (Preparing.type_ <$> Preparing.complications r) ∧
    Forall (λ e, 1 ≤ Preparing.count e) (Preparing.complications r) ∧
    Sql.Zsum (Preparing.count <$> Preparing.complications r)
      = Z.of_nat (length of_2023) ∧
    (∀ t, t ∈ Preparing.type_ <$> Preparing.complications r ↔
          ∃ c, c ∈ of_2023 ∧ Complication.complication_type c = t) ∧
    (of_2023 = [] → Preparing.complications r = []).
Proof.
  intros of_2023. eexists. split; [reflexivity|]. simpl.
  assert (Hyear : Sql.where_ (Sql.int_eq Complication.year 2023) complications
                  = of_2023).
  { unfold Sql.where_. apply list_filter_iff. intros c. apply int_eq_true. }
  unfold Preparing.comp_query. rewrite Hyear.
  destruct (grouped_counts Complication.id Complication.percentage
              Complication.complication_type of_2023)
    as (Hnd & Hone & Hsum & Hmem).
  rewrite <- !list_fmap_compose.
  rewrite <- !list_fmap_compose in Hnd, Hsum, Hmem.
  rewrite Forall_fmap in Hone.
  split; [exact Hnd|]. split; [rewrite Forall_fmap; exact Hone|].
  split; [exact Hsum|]. split; [exact Hmem|].
  intros Hnone. rewrite Hnone. reflexivity.
Qed.

(** ** The comparison controller *)

(** X7.  For a scenario other than "preparing", [get_comparison_data]
    issues no query: it returns the filters it was given with empty
    [user_stats] and [overall_average], also when the store is
    unavailable. *)
Theorem comparison_other_scenario_inert (db : Session) (scenario : string)
    (filters : Snapshot.profile) :
  scenario ≠ "preparing" →
  get_comparison_data db scenario filters
  = Returned (Comparison.mkResult filters None None).
Proof.
  intros Hs. unfold get_comparison_data. rewrite decide_False by done.
  by destruct (decide (scenario = "pregnant")).
Qed.

Lemma comparison_other_scenario_inert_witness :
  get_comparison_data Unavailable "pregnant"
    (Snapshot.mkProfile (Some "25-29") None None (Some true) None None)
  = Returned
      (Comparison.mkResult
         (Snapshot.mkProfile (Some "25-29") None None (Some true) None None)
         None None).
Proof. apply comparison_other_scenario_inert. discriminate. Defined.

(** X8.  Over one store and one profile, [get_comparison_data] (scenario
    "preparing") and [get_preparing_scenario_data] answer the same
    baseline.  When an attribute is supplied the user snapshot of the
    comparison is taken over all years: its total counts the rows of
    any year that agree with every attribute supplied, where the
    matching mothers of the preparing scenario count those of 2023
    only; so the first total is at least the second, and the two
    snapshots are equal when every row of the table is of 2023. *)
Theorem comparison_agrees_with_preparing (table : list Mother.t)
    (complications : list Complication.t)
    (age_group smoking bmi : option string)
    (diabetes hypertension : option bool) (lhd : option string) :
  let profile :=
    Snapshot.mkProfile age_group smoking bmi diabetes hypertension lhd in
  let agrees (m : Mother.t) :=
    (Py.when_str age_group = None ∨
     Mother.age_group m = Py.when_str age_group) ∧
    (Py.when_str smoking = None ∨
     Mother.smoking_status m = Py.when_str smoking) ∧
    (Py.when_str bmi = None ∨ Mother.bmi_category m = Py.when_str bmi) ∧
    (diabetes = None ∨ Mother.diabetes_pre m = diabetes) ∧
    (hypertension = None ∨ Mother.hypertension_pre m = hypertension) ∧
    (Py.when_str lhd = None ∨ Mother.lhd m = Py.when_str lhd) in
  ∃ rc rp,
    get_comparison_data (Connected table complications) "preparing" profile
      = Returned rc ∧
    get_preparing_scenario_data (Connected table complications) age_group
      smoking bmi diabetes hypertension lhd = Returned rp ∧
    Comparison.overall_average rc = Some (Preparing.overall_average rp) ∧
    (Snapshot.filters profile ≠ [] →
     ∃ user,
       Comparison.user_stats rc = Some user ∧
       Snapshot.total user = Z.of_nat (length (filter agrees table)) ∧
       Snapshot.total (Preparing.mothers rp)
         = Z.of_nat
             (length (filter (λ m, Mother.year m = 2023 ∧ agrees m) table)) ∧
       Snapshot.total (Preparing.mothers rp) ≤ Snapshot.total user ∧
       ((∀ m, m ∈ table → Mother.year m = 2023) →
        user = Preparing.mothers rp)).
Proof.
  intros profile agrees.
  assert (Hyear : Sql.where_ (Sql.int_eq Mother.year 2023) table
                  = filter (λ m, Mother.year m = 2023) table).
  { unfold Sql.where_. apply list_filter_iff. intros m. apply int_eq_true. }
  assert (Hagrees : ∀ m, Sql.and_ (Snapshot.filters profile) m = Some true
                         ↔ agrees m).
  { intros m. by rewrite profile_filters_true. }
  unfold get_comparison_data. rewrite decide_True by done.
  destruct (Snapshot.filters profile) as [|c cs] eqn:Hf.
  - eexists _, _. split; [reflexivity|]. split; [reflexivity|].
    split; [reflexivity | done].
  - eexists _, _. split; [reflexivity|]. split; [reflexivity|].
    split; [reflexivity|]. intros _. eexists. split; [reflexivity|].
    simpl. fold profile. rewrite Hf.
    unfold Comparison.user_query, Preparing.mothers_query, Comparison.matching,
      Preparing.matching.
    rewrite Hyear. simpl. unfold Sql.count, Sql.where_. rewrite !length_fmap.
    rewrite list_filter_filter.
    split; [|split; [|split]].
    + f_equal. f_equal. apply list_filter_iff. exact Hagrees.
    + f_equal. f_equal. apply list_filter_iff. intros m.
      rewrite Hagrees. tauto.
    + apply inj_le. apply length_filter_mono. tauto.
    + intros Hall.
      rewrite <- list_filter_filter.
      by rewrite (filter_all (λ m, Mother.year m = 2023) table).
Qed.

(** ** Failure of the store *)

Lemma fields_recognized (factor_name : string) :
  is_Some (Detail.fields factor_name) ↔
  factor_name = "diabetes" ∨ factor_name = "hypertension".
Proof.
  unfold Detail.fields.
  destruct (decide (factor_name = "diabetes"));
    [|destruct (decide (factor_name = "hypertension"))].
  - split; [auto | eauto].
  - split; [auto | eauto].
  - split; [by intros [? ?] | intros [?|?]; done].
Qed.

Lemma field_recognized (factor_name : string) :
  is_Some (Simple.field factor_name) ↔
  factor_name = "diabetes" ∨ factor_name = "hypertension".
Proof.
  unfold Simple.field.
  destruct (decide (factor_name = "diabetes"));
    [|destruct (decide (factor_name = "hypertension"))].
  - split; [auto | eauto].
  - split; [auto | eauto].
  - split; [by intros [? ?] | intros [?|?]; done].
Qed.

(** X9.  On a store that is unavailable a controller raises exactly
    when it reaches a query: the factor views for a recognized factor
    and not for another one, the preparing and the pregnant scenario
    always, the comparison for the scenario "preparing" (also without
    any filter, for its baseline) and for no other scenario.  No
    controller catches the failure of a query. *)
Theorem unavailable_store_raises_when_queried (factor_name scenario : string)
    (age_group smoking bmi antenatal_week lhd : option string)
    (diabetes hypertension : option bool)
    (start_year end_year current_week : option Z)
    (sub_group : option (list string)) (filters : Snapshot.profile) :
  (get_factor_data Unavailable factor_name age_group start_year end_year
     sub_group = Raised ↔
   factor_name = "diabetes" ∨ factor_name = "hypertension") ∧
  (get_factor_data_simple Unavailable factor_name age_group start_year
     end_year = Raised ↔
   factor_name = "diabetes" ∨ factor_name = "hypertension") ∧
  get_preparing_scenario_data Unavailable age_group smoking bmi diabetes
    hypertension lhd = Raised ∧
  (get_comparison_data Unavailable scenario filters = Raised ↔
   scenario = "preparing") ∧
  get_pregnant_scenario_data Pregnant.Unavailable age_group antenatal_week
    current_week lhd = Raised.
Proof.
  split; [|split; [|split; [done|split; [|done]]]].
  - rewrite <- fields_recognized. unfold get_factor_data.
    destruct (Detail.fields factor_name) as [[ff sf]|]; simpl.
    + split; [eauto | done].
    + split; [done | by intros [? ?]].
  - rewrite <- field_recognized. unfold get_factor_data_simple.
    destruct (Simple.field factor_name) as [ff|]; simpl.
    + split; [eauto | done].
    + split; [done | by intros [? ?]].
  - unfold get_comparison_data.
    destruct (decide (scenario = "preparing")) as [->|Hs].
    + simpl. destruct (Snapshot.filters filters); split; done.
    + destruct (decide (scenario = "pregnant")); split; done.
Qed.

(** ** The factor views: what a returned result is *)

Lemma get_factor_data_returned (db : Session) (factor_name : string)
    (age_group : option string) (start_year end_year : option Z)
    (sub_group : option (list string)) (res : FactorResult) :
  get_factor_data db factor_name age_group start_year end_year sub_group
    = Returned res →
  (Detail.fields factor_name = None ∧
   res = mkFactorResult factor_name age_group [] ∅) ∨
  ∃ ff sf mothers cs,
    Detail.fields factor_name = Some (ff, sf) ∧
    db = Connected mothers cs ∧
    res = mkFactorResult factor_name age_group
            (Py.sorted
               (Detail.loop
                  (Detail.query ff sf start_year end_year sub_group mothers)).2)
            (Detail.loop
               (Detail.query ff sf start_year end_year sub_group mothers)).1.
Proof.
  unfold get_factor_data.
  destruct (Detail.fields factor_name) as [[ff sf]|].
  - destruct db as [mothers cs|]; [|done]. simpl.
    destruct (Detail.loop _) as [d ys] eqn:Hloop. intros [= <-].
    right. exists ff, sf, mothers, cs. by rewrite Hloop.
  - intros [= <-]. by left.
Qed.

Lemma get_factor_data_simple_returned (db : Session) (factor_name : string)
    (age_group : option string) (start_year end_year : option Z)
    (res : FactorResult) :
  get_factor_data_simple db factor_name age_group start_year end_year
    = Returned res →
  (Simple.field factor_name = None ∧
   res = mkFactorResult factor_name age_group [] ∅) ∨
  ∃ ff mothers cs,
    Simple.field factor_name = Some ff ∧
    db = Connected mothers cs ∧
    res = mkFactorResult factor_name age_group
            (Py.sorted
               (Simple.first_pass
                  (Simple.query factor_name ff start_year end_year mothers)).2)
            (Simple.second_pass
               (Simple.first_pass
                  (Simple.query factor_name ff start_year end_year mothers)).1).
Proof.
  unfold get_factor_data_simple.
  destruct (Simple.field factor_name) as [ff|].
  - destruct db as [mothers cs|]; [|done]. simpl.
    destruct (Simple.first_pass _) as [temp ys] eqn:Hpass. intros [= <-].
    right. exists ff, mothers, cs. by rewrite Hpass.
  - intros [= <-]. by left.
Qed.

(** The years of the detailed view, read on the selected records. *)
Lemma detail_years_selected ff sf sy ey sgs (mothers : list Mother.t) (y : Z) :
  y ∈ (Detail.loop (Detail.query ff sf sy ey sgs mothers)).2 ↔
  ∃ m, m ∈ Detail.selected ff sf sy ey sgs mothers ∧
       is_Some (kept_age_group (Mother.age_group m)) ∧ Mother.year m = y.
Proof.
  rewrite detail_loop_years. split.
  - intros (r & [(m & Hm & Hkey) _]%elem_of_detail_query & Hk & Hy).
    exists m. unfold Detail.key_of, Detail.row_key in Hkey.
    injection Hkey as Hy' Ha' _. rewrite Hy', Ha'. done.
  - intros (m & Hm & Hk & Hy).
    exists (Detail.mk (Mother.year m) (Mother.age_group m) (sf m)
              (Sql.avg (Mother.percentage
                          <$> filter (λ m', Detail.key_of sf m'
                                            = Detail.key_of sf m)
                                (Detail.selected ff sf sy ey sgs mothers)))).
    split; [|done]. apply elem_of_detail_query. split; [by exists m | done].
Qed.

(** The years of the simple view, read on the selected records. *)
Lemma simple_years_selected f ff sy ey (mothers : list Mother.t) (y : Z) :
  y ∈ (Simple.first_pass (Simple.query f ff sy ey mothers)).2 ↔
  ∃ m, m ∈ Simple.selected f ff sy ey mothers ∧
       is_Some (kept_age_group (Mother.age_group m)) ∧ Mother.year m = y.
Proof.
  rewrite first_pass_years. split.
  - intros (r & [(m & Hm & Hkey) _]%elem_of_simple_query & Hk & Hy).
    exists m. unfold Simple.key_of, Simple.row_key in Hkey.
    injection Hkey as Hy' Ha' _. rewrite Hy', Ha'. done.
  - intros (m & Hm & Hk & Hy).
    exists (Simple.mk (Mother.year m) (Mother.age_group m) (ff m)
              (Sql.sum (Mother.total_mothers
                          <$> filter (λ m', Simple.key_of ff m'
                                            = Simple.key_of ff m)
                                (Simple.selected f ff sy ey mothers)))).
    split; [|done]. apply elem_of_simple_query. split; [by exists m | done].
Qed.

(** ** Entries of the detailed view *)

(** An entry exists exactly where some row of the result is kept under
    that age group with that label and year. *)
Lemma detail_loop_entry (l : list Detail.row) (ag label : string) (y : Z) :
  is_Some (lookup3 (Detail.loop l).1 ag label y) ↔
  ∃ r, r ∈ l ∧ kept_age_group (Detail.age_group r) = Some ag ∧
       Py.str_or (Detail.sub_group r) "Unknown" = label ∧ Detail.year r = y.
Proof.
  unfold Detail.loop.
  destruct (last_hit_split
              (λ r, kept_age_group (Detail.age_group r) = Some ag ∧
                    Py.str_or (Detail.sub_group r) "Unknown" = label ∧
                    Detail.year r = y) l)
    as [Hnone|(l1 & r & l2 & -> & Hr & Hl2)].
  - rewrite detail_loop_untouched by done. simpl. rewrite lookup3_empty.
    split; [by intros [? ?]|]. intros (r & Hr & Hhit).
    rewrite Forall_forall in Hnone. by destruct (Hnone r Hr).
  - rewrite (detail_loop_last_write l1 l2 r ag label y) by done.
    split; [|eauto]. intros _. exists r. split; [|done].
    apply elem_of_app. right. left.
Qed.

Lemma str_or_nonempty (o : option string) (default : string) :
  default ≠ EmptyString → Py.str_or o default ≠ EmptyString.
Proof.
  intros Hd. unfold Py.str_or, Py.truthy_str. destruct o as [v|]; [|done].
  destruct (String.eqb_spec v EmptyString); simpl; done.
Qed.

(** The sub-group condition of the detailed view, for a list that is
    not empty. *)
Lemma detail_conditions_sub_group ff sf sy ey (l : list string)
    (m : Mother.t) :
  l ≠ [] →
  Sql.and_ (Detail.conditions ff sf sy ey (Some l)) m = Some true ↔
  Sql.and_ (Detail.conditions ff sf sy ey None) m = Some true ∧
  ∃ s, sf m = Some s ∧ s ∈ l.
Proof.
  intros Hl. unfold Detail.conditions. rewrite !and_app.
  assert (Hnil : Sql.and_ (@nil (Sql.condition Mother.t)) m = Some true)
    by reflexivity.
  destruct l as [|s1 [|s2 l']]; [done| |]; cbn [Py.truthy_list].
  - rewrite (and_cons (Sql.eq sf s1)), sql_eq_true.
    assert (Hs : sf m = Some s1 ↔ ∃ s, sf m = Some s ∧ s ∈ [s1]).
    { split; [intros ?; exists s1; split; [done | left]|].
      by intros (s & ? & ->%list_elem_of_singleton). }
    rewrite <- Hs. tauto.
  - rewrite (and_cons (Sql.in_ sf (s1 :: s2 :: l'))), sql_in_true. tauto.
Qed.

Lemma detail_selected_sub_group ff sf sy ey (l : list string)
    (mothers : list Mother.t) (m : Mother.t) :
  l ≠ [] →
  m ∈ Detail.selected ff sf sy ey (Some l) mothers ↔
  m ∈ Detail.selected ff sf sy ey None mothers ∧ ∃ s, sf m = Some s ∧ s ∈ l.
Proof.
  intros Hl. unfold Detail.selected.
  rewrite !elem_of_where, detail_conditions_sub_group by done. tauto.
Qed.

Lemma second_pass_entry_key (temp : list (string * Z * Simple.counts))
    (ag label : string) (y : Z) :
  is_Some (lookup3 (Simple.second_pass temp) ag label y) →
  (ag, y) ∈ temp.*1.
Proof.
  intros Hsome. destruct (decide ((ag, y) ∈ temp.*1)) as [|Hnot]; [done|].
  unfold Simple.second_pass in Hsome.
  rewrite second_pass_untouched, lookup3_empty in Hsome.
  - by destruct Hsome.
  - apply Forall_forall. intros item Hitem (Hk & _). apply Hnot.
    rewrite <- Hk. by apply list_elem_of_fmap_2.
Qed.

(** ** Years and entries *)

(** X10.  Every year listed by a factor view lies within the bounds
    asked for: at most [start_year] when that argument is given and not
    0, at least [end_year] when that one is given and not 0. *)
Theorem factor_years_within_bounds (db : Session) (factor_name : string)
    (age_group : option string) (start_year end_year : option Z)
    (sub_group : option (list string)) (res : FactorResult) (y : Z) :
  get_factor_data db factor_name age_group start_year end_year sub_group
    = Returned res ∨
  get_factor_data_simple db factor_name age_group start_year end_year
    = Returned res →
  y ∈ years res →
  (∀ s, start_year = Some s → s ≠ 0 → y ≤ s) ∧
  (∀ e, end_year = Some e → e ≠ 0 → e ≤ y).
Proof.
  intros [Hres|Hres] Hy.
  - apply get_factor_data_returned in Hres
      as [[_ ->]|(ff & sf & mothers & cs & _ & _ & ->)];
      [by apply elem_of_nil in Hy|].
    simpl in Hy. apply elem_of_sorted, detail_years_selected in Hy
      as (m & Hm & _ & <-).
    apply detail_selected_split in Hm as [_ Hm].
    by apply year_conditions_true in Hm.
  - apply get_factor_data_simple_returned in Hres
      as [[_ ->]|(ff & mothers & cs & _ & _ & ->)];
      [by apply elem_of_nil in Hy|].
    simpl in Hy. apply elem_of_sorted, simple_years_selected in Hy
      as (m & Hm & _ & <-).
    apply simple_selected_split in Hm as [_ Hm].
    by apply year_conditions_true in Hm.
Qed.

Lemma factor_years_within_bounds_witness :
  let t := [factor_record 1 (Some "20-24") (Some true) None
              (Some "Gestational diabetes") None 2018 (Some 10) (Some 5%Q);
            factor_record 2 (Some "20-24") (Some true) None
              (Some "Gestational diabetes") None 2021 (Some 10) (Some 5%Q);
            factor_record 3 (Some "20-24") (Some true) None
              (Some "Gestational diabetes") None 2024 (Some 10) (Some 5%Q)] in
  ∃ res,
    get_factor_data (Connected t []) "diabetes" None (Some 2023) (Some 2019)
      None = Returned res ∧
    2021 ∈ years res ∧
    (∀ s, Some 2023 = Some s → s ≠ 0 → 2021 ≤ s) ∧
    (∀ e, Some 2019 = Some e → e ≠ 0 → e ≤ 2021).
Proof.
  intros t.
  destruct (get_factor_data (Connected t []) "diabetes" None (Some 2023)
              (Some 2019) None) as [res|] eqn:Hres;
    [|vm_compute in Hres; discriminate Hres].
  exists res.
  assert (Hy : 2021 ∈ years res).
  { vm_compute in Hres. injection Hres as <-. simpl. left. }
  split; [reflexivity|]. split; [exact Hy|].
  apply (factor_years_within_bounds (Connected t []) "diabetes" None
           (Some 2023) (Some 2019) None res 2021); [|exact Hy].
  left. exact Hres.
Defined.

(** X11.  In the detailed view [years] and [age_groups] agree: a year
    is listed exactly when some age group has an entry for it under
    some label.  In the simple view every year with an entry is listed
    (a listed year may have none, when its counts add up to 0). *)
Theorem years_cover_entries (db : Session) (factor_name : string)
    (age_group : option string) (start_year end_year : option Z)
    (sub_group : option (list string)) :
  (∀ res y,
     get_factor_data db factor_name age_group start_year end_year sub_group
       = Returned res →
     (y ∈ years res ↔
      ∃ ag label, is_Some (lookup3 (age_groups res) ag label y))) ∧
  (∀ res ag label y,
     get_factor_data_simple db factor_name age_group start_year end_year
       = Returned res →
     is_Some (lookup3 (age_groups res) ag label y) → y ∈ years res).
Proof.
  split.
  - intros res y Hres.
    apply get_factor_data_returned in Hres
      as [[_ ->]|(ff & sf & mothers & cs & _ & _ & ->)]; simpl.
    + split; [by intros ?%elem_of_nil|].
      intros (ag & label & Hsome). rewrite lookup3_empty in Hsome.
      by destruct Hsome.
    + rewrite elem_of_sorted, detail_loop_years. split.
      * intros (r & Hr & [ag Hag] & Hy).
        exists ag, (Py.str_or (Detail.sub_group r) "Unknown").
        apply detail_loop_entry. by exists r.
      * intros (ag & label & (r & Hr & Hag & _ & Hy)%detail_loop_entry).
        exists r. rewrite Hag. eauto.
  - intros res ag label y Hres Hsome.
    apply get_factor_data_simple_returned in Hres
      as [[_ ->]|(ff & mothers & cs & _ & _ & ->)]; simpl in *.
    + rewrite lookup3_empty in Hsome. by destruct Hsome.
    + apply elem_of_sorted, first_pass_years.
      apply second_pass_entry_key, first_pass_keys in Hsome
        as (r & Hr & Hag & Hy).
      exists r. rewrite Hag. eauto.
Qed.

(** X12.  In the detailed view the age-group keys and the labels are
    never empty: a null or empty sub-group is filed under "Unknown".
    With a [sub_group] list that is not empty, entries exist only under
    the labels listed ("Unknown" standing for a listed empty string). *)
Theorem detail_labels (db : Session) (factor_name : string)
    (age_group : option string) (start_year end_year : option Z)
    (sub_group : option (list string)) (res : FactorResult)
    (ag label : string) (y : Z) :
  get_factor_data db factor_name age_group start_year end_year sub_group
    = Returned res →
  is_Some (lookup3 (age_groups res) ag label y) →
  ag ≠ EmptyString ∧ label ≠ EmptyString ∧
  (∀ l, sub_group = Some l → l ≠ [] →
        label ∈ l ∨ (label = "Unknown" ∧ EmptyString ∈ l)).
Proof.
  intros Hres Hsome.
  apply get_factor_data_returned in Hres
    as [[_ ->]|(ff & sf & mothers & cs & _ & _ & ->)]; simpl in Hsome.
  { rewrite lookup3_empty in Hsome. by destruct Hsome. }
  apply detail_loop_entry in Hsome as (r & Hr & Hag & Hlabel & Hy).
  apply kept_age_group_Some in Hag as (Hag & Hne & _).
  split; [done|]. split; [rewrite <- Hlabel; by apply str_or_nonempty|].
  intros l -> Hl.
  apply elem_of_detail_query in Hr as [(m & Hm & Hkey) _].
  apply detail_selected_sub_group in Hm as [_ (s & Hs & Hin)]; [|done].
  unfold Detail.key_of, Detail.row_key in Hkey. injection Hkey as _ _ Hsub.
  rewrite <- Hsub, Hs in Hlabel. unfold Py.str_or, Py.truthy_str in Hlabel.
  destruct (String.eqb_spec s EmptyString) as [->|Hs']; simpl in Hlabel.
  - right. by split.
  - left. by subst.
Qed.

Lemma detail_labels_witness :
  let t := [factor_record 1 (Some "20-24") (Some true) None
              (Some "Gestational diabetes") None 2022 (Some 10) (Some 5%Q);
            factor_record 2 (Some "20-24") (Some true) None
              (Some "Pre-existing diabetes") None 2022 (Some 10) (Some 2%Q);
            factor_record 3 (Some "20-24") (Some true) None
              None None 2022 (Some 10) (Some 1%Q)] in
  ∃ res,
    get_factor_data (Connected t []) "diabetes" None None None
      (Some ["Gestational diabetes"]) = Returned res ∧
    is_Some (lookup3 (age_groups res) "20-24" "Gestational diabetes" 2022) ∧
    "20-24" ≠ EmptyString ∧ "Gestational diabetes" ≠ EmptyString ∧
    (∀ l, Some ["Gestational diabetes"] = Some l → l ≠ [] →
          "Gestational diabetes" ∈ l ∨
          ("Gestational diabetes" = "Unknown" ∧ EmptyString ∈ l)).
Proof.
  intros t.
  destruct (get_factor_data (Connected t []) "diabetes" None None None
              (Some ["Gestational diabetes"])) as [res|] eqn:Hres;
    [|vm_compute in Hres; discriminate Hres].
  exists res.
  assert (Hsome : is_Some (lookup3 (age_groups res) "20-24"
                             "Gestational diabetes" 2022)).
  { vm_compute in Hres. injection Hres as <-. vm_compute. eauto. }
  split; [reflexivity|]. split; [exact Hsome|].
  exact (detail_labels (Connected t []) "diabetes" None None None
           (Some ["Gestational diabetes"]) res "20-24" "Gestational diabetes"
           2022 Hres Hsome).
Defined.

(** ** The sub-group filter of the detailed view *)

(** Under a label that only one sub-group can take, the entry is
    decided by the group of selected records of that age group, year
    and sub-group. *)
Lemma detail_entry_of_group ff sf sy ey sgs (mothers : list Mother.t)
    (ag sg : string) (y : Z) :
  sg ≠ EmptyString → sg ≠ "Unknown" →
  lookup3 (Detail.loop (Detail.query ff sf sy ey sgs mothers)).1 ag sg y =
  match kept_age_group (Some ag),
        filter (λ m, Detail.key_of sf m = (y, Some ag, Some sg))
          (Detail.selected ff sf sy ey sgs mothers)
  with
  | Some _, m :: g => Some (Py.float_or_zero
                              (Sql.avg (Mother.percentage <$> m :: g)))
  | _, _ => None
  end.
Proof.
  intros Hsg1 Hsg2.
  set (result := Detail.query ff sf sy ey sgs mothers).
  set (group := filter (λ m, Detail.key_of sf m = (y, Some ag, Some sg))
                  (Detail.selected ff sf sy ey sgs mothers)).
  assert (Hhits : ∀ r', kept_age_group (Detail.age_group r') = Some ag ∧
                        Py.str_or (Detail.sub_group r') "Unknown" = sg ∧
                        Detail.year r' = y →
                        kept_age_group (Some ag) = Some ag ∧
                        Detail.row_key r' = (y, Some ag, Some sg)).
  { intros r' (Hk & Hl & Hy). pose proof Hk as (Ha & _)%kept_age_group_Some.
    apply str_or_Some in Hl; [|done].
    split; [by rewrite Ha in Hk|]. unfold Detail.row_key. congruence. }
  destruct (kept_age_group (Some ag)) as [a|] eqn:Hag.
  - destruct group as [|m0 group'] eqn:Hgroup.
    + apply eq_None_not_Some.
      intros (r' & Hr' & Hhit)%detail_loop_entry.
      destruct (Hhits r' Hhit) as [_ Hkey].
      apply elem_of_detail_query in Hr' as [(m & Hm & Hmk) _].
      assert (Hin : m ∈ group).
      { apply list_elem_of_filter. split; [congruence | done]. }
      rewrite Hgroup in Hin. by apply elem_of_nil in Hin.
    + rewrite <- Hgroup.
      set (r := Detail.mk y (Some ag) (Some sg)
                  (Sql.avg (Mother.percentage <$> group))).
      assert (Hr : r ∈ result).
      { apply elem_of_detail_query. split; [|done].
        assert (Hin : m0 ∈ group) by (rewrite Hgroup; left).
        apply list_elem_of_filter in Hin as [Hk Hin]. by exists m0. }
      destruct (NoDup_key_split Detail.row_key result r)
        as (l1 & l2 & Hl & Hl2); [apply detail_query_NoDup | done |].
      unfold Detail.loop. fold result. rewrite Hl.
      rewrite (detail_loop_last_write l1 l2 r ag sg y); [done | |].
      * split; [|split; [|done]].
        -- change (kept_age_group (Some ag) = Some ag).
           apply kept_age_group_Some in Hag as ([= <-] & ? & ?).
           by apply kept_age_group_Some.
        -- change (Py.str_or (Some sg) "Unknown" = sg).
           unfold Py.str_or, Py.truthy_str.
           by destruct (String.eqb_spec sg EmptyString).
      * apply Forall_forall. intros r' Hr' Hhit.
        rewrite Forall_forall in Hl2. apply (Hl2 r' Hr').
        by destruct (Hhits r' Hhit).
  - apply eq_None_not_Some.
    intros (r' & Hr' & Hhit)%detail_loop_entry.
    by destruct (Hhits r' Hhit).
Qed.

(** X13.  An empty [sub_group] list filters nothing: the call answers
    as without the argument.  A list that is not empty leaves the
    entries of the listed sub-groups as they are without it: for a
    listed sub-group (not empty, not "Unknown") every age group and
    year has the same entry, or none, in both results. *)
Theorem sub_group_filter_keeps_entries (db : Session) (factor_name : string)
    (age_group : option string) (start_year end_year : option Z)
    (l : list string) :
  get_factor_data db factor_name age_group start_year end_year (Some [])
  = get_factor_data db factor_name age_group start_year end_year None ∧
  (∀ res res' sg ag y,
     get_factor_data db factor_name age_group start_year end_year (Some l)
       = Returned res →
     get_factor_data db factor_name age_group start_year end_year None
       = Returned res' →
     sg ∈ l → sg ≠ EmptyString → sg ≠ "Unknown" →
     lookup3 (age_groups res) ag sg y = lookup3 (age_groups res') ag sg y).
Proof.
  split; [reflexivity|].
  intros res res' sg ag y Hres Hres' Hin Hsg1 Hsg2.
  apply get_factor_data_returned in Hres
    as [[Hf ->]|(ff & sf & mothers & cs & Hf & Hdb & ->)];
    apply get_factor_data_returned in Hres'
      as [[Hf' ->]|(ff' & sf' & mothers' & cs' & Hf' & Hdb' & ->)];
    try congruence.
  rewrite Hf in Hf'. injection Hf' as <- <-.
  rewrite Hdb in Hdb'. injection Hdb' as <- <-. simpl.
  rewrite !detail_entry_of_group by done.
  assert (Hl : l ≠ []) by (intros ->; by apply elem_of_nil in Hin).
  replace (filter (λ m, Detail.key_of sf m = (y, Some ag, Some sg))
             (Detail.selected ff sf start_year end_year (Some l) mothers))
    with (filter (λ m, Detail.key_of sf m = (y, Some ag, Some sg))
            (Detail.selected ff sf start_year end_year None mothers));
    [done|].
  unfold Detail.selected, Sql.where_. rewrite !list_filter_filter.
  apply list_filter_iff. intros m.
  rewrite (detail_conditions_sub_group ff sf start_year end_year l m Hl).
  split; [|tauto]. intros [Hkey Hc]. split; [done|]. split; [done|].
  exists sg. split; [|done]. unfold Detail.key_of in Hkey. congruence.
Qed.

(** The entries of a listed sub-group with and without the filter. *)
Example sub_group_filter_entries :
  let t := [factor_record 1 (Some "20-24") (Some true) None
              (Some "Gestational diabetes") None 2022 (Some 10) (Some 5%Q);
            factor_record 2 (Some "20-24") (Some true) None
              (Some "Pre-existing diabetes") None 2022 (Some 10) (Some 2%Q)] in
  (λ res, (lookup3 (age_groups res) "20-24" "Gestational diabetes" 2022,
           lookup3 (age_groups res) "20-24" "Pre-existing diabetes" 2022))
    <$> get_factor_data (Connected t []) "diabetes" None None None
          (Some ["Gestational diabetes"])
    = Returned (Some 5%Q, None) ∧
  (λ res, (lookup3 (age_groups res) "20-24" "Gestational diabetes" 2022,
           lookup3 (age_groups res) "20-24" "Pre-existing diabetes" 2022))
    <$> get_factor_data (Connected t []) "diabetes" None None None None
    = Returned (Some 5%Q, Some 2%Q).
Proof. split; vm_compute; reflexivity. Qed.

(** ** Entries of the simple view *)

(** An entry of the second pass is the percentage of one of the two
    counts of its key, whose total is not 0. *)
Lemma second_pass_entry (temp : list (string * Z * Simple.counts))
    (ag label : string) (y : Z) (v : Q) :
  NoDup temp.*1 →
  lookup3 (Simple.second_pass temp) ag label y = Some v →
  ∃ (c : Simple.counts) (has_factor : bool),
    Dict.get (ag, y) temp = Some c ∧
    Simple.get_count c true + Simple.get_count c false ≠ 0 ∧
    label = (if has_factor then "Yes" else "No") ∧
    v = Simple.percentage_of c
          (Simple.get_count c true + Simple.get_count c false) has_factor.
Proof.
  intros Hnd Hv.
  assert (Hkey : (ag, y) ∈ temp.*1)
    by (apply (second_pass_entry_key temp ag label y); by rewrite Hv).
  destruct (Dict.get (ag, y) temp) as [c|] eqn:Hget;
    [|by apply dict_get_None in Hget].
  pose proof (dict_get_elem_of _ _ _ Hget) as Hin.
  assert (Hno : ¬ (Simple.get_count c true + Simple.get_count c false ≠ 0 ∧
                   (label = "Yes" ∨ label = "No")) →
                lookup3 (Simple.second_pass temp) ag label y = None).
  { intros Hnot. unfold Simple.second_pass.
    rewrite second_pass_untouched; [apply lookup3_empty|].
    apply Forall_forall. intros [k c'] Hc' (Hk & Hne & Hlabel).
    simpl in *. subst k. apply (dict_elem_of_get _ _ _ Hnd) in Hc'.
    rewrite Hget in Hc'. injection Hc' as <-. by apply Hnot. }
  destruct (decide (Simple.get_count c true + Simple.get_count c false = 0))
    as [Hz|Hnz].
  { rewrite Hno in Hv; [done | tauto]. }
  destruct (NoDup_key_split fst temp (ag, y, c)) as (l1 & l2 & Hl & Hl2);
    [done | done |].
  destruct (decide (label = "Yes")) as [->|Hyes].
  - exists c, true. split; [done|]. split; [done|]. split; [done|].
    unfold Simple.second_pass in Hv. rewrite Hl in Hv.
    rewrite (second_pass_last_write l1 l2 ag y c true) in Hv by done.
    by injection Hv.
  - destruct (decide (label = "No")) as [->|Hnolabel].
    + exists c, false. split; [done|]. split; [done|]. split; [done|].
      unfold Simple.second_pass in Hv. rewrite Hl in Hv.
      rewrite (second_pass_last_write l1 l2 ag y c false) in Hv by done.
      by injection Hv.
    + rewrite Hno in Hv; [done | tauto].
Qed.

(** ** The list of years and the entries of the result *)

(** A key of [temp_data] whose counts do not add up to 0 has an entry
    under "Yes". *)
Lemma second_pass_entry_written (temp : list (string * Z * Simple.counts))
    (ag : string) (y : Z) (c : Simple.counts) :
  NoDup temp.*1 → Dict.get (ag, y) temp = Some c →
  Simple.get_count c true + Simple.get_count c false ≠ 0 →
  is_Some (lookup3 (Simple.second_pass temp) ag "Yes" y).
Proof.
  intros Hnd Hget Hnz.
  pose proof (dict_get_elem_of _ _ _ Hget) as Hin.
  destruct (NoDup_key_split fst temp (ag, y, c)) as (l1 & l2 & Hl & Hl2);
    [done | done |].
  unfold Simple.second_pass. rewrite Hl.
  rewrite (second_pass_last_write l1 l2 ag y c true); [eauto | done | done].
Qed.

(** C7 (as amended).  The [years] list returned by either view is
    strictly ascending, hence sorted and without duplicates, and holds
    exactly the years of the groups of the query that the guard on the
    age group keeps (none for an unrecognized factor).  In the detailed
    view these are exactly the years that have an entry in
    [age_groups].  In the simple view they are the years that have an
    entry together with the years of the (age group, year) keys of
    [temp_data] whose counts add up to 0: such a key writes no entry,
    and its year is listed all the same. *)
Theorem years_sorted_distinct_exact (db : Session) (factor_name : string)
    (age_group : option string) (start_year end_year : option Z)
    (sub_group : option (list string)) :
  (∀ res,
     get_factor_data db factor_name age_group start_year end_year sub_group
       = Returned res →
     StronglySorted Z.lt (years res) ∧ NoDup (years res) ∧
     (∀ y, y ∈ years res ↔
           ∃ ff sf mothers cs r,
             Detail.fields factor_name = Some (ff, sf) ∧
             db = Connected mothers cs ∧
             r ∈ Detail.query ff sf start_year end_year sub_group mothers ∧
             is_Some (kept_age_group (Detail.age_group r)) ∧
             Detail.year r = y) ∧
     (∀ y, y ∈ years res ↔
           ∃ ag label, is_Some (lookup3 (age_groups res) ag label y))) ∧
  (∀ res,
     get_factor_data_simple db factor_name age_group start_year end_year
       = Returned res →
     StronglySorted Z.lt (years res) ∧ NoDup (years res) ∧
     (∀ y, y ∈ years res ↔
           ∃ ff mothers cs r,
             Simple.field factor_name = Some ff ∧
             db = Connected mothers cs ∧
             r ∈ Simple.query factor_name ff start_year end_year mothers ∧
             is_Some (kept_age_group (Simple.age_group r)) ∧
             Simple.year r = y) ∧
     (∀ y, y ∈ years res ↔
           (∃ ag label, is_Some (lookup3 (age_groups res) ag label y)) ∨
           (∃ ff mothers cs ag c,
              Simple.field factor_name = Some ff ∧
              db = Connected mothers cs ∧
              Dict.get (ag, y)
                (Simple.first_pass
                   (Simple.query factor_name ff start_year end_year
                      mothers)).1 = Some c ∧
              Simple.get_count c true + Simple.get_count c false = 0))).
Proof.
  split; intros res Hres.
  - apply get_factor_data_returned in Hres
      as [[Hf ->]|(ff & sf & mothers & cs & Hf & -> & ->)]; simpl.
    + split; [constructor|]. split; [apply NoDup_nil_2|]. split.
      * intros y. split; [by intros ?%elem_of_nil|].
        intros (? & ? & ? & ? & ? & Hf' & _). by rewrite Hf in Hf'.
      * intros y. split; [by intros ?%elem_of_nil|].
        intros (ag & label & Hsome). rewrite lookup3_empty in Hsome.
        by destruct Hsome.
    + split; [apply sorted_strictly_ascending|].
      split; [apply strictly_ascending_NoDup, sorted_strictly_ascending|].
      split.
      * intros y. rewrite elem_of_sorted, detail_loop_years. split.
        -- intros (r & ? & ? & ?). by exists ff, sf, mothers, cs, r.
        -- intros (ff' & sf' & mothers' & cs' & r & Hf' & [= <- <-] & ?).
           rewrite Hf in Hf'. injection Hf' as <- <-. by exists r.
      * intros y. rewrite elem_of_sorted, detail_loop_years. split.
        -- intros (r & Hr & [ag Hag] & Hy).
           exists ag, (Py.str_or (Detail.sub_group r) "Unknown").
           apply detail_loop_entry. by exists r.
        -- intros (ag & label & (r & Hr & Hag & _ & Hy)%detail_loop_entry).
           exists r. rewrite Hag. eauto.
  - apply get_factor_data_simple_returned in Hres
      as [[Hf ->]|(ff & mothers & cs & Hf & -> & ->)]; simpl.
    + split; [constructor|]. split; [apply NoDup_nil_2|]. split.
      * intros y. split; [by intros ?%elem_of_nil|].
        intros (? & ? & ? & ? & Hf' & _). by rewrite Hf in Hf'.
      * intros y. split; [by intros ?%elem_of_nil|].
        intros [(ag & label & Hsome)|(? & ? & ? & ? & ? & Hf' & _)].
        -- rewrite lookup3_empty in Hsome. by destruct Hsome.
        -- by rewrite Hf in Hf'.
    + set (result := Simple.query factor_name ff start_year end_year mothers).
      split; [apply sorted_strictly_ascending|].
      split; [apply strictly_ascending_NoDup, sorted_strictly_ascending|].
      split.
      * intros y. rewrite elem_of_sorted, first_pass_years. split.
        -- intros (r & ? & ? & ?). by exists ff, mothers, cs, r.
        -- intros (ff' & mothers' & cs' & r & Hf' & [= <- <-] & ?).
           rewrite Hf in Hf'. injection Hf' as <-. by exists r.
      * intros y. rewrite elem_of_sorted, first_pass_years. split.
        -- intros (r & Hr & [ag Hag] & Hy).
           assert (Hkey : (ag, y) ∈ (Simple.first_pass result).1.*1)
             by (apply first_pass_keys; eauto).
           destruct (Dict.get (ag, y) (Simple.first_pass result).1)
             as [c|] eqn:Hget; [|by apply dict_get_None in Hget].
           destruct (decide (Simple.get_count c true
                             + Simple.get_count c false = 0)) as [Hz|Hnz].
           ++ right. by exists ff, mothers, cs, ag, c.
           ++ left. exists ag, "Yes".
              apply (second_pass_entry_written _ ag y c);
                [apply first_pass_NoDup | done | done].
        -- intros [(ag & label & Hsome)|
                   (ff' & mothers' & cs' & ag & c & Hf' & [= <- <-] & Hget & _)].
           ++ apply second_pass_entry_key, first_pass_keys in Hsome
                as (r & Hr & Hag & Hy).
              exists r. rewrite Hag. eauto.
           ++ rewrite Hf in Hf'. injection Hf' as <-.
              apply dict_get_elem_of in Hget.
              assert (Hkey : (ag, y) ∈ (Simple.first_pass result).1.*1).
              { change (ag, y) with (ag, y, c).1.
                by apply list_elem_of_fmap_2. }
              apply first_pass_keys in Hkey as (r & Hr & Hag & Hy).
              exists r. rewrite Hag. eauto.
Qed.

(** C7, the claim as stated fails for the simple view: the counts of
    ("25-29", 2020) add up to 0, so the second pass skips the pair and
    no group of 2020 is in the result, yet 2020 is listed beside 2021. *)
Lemma years_zero_total_group_counterexample :
  let t := [factor_record 1 (Some "25-29") (Some true) None
              (Some "Gestational diabetes") None 2020 (Some 0) (Some 3%Q);
            factor_record 2 (Some "25-29") (Some false) None
              (Some "None") None 2020 (Some 0) (Some 97%Q);
            factor_record 3 (Some "25-29") (Some true) None
              (Some "Gestational diabetes") None 2021 (Some 4) (Some 4%Q);
            factor_record 4 (Some "25-29") (Some false) None
              (Some "None") None 2021 (Some 96) (Some 96%Q)] in
  ∃ res,
    get_factor_data_simple (Connected t []) "diabetes" None None None
      = Returned res ∧
    years res = [2020; 2021] ∧
    (∀ ag label, lookup3 (age_groups res) ag label 2020 = None) ∧
    is_Some (lookup3 (age_groups res) "25-29" "Yes" 2021) ∧
    ¬ (∀ y, y ∈ years res ↔
            ∃ ag label, is_Some (lookup3 (age_groups res) ag label y)).
Proof.
  intros t.
  destruct (get_factor_data_simple (Connected t []) "diabetes" None None None)
    as [res|] eqn:Hres; [|vm_compute in Hres; discriminate Hres].
  exists res. split; [reflexivity|].
  assert (Hyears : years res = [2020; 2021]).
  { vm_compute in Hres. injection Hres as <-. reflexivity. }
  assert (Hnone : ∀ ag label, lookup3 (age_groups res) ag label 2020 = None).
  { intros ag label.
    destruct (lookup3 (age_groups res) ag label 2020) as [v|] eqn:Hv; [|done].
    apply get_factor_data_simple_returned in Hres
      as [[Hf _]|(ff & mothers & cs & Hf & [= <- <-] & ->)];
      [vm_compute in Hf; discriminate Hf|].
    injection Hf as <-. cbn [age_groups] in Hv.
    apply second_pass_entry in Hv as (c & hf & Hget & Hnz & _);
      [|apply first_pass_NoDup].
    apply dict_get_elem_of in Hget. vm_compute in Hget.
    apply elem_of_cons in Hget as [Heq|Hget].
    - injection Heq as _ ->. exfalso. apply Hnz. reflexivity.
    - apply elem_of_cons in Hget as [Heq|Hget]; [discriminate Heq|].
      by apply elem_of_nil in Hget. }
  split; [exact Hyears|]. split; [exact Hnone|]. split.
  - vm_compute in Hres. injection Hres as <-. vm_compute. eauto.
  - intros Hall. destruct (Hall 2020) as [Hlisted _].
    destruct Hlisted as (ag & label & Hsome).
    + rewrite Hyears. left.
    + rewrite Hnone in Hsome. by destruct Hsome.
Qed.

Lemma Zsum_nonneg (xs : list Z) : Forall (Z.le 0) xs → 0 ≤ Sql.Zsum xs.
Proof.
  induction 1 as [|x xs Hx _ IH]; [done|].
  unfold Sql.Zsum in *. simpl. lia.
Qed.

Lemma percentage_within (c : Simple.counts) (has_factor : bool) :
  0 ≤ Simple.get_count c true → 0 ≤ Simple.get_count c false →
  let total := Simple.get_count c true + Simple.get_count c false in
  (0 <= Simple.percentage_of c total has_factor)%Q ∧
  (Simple.percentage_of c total has_factor <= 100)%Q.
Proof.
  intros Ht Hf total. unfold Simple.percentage_of.
  destruct (decide (0 < total)) as [Hpos|Hneg].
  - rewrite bool_decide_eq_true_2 by done.
    assert (Hb : 0 ≤ Simple.get_count c has_factor ≤ total)
      by (unfold total; destruct has_factor; lia).
    revert Hb Hpos. generalize (Simple.get_count c has_factor) total.
    intros n t Hn Hpos. destruct t as [|p|p]; [lia| |lia].
    unfold Qle, Qdiv, Qmult, Qinv, inject_Z. simpl. split; nia.
  - rewrite bool_decide_eq_false_2 by done. split; [done|].
    unfold Qle. simpl. lia.
Qed.

(** X14.  When no [total_mothers] of the table is negative, every
    entry of the simple view lies between 0 and 100. *)
Theorem simple_entries_within_0_100 (mothers : list Mother.t)
    (complications : list Complication.t) (factor_name : string)
    (age_group : option string) (start_year end_year : option Z)
    (res : FactorResult) (ag label : string) (y : Z) (v : Q) :
  (∀ m n, m ∈ mothers → Mother.total_mothers m = Some n → 0 ≤ n) →
  get_factor_data_simple (Connected mothers complications) factor_name
    age_group start_year end_year = Returned res →
  lookup3 (age_groups res) ag label y = Some v →
  (0 <= v)%Q ∧ (v <= 100)%Q.
Proof.
  intros Hnonneg Hres Hv.
  apply get_factor_data_simple_returned in Hres
    as [[_ ->]|(ff & mothers' & cs & _ & [= <- <-] & ->)]; simpl in Hv.
  { by rewrite lookup3_empty in Hv. }
  set (temp := (Simple.first_pass
                  (Simple.query factor_name ff start_year end_year mothers)).1)
    in *.
  apply second_pass_entry in Hv as (c & b & Hget & Hnz & _ & ->);
    [|apply first_pass_NoDup].
  assert (Hkey : (ag, y) ∈ temp.*1).
  { apply dec_stable. rewrite <- dict_get_None. congruence. }
  apply first_pass_keys in Hkey as (r & _ & Hag & _).
  apply kept_age_group_Some in Hag as (_ & Hne & Hsent).
  assert (Hcount : ∀ b', 0 ≤ Simple.get_count c b').
  { intros b'.
    pose proof (first_pass_query_count factor_name ff start_year end_year
                  mothers ag y b') as Hc.
    unfold Simple.count_at in Hc. fold temp in Hc. rewrite Hget in Hc.
    rewrite Hc by (by apply kept_age_group_Some).
    apply Zsum_nonneg, Forall_forall. intros n Hn.
    apply list_elem_of_omap in Hn as (o & Ho & Hid). simpl in Hid. subst o.
    apply list_elem_of_fmap in Ho as (m & Hm & Hin).
    apply list_elem_of_filter in Hin as [_ Hin].
    apply elem_of_where in Hin as [Hin _]. by apply (Hnonneg m n). }
  by apply percentage_within.
Qed.

Lemma simple_entries_within_0_100_witness :
  let t := [factor_record 1 (Some "25-29") (Some true) None
              (Some "Gestational diabetes") None 2023 (Some 30) None;
            factor_record 2 (Some "25-29") (Some false) None
              (Some "None") None 2023 (Some 70) None] in
  ∃ res v,
    get_factor_data_simple (Connected t []) "diabetes" None None None
      = Returned res ∧
    lookup3 (age_groups res) "25-29" "Yes" 2023 = Some v ∧
    (0 <= v)%Q ∧ (v <= 100)%Q.
Proof.
  intros t.
  destruct (get_factor_data_simple (Connected t []) "diabetes" None None None)
    as [res|] eqn:Hres; [|vm_compute in Hres; discriminate Hres].
  destruct (lookup3 (age_groups res) "25-29" "Yes" 2023) as [v|] eqn:Hv;
    [|vm_compute in Hres; injection Hres as <-; vm_compute in Hv;
      discriminate Hv].
  exists res, v. split; [reflexivity|]. split; [exact Hv|].
  apply (simple_entries_within_0_100 t [] "diabetes" None None None res
           "25-29" "Yes" 2023 v); [|exact Hres|exact Hv].
  intros m n Hm Hn. unfold t in Hm.
  repeat (apply elem_of_cons in Hm as [->|Hm];
          [simpl in Hn; injection Hn as <-; lia|]).
  by apply elem_of_nil in Hm.
Defined.

(** ** The two views side by side *)

Lemma field_of_fields (factor_name : string) ff sf ff0 :
  Detail.fields factor_name = Some (ff, sf) →
  Simple.field factor_name = Some ff0 → ff0 = ff.
Proof.
  unfold Detail.fields, Simple.field.
  destruct (decide (factor_name = "diabetes"));
    [|destruct (decide (factor_name = "hypertension"))]; congruence.
Qed.

(** Without sub-group filter the detailed view selects every record the
    simple view selects. *)
Lemma simple_selected_sub_detail f ff sf sy ey (mothers : list Mother.t)
    (m : Mother.t) :
  m ∈ Simple.selected f ff sy ey mothers →
  m ∈ Detail.selected ff sf sy ey None mothers.
Proof.
  unfold Simple.selected, Detail.selected, Simple.conditions, Detail.conditions.
  rewrite !elem_of_where, !and_app. cbn [Py.truthy_list].
  intros (? & ? & _ & ?). repeat split; done.
Qed.

(** X15.  Over one store and the same year arguments, the simple view
    shows no year and no age group that the detailed view called
    without sub-group filter lacks. *)
Theorem simple_view_within_detailed_view (db : Session)
    (factor_name : string) (age_group age_group' : option string)
    (start_year end_year : option Z) (res res' : FactorResult) :
  get_factor_data db factor_name age_group start_year end_year None
    = Returned res →
  get_factor_data_simple db factor_name age_group' start_year end_year
    = Returned res' →
  (∀ y, y ∈ years res' → y ∈ years res) ∧
  dom (age_groups res') ⊆ dom (age_groups res).
Proof.
  intros Hres Hres'.
  apply get_factor_data_simple_returned in Hres'
    as [[_ ->]|(ff0 & mothers' & cs' & Hf0 & Hdb' & ->)]; simpl.
  { split; [by intros y ?%elem_of_nil | by rewrite dom_empty_L]. }
  apply get_factor_data_returned in Hres
    as [[Hf _]|(ff & sf & mothers & cs & Hf & Hdb & ->)].
  { apply mk_is_Some, field_recognized, fields_recognized in Hf0
      as [? Hf0]. congruence. }
  rewrite Hdb in Hdb'. injection Hdb' as <- <-.
  pose proof (field_of_fields _ _ _ _ Hf Hf0) as ->. simpl.
  split.
  - intros y. rewrite !elem_of_sorted, simple_years_selected,
      detail_years_selected.
    intros (m & Hm & ? & ?). exists m.
    split; [by apply (simple_selected_sub_detail factor_name)|done].
  - intros ag Hag.
    apply second_pass_dom in Hag as ([[ag' y] c] & Hin & Hag).
    simpl in Hag. subst ag'.
    assert (Hkey : (ag, y) ∈ (Simple.first_pass
              (Simple.query factor_name ff start_year end_year mothers)).1.*1).
    { change (ag, y) with (ag, y, c).1. by apply list_elem_of_fmap_2. }
    apply first_pass_keys in Hkey as (r & Hr & Hkept & _).
    apply elem_of_simple_query in Hr as [(m & Hm & Hkey) _].
    apply (simple_selected_sub_detail factor_name ff sf) in Hm.
    apply detail_loop_dom.
    exists (Detail.mk (Mother.year m) (Mother.age_group m) (sf m)
              (Sql.avg (Mother.percentage
                          <$> filter (λ m', Detail.key_of sf m'
                                            = Detail.key_of sf m)
                                (Detail.selected ff sf start_year end_year
                                   None mothers)))).
    split.
    + apply elem_of_detail_query. split; [by exists m | done].
    + simpl. unfold Simple.key_of, Simple.row_key in Hkey.
      injection Hkey as _ Ha _. by rewrite Ha.
Qed.

Lemma simple_view_within_detailed_view_witness :
  let t := [factor_record 1 (Some "25-29") (Some true) None
              (Some "Gestational diabetes") None 2023 (Some 30) (Some 3%Q);
            factor_record 2 (Some "25-29") (Some true) None
              (Some "Total") None 2022 (Some 70) (Some 7%Q)] in
  ∃ res res',
    get_factor_data (Connected t []) "diabetes" None None None None
      = Returned res ∧
    get_factor_data_simple (Connected t []) "diabetes" None None None
      = Returned res' ∧
    (∀ y, y ∈ years res' → y ∈ years res) ∧
    dom (age_groups res') ⊆ dom (age_groups res).
Proof.
  intros t.
  destruct (get_factor_data (Connected t []) "diabetes" None None None None)
    as [res|] eqn:Hres; [|vm_compute in Hres; discriminate Hres].
  destruct (get_factor_data_simple (Connected t []) "diabetes" None None None)
    as [res'|] eqn:Hres'; [|vm_compute in Hres'; discriminate Hres'].
  exists res, res'. split; [reflexivity|]. split; [reflexivity|].
  exact (simple_view_within_detailed_view (Connected t []) "diabetes" None None
           None None res res' Hres Hres').
Defined.

(** The pregnant scenario on a small store: the district restricts the
    births, not the babies. *)
Example pregnant_scenario_of_a_district :
  let births := [birth_record 1 (Some "Vaginal") (Some "Spontaneous")
                   (Some "term") (Some "Sydney") 2023 (Some 60%Q);
                 birth_record 2 (Some "Caesarean") (Some "Induced")
                   (Some "preterm") (Some "Sydney") 2023 (Some 40%Q);
                 birth_record 3 (Some "Vaginal") (Some "Spontaneous")
                   (Some "term") None 2023 (Some 50%Q);
                 birth_record 4 (Some "Vaginal") (Some "Spontaneous")
                   (Some "term") (Some "Sydney") 2022 (Some 70%Q)] in
  let babies := [baby_record 1 (Some "low") None (Some true) (Some "Hunter")
                   2023 (Some 6%Q);
                 baby_record 2 (Some "normal") (Some false) None
                   (Some "Sydney") 2023 (Some 94%Q)] in
  (λ r, (Pregnant.count <$> Pregnant.labour_onset r,
         Pregnant.figure_count (Pregnant.preterm r),
         Pregnant.figure_count (Pregnant.low_birth_weight r),
         Pregnant.figure_count (Pregnant.nicu r)))
    <$> get_pregnant_scenario_data (Pregnant.Connected births babies)
          (Some "25-29") (Some "<12") (Some 20) (Some "Sydney")
  = Returned ([1; 1], 1, 1, 1).
Proof. vm_compute. reflexivity. Qed.
